(** * The PCRE2 adapter of nginx, [src/core/ngx_regex.c]

    A shallow embedding of the regex adapter: pattern compilation with its
    capture metadata, the registry of compiled patterns ([ngx_pcre_studies]),
    the JIT pass of [ngx_regex_module_init], the array executor, the
    [pcre_jit] directive handler and the teardown hook.

    The PCRE2 library is an external collaborator: it is a record of
    oracles, and every call made to it is recorded.  The C state the
    functions share (the static registry pointer, the lists it points to,
    the cleanup handlers of the cycle pool) is threaded explicitly through
    a state monad that also collects the calls made and can fail, which
    stands for a NULL dereference or an out-of-bounds read. *)

From Stdlib Require Import ZArith List String Ascii DecimalString.
From stdpp Require Import base numbers list gmap.
Import ListNotations.
Local Open Scope Z_scope.

(** ** C strings and [ngx_str_t] *)

Abbreviation bytes := (list ascii).

Definition NUL : ascii := Ascii.zero.

(** The double quote character, escaped in the C format strings. *)
Definition dq : bytes := [ascii_of_nat 34].

Definition lit (s : string) : bytes := list_ascii_of_string s.

(** The bytes a [char *] denotes: the memory from the pointer up to, and
    without, the first NUL. *)
Fixpoint c_str (p : bytes) : bytes :=
  match p with
  | [] => []
  | c :: p' => if Ascii.eqb c NUL then [] else c :: c_str p'
  end.

(** [ngx_str_t] (declared in [ngx_string.h], used here through [len] and
    [data]): [data] is the memory that starts at the pointer, [len] the
    length the structure declares. *)
Record ngx_str_t := Ngx_str { len : nat; data : bytes }.

(** The text of an [ngx_str_t], what [%V] prints. *)
Definition ngx_str_value (s : ngx_str_t) : bytes := take (len s) (data s).

(** [ngx_string("...")] and the configuration parser produce NUL-terminated
    strings whose [len] does not count the terminator. *)
Definition ngx_string (text : bytes) : ngx_str_t :=
  {| len := length text; data := text ++ [NUL] |}.

(** ** [ngx_snprintf] *)

Inductive fmt_arg :=
| Arg_s (p : bytes)          (* %s : u_char *, NUL-terminated *)
| Arg_V (v : ngx_str_t)      (* %V : ngx_str_t * *)
| Arg_d (n : Z).             (* %d : int, %i : ngx_int_t *)

(** Modelled from the spec: [ngx_sprintf_num] of [src/core/ngx_string.c],
    which is not under src/, for the "numeric failure code" of a message:
    the signed decimal writing of [n]. *)
Definition sprintf_num (n : Z) : bytes :=
  lit (NilZero.string_of_int (Z.to_int n)).

(** Modelled from the spec: one conversion of [ngx_vslprintf], on the
    argument it consumes; [%s] prints a NUL-terminated string, [%V] the
    [len] bytes of an [ngx_str_t], [%d] and [%i] a signed decimal. *)
Definition directive (d : ascii) (a : option fmt_arg) : bytes :=
  match a with
  | Some (Arg_s p) => if Ascii.eqb d "s" then c_str p else []
  | Some (Arg_V v) => if Ascii.eqb d "V" then ngx_str_value v else []
  | Some (Arg_d n) =>
      if Ascii.eqb d "d" || Ascii.eqb d "i" then sprintf_num n else []
  | None => []
  end.

(** Modelled from the spec: [ngx_vslprintf] of [src/core/ngx_string.c],
    which is not under src/.  The error buffer "receives a human-readable
    message truncated to fit": the format is expanded left to right, each
    conversion consuming one argument, and [ngx_snprintf] keeps what fits in
    [max] bytes.  Only the conversions this file uses are modelled. *)
Fixpoint ngx_vslprintf (fmt : bytes) (args : list fmt_arg) {struct fmt} : bytes :=
  match fmt with
  | [] => []
  | c :: fmt' =>
      if Ascii.eqb c "%" then
        match fmt' with
        | [] => []
        | d :: fmt'' => directive d (head args) ++ ngx_vslprintf fmt'' (tail args)
        end
      else c :: ngx_vslprintf fmt' args
  end.

(** [ngx_snprintf(buf, max, fmt, ...)]: the buffer afterwards and the number
    of bytes written (the returned pointer minus [buf]). *)
Definition ngx_snprintf (buf : bytes) (max : nat) (fmt : bytes)
    (args : list fmt_arg) : bytes * nat :=
  let out := take max (ngx_vslprintf fmt args) in
  (out ++ drop (length out) buf, length out).

(** ** Return codes and log levels *)

(** Modelled from the spec: the return codes of [ngx_core.h], which is not
    under src/; the spec asks that the declined outcome be distinct from
    both the matched and the error outcome. *)
Definition NGX_OK : Z := 0.
Definition NGX_ERROR : Z := -1.
Definition NGX_DECLINED : Z := -5.

(** Modelled from the spec: [NGX_REGEX_NO_MATCHED] of [ngx_regex.h], the
    engine's designated "no match" sentinel, a negative code
    ([PCRE2_ERROR_NOMATCH]). *)
Definition NGX_REGEX_NO_MATCHED : Z := -1.

(** Modelled from the spec: [NGX_CONF_UNSET] of [ngx_conf_file.h]. *)
Definition NGX_CONF_UNSET : Z := -1.

(** Modelled from the spec: the severities of [ngx_log.h], which is not
    under src/, that this file logs at: alert, warning, informational. *)
Inductive ngx_log_level := NGX_LOG_ALERT | NGX_LOG_WARN | NGX_LOG_INFO.

(** Modelled from the spec: [NGX_CONF_OK] of [ngx_conf_file.h], the result
    with which "configuration load still succeeds": the NULL [char *],
    where an error would be a message. *)
Definition NGX_CONF_OK : option bytes := None.

(** ** The data model *)

(** An engine-compiled pattern, [pcre2_code *]: the identity of the object
    the engine allocated. *)
Abbreviation pcre2_code := nat.

(** [ngx_regex_t], through the one field this file uses. *)
Record ngx_regex_t := Ngx_regex { code : pcre2_code }.

(** [ngx_regex_elt_t]: [name] is the memory at the [u_char *name] pointer. *)
Record ngx_regex_elt_t := Ngx_regex_elt { regex : ngx_regex_t; name : bytes }.

Inductive pcre2_info :=
| PCRE2_INFO_CAPTURECOUNT | PCRE2_INFO_NAMECOUNT
| PCRE2_INFO_NAMEENTRYSIZE | PCRE2_INFO_NAMETABLE.

(** [ngx_regex_compile_t], through the fields [ngx_regex_compile] reads and
    writes; [err] is the caller's buffer, [len (err rc)] its capacity on
    entry and the length of the message on return.  The [pool] field is the
    allocator of the world below. *)
Record ngx_regex_compile_t := Ngx_regex_compile {
  pattern : ngx_str_t;
  options : Z;
  rc_regex : option ngx_regex_t;
  captures : Z;
  named_captures : Z;
  name_size : Z;
  names : Z;
  err : ngx_str_t
}.

Definition set_err (rc : ngx_regex_compile_t) (e : ngx_str_t) :=
  Ngx_regex_compile (pattern rc) (options rc) (rc_regex rc) (captures rc)
    (named_captures rc) (name_size rc) (names rc) e.
Definition set_regex (rc : ngx_regex_compile_t) (r : option ngx_regex_t) :=
  Ngx_regex_compile (pattern rc) (options rc) r (captures rc)
    (named_captures rc) (name_size rc) (names rc) (err rc).
Definition set_captures (rc : ngx_regex_compile_t) (v : Z) :=
  Ngx_regex_compile (pattern rc) (options rc) (rc_regex rc) v
    (named_captures rc) (name_size rc) (names rc) (err rc).
Definition set_named_captures (rc : ngx_regex_compile_t) (v : Z) :=
  Ngx_regex_compile (pattern rc) (options rc) (rc_regex rc) (captures rc)
    v (name_size rc) (names rc) (err rc).
Definition set_name_size (rc : ngx_regex_compile_t) (v : Z) :=
  Ngx_regex_compile (pattern rc) (options rc) (rc_regex rc) (captures rc)
    (named_captures rc) v (names rc) (err rc).
Definition set_names (rc : ngx_regex_compile_t) (v : Z) :=
  Ngx_regex_compile (pattern rc) (options rc) (rc_regex rc) (captures rc)
    (named_captures rc) (name_size rc) v (err rc).

(** [ngx_list_part_t] and [ngx_list_t] of [ngx_list.h], holding
    [ngx_regex_elt_t], through the fields the loops of this file read:
    [nelts] is the length of [elts], [next] is [None] for the NULL pointer.
    The [last] pointer of the list is the end of the chain, and [nalloc] the
    capacity of a part, which only [ngx_list_push] looks at. *)
#[warnings="-register-all"]
Inductive ngx_list_part_t :=
  Ngx_list_part { elts : list ngx_regex_elt_t; next : option ngx_list_part_t }.

Record ngx_list_t := Ngx_list { part : ngx_list_part_t; nalloc : nat }.

Definition nelts (p : ngx_list_part_t) : nat := length (elts p).

(** The entries of a list in traversal order. *)
Fixpoint part_entries (p : ngx_list_part_t) : list ngx_regex_elt_t :=
  match p with
  | Ngx_list_part es None => es
  | Ngx_list_part es (Some q) => es ++ part_entries q
  end.

Definition entries (l : ngx_list_t) : list ngx_regex_elt_t :=
  part_entries (part l).

(** ** The engine, the world and the monad *)

(** The PCRE2 library as the adapter sees it.  [compile_verdict] is [None]
    when the engine accepts the pattern and [Some (errcode, erroff)] when it
    rejects it; the fresh [pcre2_code] of an accepted pattern comes from the
    world.  [pattern_info] gives the return code and the value the engine
    stores through the output pointer when the code is not negative,
    [config_jit] the return code and the value of the output variable after
    the call. *)
Record pcre2_engine := Pcre2_engine {
  compile_verdict : bytes -> Z -> option (Z * nat);
  error_message : Z -> bytes;
  pattern_info : pcre2_code -> pcre2_info -> Z * Z;
  jit_verdict : pcre2_code -> Z;
  config_jit : Z * Z
}.

Abbreviation addr := nat.

(** A call made to a collaborator, with its result. *)
Inductive event :=
| Ev_pcre2_compile (pat : bytes) (opts : Z) (r : pcre2_code + Z * nat)
| Ev_pcre2_get_error_message (errcode : Z)
| Ev_pcre2_pattern_info (re : pcre2_code) (what : pcre2_info) (n : Z)
| Ev_pcre2_jit_compile (re : pcre2_code) (n : Z)
| Ev_pcre2_code_free (re : pcre2_code)
| Ev_pcre2_config_jit (r : Z)
| Ev_ngx_regex_exec (re : ngx_regex_t) (s : ngx_str_t) (n : Z)
| Ev_ngx_list_push (l : addr) (ok : bool)
| Ev_ngx_log_error (level : ngx_log_level) (msg : bytes).

(** The only cleanup handler this file installs. *)
Inductive cleanup_handler := Handler_ngx_pcre_free_studies.

(** [ngx_pool_cleanup_t]: [handler] and [data], NULL as [None]. *)
Record ngx_pool_cleanup_t := Ngx_pool_cleanup {
  handler : option cleanup_handler;
  cln_data : option addr
}.

(** The state the functions of the file share.  [ngx_pcre_studies] is the
    static pointer, [lists] the [ngx_list_t] objects it and the cleanup
    records point to, [cleanup] the handlers of the cycle pool (most recent
    first), [alloc_oracle] decides which of the coming pool allocations
    succeed (all of them once it is exhausted), [next_code] is the next
    object the engine allocates. *)
Record world := World {
  ngx_pcre_studies : option addr;
  lists : gmap addr ngx_list_t;
  cleanup : list ngx_pool_cleanup_t;
  alloc_oracle : list bool;
  next_code : pcre2_code
}.

Definition upd_studies (w : world) (s : option addr) :=
  World s (lists w) (cleanup w) (alloc_oracle w) (next_code w).
Definition upd_lists (w : world) (m : gmap addr ngx_list_t) :=
  World (ngx_pcre_studies w) m (cleanup w) (alloc_oracle w) (next_code w).
Definition upd_cleanup (w : world) (c : list ngx_pool_cleanup_t) :=
  World (ngx_pcre_studies w) (lists w) c (alloc_oracle w) (next_code w).
Definition upd_alloc (w : world) (o : list bool) :=
  World (ngx_pcre_studies w) (lists w) (cleanup w) o (next_code w).
Definition upd_next_code (w : world) (n : pcre2_code) :=
  World (ngx_pcre_studies w) (lists w) (cleanup w) (alloc_oracle w) n.

(** A computation takes the world and gives its result, the world
    afterwards and the calls it made, in order; [None] is a NULL
    dereference or a read past the elements of a list part. *)
Definition M (A : Type) : Type := world -> option (A * world * list event).

Definition ret {A} (a : A) : M A := fun w => Some (a, w, []).
(** The outcome [r], after the calls [t] were made. *)
Definition after {A} (t : list event) (r : option (A * world * list event))
    : option (A * world * list event) :=
  match r with
  | Some (a, w, t') => Some (a, w, t ++ t')
  | None => None
  end.
Definition bind {A B} (m : M A) (k : A -> M B) : M B :=
  fun w => match m w with
           | Some (a, w1, t1) => after t1 (k a w1)
           | None => None
           end.
Definition crash {A} : M A := fun _ => None.
Definition gets {A} (f : world -> A) : M A := fun w => Some (f w, w, []).
Definition modify (f : world -> world) : M unit := fun w => Some (tt, f w, []).
Definition emit (e : event) : M unit := fun w => Some (tt, w, [e]).

Notation "x <- m ;; k" := (bind m (fun x => k))
  (at level 100, m at next level, right associativity).
Notation "m ;;; k" := (bind m (fun _ => k))
  (at level 100, right associativity).

(** What a run shows: its result, the world it leaves, the calls it made. *)
Definition result_of {A} (m : M A) (w : world) : option A :=
  match m w with Some (a, _, _) => Some a | None => None end.
Definition events_of {A} (m : M A) (w : world) : list event :=
  match m w with Some (_, _, t) => t | None => [] end.

(** Modelled from the spec: the pool allocator ([ngx_palloc], [ngx_pcalloc]
    of [ngx_palloc.c], not under src/); memory exhaustion returns NULL,
    here [false]. *)
Definition ngx_palloc : M bool :=
  fun w => Some (hd true (alloc_oracle w), upd_alloc w (tl (alloc_oracle w)), []).

Definition load_list (a : addr) : M ngx_list_t :=
  fun w => match lists w !! a with
           | Some l => Some (l, w, [])
           | None => None
           end.

Definition store_list (a : addr) (l : ngx_list_t) : M unit :=
  modify (fun w => upd_lists w (<[a := l]> (lists w))).

(** The part the [last] pointer of a list designates. *)
Fixpoint last_part (p : ngx_list_part_t) : ngx_list_part_t :=
  match p with
  | Ngx_list_part es None => Ngx_list_part es None
  | Ngx_list_part es (Some q) => last_part q
  end.

Fixpoint set_last (f : ngx_list_part_t -> ngx_list_part_t)
    (p : ngx_list_part_t) : ngx_list_part_t :=
  match p with
  | Ngx_list_part es None => f (Ngx_list_part es None)
  | Ngx_list_part es (Some q) => Ngx_list_part es (Some (set_last f q))
  end.

(** Modelled from the spec: [ngx_list_push] of [ngx_list.c], not under
    src/, followed by the assignments that fill the new element: the
    registry is an "ordered, append-only sequence".  A full last part
    ([nelts == nalloc]) first needs a new part, which takes two allocations;
    when either fails the list is left as it was and NULL is returned. *)
Definition ngx_list_push (a : addr) (e : ngx_regex_elt_t) : M bool :=
  l <- load_list a ;;
  ok <- (if (nelts (last_part (part l)) =? nalloc l)%nat then
           ok1 <- ngx_palloc ;;
           if ok1 then
             ok2 <- ngx_palloc ;;
             if ok2 then
               store_list a (Ngx_list
                 (set_last (fun p => Ngx_list_part (elts p)
                                       (Some (Ngx_list_part [e] None))) (part l))
                 (nalloc l)) ;;;
               ret true
             else ret false
           else ret false
         else
           store_list a (Ngx_list
             (set_last (fun p => Ngx_list_part (elts p ++ [e]) None) (part l))
             (nalloc l)) ;;;
           ret true) ;;
  emit (Ev_ngx_list_push a ok) ;;;
  ret ok.

(** ** The engine calls *)

Section Engine.

Variable pcre2 : pcre2_engine.

Definition pcre2_compile (pat : bytes) (opts : Z) : M (pcre2_code + Z * nat) :=
  match compile_verdict pcre2 pat opts with
  | Some e =>
      emit (Ev_pcre2_compile pat opts (inr e)) ;;;
      ret (inr e)
  | None =>
      re <- gets next_code ;;
      modify (fun w => upd_next_code w (S re)) ;;;
      emit (Ev_pcre2_compile pat opts (inl re)) ;;;
      ret (inl re)
  end.

(** [pcre2_get_error_message(errcode, errstr, size)]: the buffer afterwards,
    at most [size - 1] bytes of text and the NUL. *)
Definition pcre2_get_error_message (errcode : Z) (size : nat) : M bytes :=
  emit (Ev_pcre2_get_error_message errcode) ;;;
  ret (take (size - 1) (c_str (error_message pcre2 errcode)) ++ [NUL]).

Definition pcre2_pattern_info (re : pcre2_code) (what : pcre2_info) : M (Z * Z) :=
  emit (Ev_pcre2_pattern_info re what (fst (pattern_info pcre2 re what))) ;;;
  ret (pattern_info pcre2 re what).

Definition pcre2_jit_compile (re : pcre2_code) : M Z :=
  emit (Ev_pcre2_jit_compile re (jit_verdict pcre2 re)) ;;;
  ret (jit_verdict pcre2 re).

Definition pcre2_code_free (re : pcre2_code) : M unit :=
  emit (Ev_pcre2_code_free re).

Definition pcre2_config_jit : M (Z * Z) :=
  emit (Ev_pcre2_config_jit (fst (config_jit pcre2))) ;;;
  ret (config_jit pcre2).

End Engine.

(** ** The host calls *)

(** The cast [(int) x] of a wider signed integer. *)
Definition to_int (z : Z) : Z := (z + 2 ^ 31) mod 2 ^ 32 - 2 ^ 31.

(** Modelled from the spec: [ngx_log_error] of [ngx_log.h], not under src/;
    the host's logging facility "receives diagnostic messages", here the
    level and the expanded text. *)
Definition ngx_log_error (level : ngx_log_level) (fmt : bytes)
    (args : list fmt_arg) : M unit :=
  emit (Ev_ngx_log_error level (ngx_vslprintf fmt args)).

(** Modelled from the spec: [ngx_conf_log_error] of [ngx_conf_file.c], not
    under src/; it reaches the same logging facility. *)
Definition ngx_conf_log_error (level : ngx_log_level) (fmt : bytes)
    (args : list fmt_arg) : M unit :=
  emit (Ev_ngx_log_error level (ngx_vslprintf fmt args)).

(** Modelled from the spec: [ngx_pool_cleanup_add(pool, 0)] of
    [ngx_palloc.c], not under src/: the generation's resource scope takes
    one more destructor record, whose handler and data the caller sets. *)
Definition ngx_pool_cleanup_add : M bool :=
  ok <- ngx_palloc ;;
  if ok then
    modify (fun w => upd_cleanup w (Ngx_pool_cleanup None None :: cleanup w)) ;;;
    ret true
  else ret false.

(** [cln->handler = h; cln->data = d] on the record just added. *)
Definition set_cln (h : cleanup_handler) (d : option addr) : M unit :=
  modify (fun w => upd_cleanup w
            match cleanup w with
            | [] => []
            | _ :: c => Ngx_pool_cleanup (Some h) d :: c
            end).

(** Modelled from the spec: [ngx_list_create] of [ngx_list.c], not under
    src/: a new empty list at a fresh address, after two allocations. *)
Definition ngx_list_create (n : nat) : M (option addr) :=
  ok1 <- ngx_palloc ;;
  if ok1 then
    ok2 <- ngx_palloc ;;
    if ok2 then
      a <- gets (fun w => fresh (dom (lists w))) ;;
      store_list a (Ngx_list (Ngx_list_part [] None) n) ;;;
      ret (Some a)
    else ret None
  else ret None.

(** ** The functions of [ngx_regex.c] *)

Definition fmt_compile_failed : bytes :=
  lit "pcre2_compile() failed: %s in " ++ dq ++ lit "%V" ++ dq.
Definition fmt_compile_failed_at : bytes :=
  lit "pcre2_compile() failed: %s in " ++ dq ++ lit "%V" ++ dq
    ++ lit " at " ++ dq ++ lit "%s" ++ dq.
Definition fmt_info_failed (what : pcre2_info) : bytes :=
  lit "pcre2_pattern_info(" ++ dq ++ lit "%V" ++ dq ++
  match what with
  | PCRE2_INFO_CAPTURECOUNT => lit ", PCRE2_INFO_CAPTURECOUNT) failed: %d"
  | PCRE2_INFO_NAMECOUNT => lit ", PCRE2_INFO_NAMECOUNT) failed: %d"
  | PCRE2_INFO_NAMEENTRYSIZE => lit ", PCRE2_INFO_NAMEENTRYSIZE) failed: %d"
  | PCRE2_INFO_NAMETABLE => lit ", PCRE2_INFO_NAMETABLE) failed: %d"
  end.
Definition fmt_nomem : bytes :=
  lit "regex " ++ dq ++ lit "%V" ++ dq ++ lit " compilation failed: no memory".
Definition fmt_exec_failed : bytes :=
  lit " failed: %i on " ++ dq ++ lit "%V" ++ dq ++ lit " using " ++ dq
    ++ lit "%s" ++ dq.
Definition fmt_jit_unsupported : bytes :=
  lit "JIT compiler does not support pattern: " ++ dq ++ lit "%s" ++ dq.

(** [rc->err.len = ngx_snprintf(rc->err.data, rc->err.len, fmt, ...)
                   - rc->err.data] *)
Definition snprintf_err (rc : ngx_regex_compile_t) (fmt : bytes)
    (args : list fmt_arg) : ngx_regex_compile_t :=
  let r := ngx_snprintf (data (err rc)) (len (err rc)) fmt args in
  set_err rc (Ngx_str (snd r) (fst r)).

Section Adapter.

Variable pcre2 : pcre2_engine.

(** The build option [NGX_HAVE_PCRE_JIT]. *)
Variable NGX_HAVE_PCRE_JIT : bool.

(** [ngx_regex_exec(re, s, NULL, 0)] and the string [ngx_regex_exec_n] of
    [ngx_regex.h], which is not under src/. *)
Variable ngx_regex_exec : ngx_regex_t -> ngx_str_t -> Z.
Variable ngx_regex_exec_n : bytes.

(** The labels [failed] and [nomem] of [ngx_regex_compile]. *)
Definition compile_failed (rc : ngx_regex_compile_t) (p : bytes) (n : Z)
    : M (Z * ngx_regex_compile_t) :=
  ret (NGX_ERROR, snprintf_err rc p [Arg_V (pattern rc); Arg_d n]).

Definition compile_nomem (rc : ngx_regex_compile_t)
    : M (Z * ngx_regex_compile_t) :=
  ret (NGX_ERROR, snprintf_err rc fmt_nomem [Arg_V (pattern rc)]).

(** Lines 120 to 152: the capture metadata. *)
Definition compile_metadata (re : pcre2_code) (rc : ngx_regex_compile_t)
    : M (Z * ngx_regex_compile_t) :=
  r <- pcre2_pattern_info pcre2 re PCRE2_INFO_CAPTURECOUNT ;;
  if fst r <? 0 then compile_failed rc (fmt_info_failed PCRE2_INFO_CAPTURECOUNT) (fst r)
  else
    let rc := set_captures rc (snd r) in
    if captures rc =? 0 then ret (NGX_OK, rc)
    else
      r <- pcre2_pattern_info pcre2 re PCRE2_INFO_NAMECOUNT ;;
      if fst r <? 0 then compile_failed rc (fmt_info_failed PCRE2_INFO_NAMECOUNT) (fst r)
      else
        let rc := set_named_captures rc (snd r) in
        if named_captures rc =? 0 then ret (NGX_OK, rc)
        else
          r <- pcre2_pattern_info pcre2 re PCRE2_INFO_NAMEENTRYSIZE ;;
          if fst r <? 0 then
            compile_failed rc (fmt_info_failed PCRE2_INFO_NAMEENTRYSIZE) (fst r)
          else
            let rc := set_name_size rc (snd r) in
            r <- pcre2_pattern_info pcre2 re PCRE2_INFO_NAMETABLE ;;
            if fst r <? 0 then
              compile_failed rc (fmt_info_failed PCRE2_INFO_NAMETABLE) (fst r)
            else ret (NGX_OK, set_names rc (snd r)).

Definition ngx_regex_compile (rc : ngx_regex_compile_t)
    : M (Z * ngx_regex_compile_t) :=
  r <- pcre2_compile pcre2 (c_str (data (pattern rc))) (to_int (options rc)) ;;
  match r with
  | inr (errcode, erroff) =>
      errstr <- pcre2_get_error_message pcre2 errcode 128 ;;
      if (erroff =? len (pattern rc))%nat then
        ret (NGX_ERROR,
             snprintf_err rc fmt_compile_failed
               [Arg_s errstr; Arg_V (pattern rc)])
      else
        ret (NGX_ERROR,
             snprintf_err rc fmt_compile_failed_at
               [Arg_s errstr; Arg_V (pattern rc);
                Arg_s (drop erroff (data (pattern rc)))])
  | inl re =>
      ok <- ngx_palloc ;;
      if negb ok then compile_nomem (set_regex rc None)
      else
        let rc := set_regex rc (Some (Ngx_regex re)) in
        studies <- gets ngx_pcre_studies ;;
        pushed <- match studies with
                  | Some l =>
                      ngx_list_push l
                        (Ngx_regex_elt (Ngx_regex re) (data (pattern rc)))
                  | None => ret true
                  end ;;
        if negb pushed then compile_nomem rc
        else compile_metadata re rc
  end.

(** [ngx_regex_exec_array]: the [ngx_array_t] is the list of its [nelts]
    elements, the loop goes through them from index 0. *)
Fixpoint ngx_regex_exec_array (a : list ngx_regex_elt_t) (s : ngx_str_t)
    : M Z :=
  match a with
  | [] => ret NGX_DECLINED
  | re :: a' =>
      n <- (emit (Ev_ngx_regex_exec (regex re) s (ngx_regex_exec (regex re) s)) ;;;
            ret (ngx_regex_exec (regex re) s)) ;;
      if n =? NGX_REGEX_NO_MATCHED then ngx_regex_exec_array a' s
      else if n <? 0 then
        ngx_log_error NGX_LOG_ALERT (ngx_regex_exec_n ++ fmt_exec_failed)
          [Arg_d n; Arg_V s; Arg_s (name re)] ;;;
        ret NGX_ERROR
      else ret NGX_OK
  end.

(** The loop both [ngx_pcre_free_studies] and [ngx_regex_module_init] run
    over a list:
    [for (i = 0; ; i++) { if (i >= part->nelts) { if (part->next == NULL)
    break; part = part->next; elts = part->elts; i = 0; } body(elts[i]); }].
    The bound is tested before every element of a part but the first one
    after a move to the next part: there [elts[0]] is read untested, which
    is a read past the elements when that part is empty. *)
Fixpoint for_elts (body : ngx_regex_elt_t -> M unit)
    (es : list ngx_regex_elt_t) : M unit :=
  match es with
  | [] => ret tt
  | e :: es' => body e ;;; for_elts body es'
  end.

Fixpoint list_part_loop (body : ngx_regex_elt_t -> M unit) (moved : bool)
    (p : ngx_list_part_t) : M unit :=
  match p with
  | Ngx_list_part es nxt =>
      (match es with
       | [] => if moved then crash else ret tt
       | _ :: _ => for_elts body es
       end) ;;;
      match nxt with
      | None => ret tt
      | Some q => list_part_loop body true q
      end
  end.

Definition ngx_pcre_free_studies (data : option addr) : M unit :=
  match data with
  | None => crash
  | Some a =>
      studies <- load_list a ;;
      list_part_loop (fun e => pcre2_code_free (code (regex e))) false
        (part studies)
  end.

(** [ngx_regex_conf_t], and of [ngx_cycle_t] the configuration of this
    module in [conf_ctx]; the pool and the log of the cycle are in the
    world. *)
Record ngx_regex_conf_t := Ngx_regex_conf { pcre_jit : Z }.
Record ngx_cycle_t := Ngx_cycle { conf_ctx : ngx_regex_conf_t }.

Definition jit_pass (jit : Z) (e : ngx_regex_elt_t) : M unit :=
  if NGX_HAVE_PCRE_JIT && negb (jit =? 0) then
    n <- pcre2_jit_compile pcre2 (code (regex e)) ;;
    if negb (n =? 0) then
      ngx_log_error NGX_LOG_INFO fmt_jit_unsupported [Arg_s (name e)]
    else ret tt
  else ret tt.

Definition ngx_regex_module_init (cycle : ngx_cycle_t) : M Z :=
  let jit := if NGX_HAVE_PCRE_JIT then to_int (pcre_jit (conf_ctx cycle))
             else 0 in
  cln <- ngx_pool_cleanup_add ;;
  if negb cln then ret NGX_ERROR
  else
    studies <- gets ngx_pcre_studies ;;
    set_cln Handler_ngx_pcre_free_studies studies ;;;
    match studies with
    | None => crash
    | Some a =>
        l <- load_list a ;;
        list_part_loop (jit_pass jit) false (part l) ;;;
        modify (fun w => upd_studies w None) ;;;
        ret NGX_OK
    end.

Definition ngx_regex_create_conf : M (option ngx_regex_conf_t) :=
  ok <- ngx_palloc ;;
  if negb ok then ret None
  else
    l <- ngx_list_create 8 ;;
    modify (fun w => upd_studies w l) ;;;
    match l with
    | None => ret None
    | Some _ => ret (Some (Ngx_regex_conf NGX_CONF_UNSET))
    end.

(** [ngx_conf_init_value(rcf->pcre_jit, 0)]; the result is the
    configuration afterwards and the returned [NGX_CONF_OK]. *)
Definition ngx_regex_init_conf (rcf : ngx_regex_conf_t)
    : option bytes * ngx_regex_conf_t :=
  (NGX_CONF_OK,
   if pcre_jit rcf =? NGX_CONF_UNSET then Ngx_regex_conf 0 else rcf).

(** The post handler of the [pcre_jit] directive; [fp] is the flag the
    [data] pointer designates, returned with the result. *)
Definition ngx_regex_pcre_jit (fp : Z) : M (option bytes * Z) :=
  if fp =? 0 then ret (NGX_CONF_OK, fp)
  else if NGX_HAVE_PCRE_JIT then
    c <- pcre2_config_jit pcre2 ;;
    if negb (fst c =? 0) || negb (snd c =? 1) then
      ngx_conf_log_error NGX_LOG_WARN
        (lit "PCRE library does not support JIT") [] ;;;
      ret (NGX_CONF_OK, 0)
    else ret (NGX_CONF_OK, fp)
  else
    ngx_conf_log_error NGX_LOG_WARN
      (lit "nginx was built without PCRE JIT support") [] ;;;
    ret (NGX_CONF_OK, 0).

(** Modelled from the spec: the call [c->handler(c->data)] that the
    teardown makes for a cleanup record whose handler is set. *)
Definition run_cleanup (c : ngx_pool_cleanup_t) : M unit :=
  match handler c with
  | Some Handler_ngx_pcre_free_studies => ngx_pcre_free_studies (cln_data c)
  | None => ret tt
  end.

(** Modelled from the spec: the walk of the teardown through the cleanup
    records, most recent first. *)
Fixpoint run_cleanups (cs : list ngx_pool_cleanup_t) : M unit :=
  match cs with
  | [] => ret tt
  | c :: cs' => run_cleanup c ;;; run_cleanups cs'
  end.

(** Modelled from the spec: the teardown of a configuration generation
    ([ngx_destroy_pool] of [ngx_palloc.c], not under src/): "a single
    teardown callback fires exactly once" for each record of the pool. *)
Definition ngx_destroy_pool : M unit :=
  cs <- gets cleanup ;;
  run_cleanups cs.

End Adapter.

(** ** Well-formed registries *)

(** The lists [ngx_list_create] and [ngx_list_push] build: every part but
    the first holds an element, which the loop relies on. *)
Fixpoint part_ok (moved : bool) (p : ngx_list_part_t) : bool :=
  match p with
  | Ngx_list_part es nxt =>
      (negb moved || negb (bool_decide (es = [])))
      && match nxt with
         | None => true
         | Some q => part_ok true q
         end
  end.

Definition list_ok (l : ngx_list_t) : bool := part_ok false (part l).

(** The registry a pointer designates; nothing for NULL or a pointer to no
    list. *)
Definition registry_at (w : world) (a : option addr) : option ngx_list_t :=
  match a with
  | Some a => lists w !! a
  | None => None
  end.

(** The static pointer is NULL or designates a well-formed list. *)
Definition registry_ok (w : world) : bool :=
  match ngx_pcre_studies w with
  | Some a =>
      match lists w !! a with
      | Some l => list_ok l
      | None => false
      end
  | None => true
  end.

(** The next [n] allocations succeed. *)
Definition memory_ok (n : nat) (w : world) : bool :=
  forallb id (take n (alloc_oracle w)).

(** The compiled patterns a registry holds, in traversal order. *)
Definition codes (l : ngx_list_t) : list pcre2_code :=
  map (fun e => code (regex e)) (entries l).

(** The compiled patterns of the registry a cleanup record is about. *)
Definition record_codes (w : world) (c : ngx_pool_cleanup_t)
    : list pcre2_code :=
  match registry_at w (cln_data c) with
  | Some l => codes l
  | None => []
  end.

(** A cleanup record of this file: the hook, on a registry that exists. *)
Definition cleanup_ok (w : world) (c : ngx_pool_cleanup_t) : Prop :=
  handler c = Some Handler_ngx_pcre_free_studies
  /\ exists a, cln_data c = Some a /\ is_Some (lists w !! a).

(** What holds of the world all along the load of a configuration: the
    static pointer is NULL or designates a registry; the registries are
    well formed, hold compiled patterns the engine has allocated, each of
    them once and in one registry only; the cleanup records carry the hook,
    each on a registry of its own, none on the registry still being
    filled. *)
Record world_inv (w : world) : Prop := World_inv {
  inv_registry : registry_ok w = true;
  inv_lists : forall a l, lists w !! a = Some l ->
                list_ok l = true
                /\ Forall (fun c => (c < next_code w)%nat) (codes l)
                /\ List.NoDup (codes l);
  inv_apart : forall a1 a2 l1 l2 c,
                a1 <> a2 ->
                lists w !! a1 = Some l1 -> lists w !! a2 = Some l2 ->
                In c (codes l1) -> ~ In c (codes l2);
  inv_cleanup : Forall (cleanup_ok w) (cleanup w);
  inv_records : List.NoDup (map cln_data (cleanup w));
  inv_pending : forall a, ngx_pcre_studies w = Some a ->
                  ~ In (Some a) (map cln_data (cleanup w))
}.

(** ** Observations on messages *)

Fixpoint is_prefix_of (p l : bytes) : bool :=
  match p, l with
  | [], _ => true
  | _ :: _, [] => false
  | a :: p', b :: l' => Ascii.eqb a b && is_prefix_of p' l'
  end.

(** [bytes_contains p l]: the text [p] occurs in [l]. *)
Fixpoint bytes_contains (p l : bytes) : bool :=
  is_prefix_of p l ||
  match l with
  | [] => false
  | _ :: l' => bytes_contains p l'
  end.

(** The name of a metadata query as the error message spells it. *)
Definition info_name (what : pcre2_info) : bytes :=
  match what with
  | PCRE2_INFO_CAPTURECOUNT => lit "PCRE2_INFO_CAPTURECOUNT"
  | PCRE2_INFO_NAMECOUNT => lit "PCRE2_INFO_NAMECOUNT"
  | PCRE2_INFO_NAMEENTRYSIZE => lit "PCRE2_INFO_NAMEENTRYSIZE"
  | PCRE2_INFO_NAMETABLE => lit "PCRE2_INFO_NAMETABLE"
  end.

(** The pattern of an entry reports no match on the input [s], and the
    execution that finds so. *)
Definition no_match (exec : ngx_regex_t -> ngx_str_t -> Z) (s : ngx_str_t)
    (e : ngx_regex_elt_t) : Prop :=
  exec (regex e) s = NGX_REGEX_NO_MATCHED.
Definition skipped (s : ngx_str_t) (e : ngx_regex_elt_t) : event :=
  Ev_ngx_regex_exec (regex e) s NGX_REGEX_NO_MATCHED.

(** The metadata queries among the calls of a run, in order. *)
Fixpoint queries (t : list event) : list pcre2_info :=
  match t with
  | [] => []
  | Ev_pcre2_pattern_info _ what _ :: t' => what :: queries t'
  | _ :: t' => queries t'
  end.

(** A metadata query about the compiled pattern [re]. *)
Definition is_query (re : pcre2_code) (ev : event) : Prop :=
  exists what n, ev = Ev_pcre2_pattern_info re what n.

(** The compiled patterns the engine was asked to free, in order. *)
Fixpoint freed (t : list event) : list pcre2_code :=
  match t with
  | [] => []
  | Ev_pcre2_code_free re :: t' => re :: freed t'
  | _ :: t' => freed t'
  end.

(** The compiled patterns the JIT compiler was run on, in order. *)
Fixpoint jit_compiled (t : list event) : list pcre2_code :=
  match t with
  | [] => []
  | Ev_pcre2_jit_compile re _ :: t' => re :: jit_compiled t'
  | _ :: t' => jit_compiled t'
  end.

(** The calls of one JIT attempt on a registry entry: the compilation and,
    when the engine refuses the pattern, the message logged. *)
Definition jit_attempt (pcre2 : pcre2_engine) (e : ngx_regex_elt_t)
    : list event :=
  Ev_pcre2_jit_compile (code (regex e)) (jit_verdict pcre2 (code (regex e)))
  :: (if jit_verdict pcre2 (code (regex e)) =? 0 then []
      else [Ev_ngx_log_error NGX_LOG_INFO
              (lit "JIT compiler does not support pattern: " ++ dq
                 ++ c_str (name e) ++ dq)]).

(** An append to some registry. *)
Definition is_push (ev : event) : Prop :=
  exists a ok, ev = Ev_ngx_list_push a ok.

(** A sequence of calls of [ngx_regex_compile], as the parsing of a
    configuration makes them. *)
Fixpoint compile_each (pcre2 : pcre2_engine)
    (rcs : list ngx_regex_compile_t) : M (list (Z * ngx_regex_compile_t)) :=
  match rcs with
  | [] => ret []
  | rc :: rcs' =>
      r <- ngx_regex_compile pcre2 rc ;;
      rs <- compile_each pcre2 rcs' ;;
      ret (r :: rs)
  end.

(** The calls the host makes while it loads a configuration. *)
Inductive load_call :=
| Call_create_conf
| Call_compile (rc : ngx_regex_compile_t)
| Call_pcre_jit (fp : Z)
| Call_module_init (cycle : ngx_cycle_t).

Definition do_call (pcre2 : pcre2_engine) (have : bool) (c : load_call)
    : M unit :=
  match c with
  | Call_create_conf => ngx_regex_create_conf ;;; ret tt
  | Call_compile rc => ngx_regex_compile pcre2 rc ;;; ret tt
  | Call_pcre_jit fp => ngx_regex_pcre_jit pcre2 have fp ;;; ret tt
  | Call_module_init cycle => ngx_regex_module_init pcre2 have cycle ;;; ret tt
  end.

Fixpoint do_calls (pcre2 : pcre2_engine) (have : bool) (cs : list load_call)
    : M unit :=
  match cs with
  | [] => ret tt
  | c :: cs' => do_call pcre2 have c ;;; do_calls pcre2 have cs'
  end.

(** The world a process starts in, whatever its allocator will answer. *)
Definition initial_world (oracle : list bool) : world :=
  World None ∅ [] oracle 0%nat.

(** The patterns a run executed, in order, and the messages it logged. *)
Fixpoint executed (t : list event) : list ngx_regex_t :=
  match t with
  | [] => []
  | Ev_ngx_regex_exec re _ _ :: t' => re :: executed t'
  | _ :: t' => executed t'
  end.

Fixpoint logged (t : list event) : list (ngx_log_level * bytes) :=
  match t with
  | [] => []
  | Ev_ngx_log_error level msg :: t' => (level, msg) :: logged t'
  | _ :: t' => logged t'
  end.

(** The compiled patterns the engine handed out during a run, in order. *)
Fixpoint compiled (t : list event) : list pcre2_code :=
  match t with
  | [] => []
  | Ev_pcre2_compile _ _ (inl re) :: t' => re :: compiled t'
  | _ :: t' => compiled t'
  end.

(** The engine has allocated the compiled pattern [re], and no registry
    holds it. *)
Definition unregistered (re : pcre2_code) (w : world) : Prop :=
  (re < next_code w)%nat
  /\ forall a l, lists w !! a = Some l -> ~ In re (codes l).

(** The text of the no-memory error. *)
Definition nomem_message (rc : ngx_regex_compile_t) : bytes :=
  lit "regex " ++ dq ++ ngx_str_value (pattern rc) ++ dq
    ++ lit " compilation failed: no memory".

(** A pattern whose execution on [s] ends the loop of
    [ngx_regex_exec_array]: anything but [NGX_REGEX_NO_MATCHED]; and the
    elements the loop gets to, up to the first such pattern. *)
Definition decisive (exec : ngx_regex_t -> ngx_str_t -> Z) (s : ngx_str_t)
    (e : ngx_regex_elt_t) : bool :=
  negb (exec (regex e) s =? NGX_REGEX_NO_MATCHED).

Fixpoint examined (exec : ngx_regex_t -> ngx_str_t -> Z) (s : ngx_str_t)
    (a : list ngx_regex_elt_t) : list ngx_regex_elt_t :=
  match a with
  | [] => []
  | e :: a' => e :: (if decisive exec s e then [] else examined exec s a')
  end.

(** What a stretch of the load from [w] to [w'] with the calls [t] may do:
    it frees no compiled pattern; the engine hands out the compiled
    patterns from [next_code w] on; and a compiled pattern a list holds
    afterwards was in that list before or was compiled on the way. *)
Definition load_step_ok (w w' : world) (t : list event) : Prop :=
  freed t = []
  /\ (next_code w <= next_code w')%nat
  /\ Forall (fun c => (next_code w <= c < next_code w')%nat) (compiled t)
  /\ forall a l re,
       lists w' !! a = Some l -> In re (codes l) ->
       (exists l0, lists w !! a = Some l0 /\ In re (codes l0))
       \/ In re (compiled t).

(** A call of [pcre2_compile]. *)
Definition is_compile (ev : event) : bool :=
  match ev with
  | Ev_pcre2_compile _ _ _ => true
  | _ => false
  end.

(** ** Concrete engines and inputs *)

Module Fixture.

(** An engine that rejects an opening parenthesis left open at the end of
    the pattern, and a closing one that nothing opened. *)
Definition verdict (pat : bytes) (opts : Z) : option (Z * nat) :=
  if decide (pat = lit "(") then Some (114, 1%nat)
  else if decide (pat = lit "a)b") then Some (122, 1%nat)
  else None.

Definition message (errcode : Z) : bytes :=
  if errcode =? 114 then lit "missing closing parenthesis"
  else lit "unmatched closing parenthesis".

Definition engine (info : pcre2_code -> pcre2_info -> Z * Z)
    (jit : pcre2_code -> Z) : pcre2_engine :=
  Pcre2_engine verdict message info jit (0, 1).

(** Two captures, one of them named. *)
Definition info_named (re : pcre2_code) (what : pcre2_info) : Z * Z :=
  match what with
  | PCRE2_INFO_CAPTURECOUNT => (0, 2)
  | PCRE2_INFO_NAMECOUNT => (0, 1)
  | PCRE2_INFO_NAMEENTRYSIZE => (0, 8)
  | PCRE2_INFO_NAMETABLE => (0, 4096)
  end.

(** The same, but the entry size cannot be read. *)
Definition info_broken (re : pcre2_code) (what : pcre2_info) : Z * Z :=
  match what with
  | PCRE2_INFO_NAMEENTRYSIZE => (-3, 0)
  | _ => info_named re what
  end.

Definition jit_all (re : pcre2_code) : Z := 0.

(** The JIT compiler refuses the second pattern. *)
Definition jit_but_second (re : pcre2_code) : Z :=
  if (re =? 1)%nat then -45 else 0.

Definition empty_world : world := World None ∅ [] [] 0%nat.

Definition request (text : string) (cap : nat) : ngx_regex_compile_t :=
  Ngx_regex_compile (ngx_string (lit text)) 0 None 0 0 0 0
    (Ngx_str cap (repeat NUL cap)).

(** Execution by the identity of the compiled pattern: 0 never matches,
    1 matches, any other one fails in the engine. *)
Definition exec (re : ngx_regex_t) (s : ngx_str_t) : Z :=
  match code re with
  | 0%nat => NGX_REGEX_NO_MATCHED
  | 1%nat => 0
  | _ => -47
  end.

Definition exec_n : bytes := lit "pcre2_match()".

Definition elt (re : pcre2_code) (text : string) : ngx_regex_elt_t :=
  Ngx_regex_elt (Ngx_regex re) (lit text ++ [NUL]).

Definition input : ngx_str_t := ngx_string (lit "/index.html").

Definition cycle_on : ngx_cycle_t := Ngx_cycle (Ngx_regex_conf 1).

(** The world once the configuration is created: an empty registry. *)
Definition created : world :=
  match ngx_regex_create_conf empty_world with
  | Some (_, w, _) => w
  | None => empty_world
  end.

(** The world once the configuration is created and two patterns are
    compiled into its registry. *)
Definition configured (pcre2 : pcre2_engine) : world :=
  match (ngx_regex_create_conf ;;;
         compile_each pcre2 [request "^/a(.*)$" 100; request "^/b" 100])
          empty_world with
  | Some (_, w, _) => w
  | None => empty_world
  end.

(** The same world once [ngx_regex_module_init] has run. *)
Definition initialised (pcre2 : pcre2_engine) : world :=
  match ngx_regex_module_init pcre2 true cycle_on (configured pcre2) with
  | Some (_, w, _) => w
  | None => empty_world
  end.

(** A process whose thirteenth allocation fails, and its world once the
    configuration is created and eight patterns fill the first part of the
    registry: the next append needs a new part. *)
Definition short_memory : list bool := repeat true 12 ++ [false].

Definition eight_patterns : list ngx_regex_compile_t :=
  map (fun text => request text 100)
    ["^/a"; "^/b"; "^/c"; "^/d"; "^/e"; "^/f"; "^/g"; "^/h"]%string.

Definition full_part (pcre2 : pcre2_engine) : world :=
  match (ngx_regex_create_conf ;;; compile_each pcre2 eight_patterns)
          (initial_world short_memory) with
  | Some (_, w, _) => w
  | None => empty_world
  end.

(** The calls of a load: the configuration is created, two patterns are
    compiled, the module is initialised; and the same load cut short before
    [ngx_regex_module_init]. *)
Definition parsing : list load_call :=
  [Call_create_conf;
   Call_compile (request "^/a(.*)$" 100);
   Call_compile (request "^/b" 100)].

Definition load : list load_call :=
  parsing ++ [Call_module_init cycle_on].

End Fixture.

(** * Properties *)

(** ** C strings and messages *)

Lemma c_str_nul_free p : Forall (fun c => c <> NUL) (c_str p).
Proof.
  induction p as [|c p IH]; simpl; [constructor|].
  destruct (Ascii.eqb_spec c NUL); constructor; auto.
Qed.

Lemma c_str_terminated t r :
  Forall (fun c => c <> NUL) t -> c_str (t ++ NUL :: r) = t.
Proof.
  induction 1 as [|c t Hc _ IH]; simpl; [reflexivity|].
  destruct (Ascii.eqb_spec c NUL); congruence.
Qed.

Lemma c_str_errstr n m : c_str (take n (c_str m) ++ [NUL]) = take n (c_str m).
Proof. apply c_str_terminated, Forall_take, c_str_nul_free. Qed.

Lemma c_str_suffix text k :
  Forall (fun c => c <> NUL) text ->
  (k <= length text)%nat ->
  c_str (drop k (data (ngx_string text))) = drop k text.
Proof.
  intros Hfree Hk. simpl. rewrite drop_app_le by exact Hk.
  apply c_str_terminated, Forall_drop, Hfree.
Qed.

Lemma snprintf_err_value rc fmt args :
  ngx_str_value (err (snprintf_err rc fmt args))
  = take (len (err rc)) (ngx_vslprintf fmt args).
Proof.
  unfold snprintf_err, ngx_snprintf, ngx_str_value; simpl.
  apply take_app_length.
Qed.

Lemma snprintf_err_len rc fmt args :
  len (err (snprintf_err rc fmt args))
  = length (take (len (err rc)) (ngx_vslprintf fmt args)).
Proof. reflexivity. Qed.

Lemma expand_compile_failed errstr pat :
  ngx_vslprintf fmt_compile_failed [Arg_s errstr; Arg_V pat]
  = lit "pcre2_compile() failed: " ++ c_str errstr ++ lit " in " ++ dq
      ++ ngx_str_value pat ++ dq.
Proof. reflexivity. Qed.

Lemma expand_compile_failed_at errstr pat p :
  ngx_vslprintf fmt_compile_failed_at [Arg_s errstr; Arg_V pat; Arg_s p]
  = lit "pcre2_compile() failed: " ++ c_str errstr ++ lit " in " ++ dq
      ++ ngx_str_value pat ++ dq ++ lit " at " ++ dq ++ c_str p ++ dq.
Proof. reflexivity. Qed.

Lemma expand_info_failed what pat n :
  ngx_vslprintf (fmt_info_failed what) [Arg_V pat; Arg_d n]
  = lit "pcre2_pattern_info(" ++ dq ++ ngx_str_value pat ++ dq ++ lit ", "
      ++ info_name what ++ lit ") failed: " ++ sprintf_num n.
Proof.
  rewrite <- (app_nil_r (sprintf_num n)).
  destruct what; reflexivity.
Qed.

Lemma expand_nomem pat :
  ngx_vslprintf fmt_nomem [Arg_V pat]
  = lit "regex " ++ dq ++ ngx_str_value pat ++ dq
      ++ lit " compilation failed: no memory".
Proof. reflexivity. Qed.

Lemma expand_jit_unsupported p :
  ngx_vslprintf fmt_jit_unsupported [Arg_s p]
  = lit "JIT compiler does not support pattern: " ++ dq ++ c_str p ++ dq.
Proof. reflexivity. Qed.

(** ** Rejected patterns *)

(** C1, as the code has it: when the engine rejects the pattern,
    [ngx_regex_compile] returns [NGX_ERROR], touches neither the registry
    nor the pool, and leaves in the error buffer the message
    [pcre2_compile() failed: <engine text> in "<pattern>"], followed, only
    when the failure offset differs from the length of the pattern, by
    [ at "<rest>"] where the rest is the pattern from the failure offset on;
    the buffer keeps what fits in its capacity.  Nothing is added when the
    offset is the length of the pattern. *)
Theorem compile_rejected_message pcre2 rc w errcode erroff :
  compile_verdict pcre2 (c_str (data (pattern rc))) (to_int (options rc))
    = Some (errcode, erroff) ->
  let errstr := take 127 (c_str (error_message pcre2 errcode)) in
  let message :=
    lit "pcre2_compile() failed: " ++ errstr ++ lit " in " ++ dq
      ++ ngx_str_value (pattern rc) ++ dq
      ++ (if (erroff =? len (pattern rc))%nat then []
          else lit " at " ++ dq ++ c_str (drop erroff (data (pattern rc)))
                 ++ dq) in
  (exists rc',
     ngx_regex_compile pcre2 rc w
       = Some (NGX_ERROR, rc', w,
               [Ev_pcre2_compile (c_str (data (pattern rc)))
                  (to_int (options rc)) (inr (errcode, erroff));
                Ev_pcre2_get_error_message errcode])
     /\ ngx_str_value (err rc') = take (len (err rc)) message
     /\ len (err rc') = length (take (len (err rc)) message)
     /\ pattern rc' = pattern rc)
  /\ (forall text,
        pattern rc = ngx_string text ->
        Forall (fun c => c <> NUL) text ->
        (erroff < length text)%nat ->
        c_str (drop erroff (data (pattern rc))) = drop erroff text).
Proof.
  intros Hv errstr message. split.
  - unfold ngx_regex_compile, pcre2_compile, bind. rewrite Hv. simpl.
    destruct (erroff =? len (pattern rc))%nat eqn:Hoff; simpl;
      eexists; (split; [reflexivity|]);
      rewrite snprintf_err_value, snprintf_err_len.
    + rewrite expand_compile_failed, c_str_errstr. auto.
    + rewrite expand_compile_failed_at, c_str_errstr. auto.
  - intros text -> Hfree Hlt. apply c_str_suffix; [exact Hfree | lia].
Qed.

Lemma compile_rejected_message_witness :
  exists rc',
    result_of (ngx_regex_compile (Fixture.engine Fixture.info_named Fixture.jit_all)
                 (Fixture.request "a)b" 100)) Fixture.empty_world
      = Some (NGX_ERROR, rc')
    /\ ngx_str_value (err rc')
       = lit "pcre2_compile() failed: unmatched closing parenthesis in "
           ++ dq ++ lit "a)b" ++ dq ++ lit " at " ++ dq ++ lit ")b" ++ dq.
Proof.
  destruct (compile_rejected_message
              (Fixture.engine Fixture.info_named Fixture.jit_all)
              (Fixture.request "a)b" 100) Fixture.empty_world 122 1%nat
              eq_refl) as [[rc' [Hrun [Hval _]]] _].
  exists rc'. split.
  - unfold result_of. rewrite Hrun. reflexivity.
  - rewrite Hval. reflexivity.
Defined.

(** C1 as stated fails: the engine rejects the pattern [(] at the offset
    that is its length, and the message written says nothing of the end of
    the pattern. *)
Lemma compile_rejected_at_end_counterexample :
  let pcre2 := Fixture.engine Fixture.info_named Fixture.jit_all in
  let rc := Fixture.request "(" 100 in
  compile_verdict pcre2 (c_str (data (pattern rc))) (to_int (options rc))
    = Some (114, len (pattern rc))
  /\ exists rc',
       result_of (ngx_regex_compile pcre2 rc) Fixture.empty_world
         = Some (NGX_ERROR, rc')
       /\ ngx_str_value (err rc')
          = lit "pcre2_compile() failed: missing closing parenthesis in "
              ++ dq ++ lit "(" ++ dq
       /\ (len (err rc') < 100)%nat
       /\ bytes_contains (lit "at end of pattern") (ngx_str_value (err rc'))
          = false.
Proof.
  split; [reflexivity|].
  eexists; split; [reflexivity|].
  repeat split; vm_compute; lia.
Qed.

(** ** The array executor *)

Section ExecArray.

Variable ngx_regex_exec : ngx_regex_t -> ngx_str_t -> Z.
Variable ngx_regex_exec_n : bytes.
Variable s : ngx_str_t.

Local Abbreviation run := (ngx_regex_exec_array ngx_regex_exec ngx_regex_exec_n).

Lemma exec_array_skip pre a w :
  Forall (no_match ngx_regex_exec s) pre ->
  run (pre ++ a) s w
  = match run a s w with
    | Some (r, w', t) => Some (r, w', map (skipped s) pre ++ t)
    | None => None
    end.
Proof.
  induction 1 as [|e pre He _ IH]; simpl.
  - destruct (run a s w) as [[[r w'] t]|]; reflexivity.
  - unfold bind at 1; simpl.
    rewrite He; simpl. rewrite IH.
    destruct (run a s w) as [[[r w'] t]|]; reflexivity.
Qed.

Lemma exec_array_exhausted a w :
  Forall (no_match ngx_regex_exec s) a ->
  run a s w = Some (NGX_DECLINED, w, map (skipped s) a).
Proof.
  intros Ha. rewrite <- (app_nil_r a) at 1. rewrite exec_array_skip by exact Ha.
  simpl. rewrite app_nil_r. reflexivity.
Qed.

Lemma exec_array_match pre e post w :
  Forall (no_match ngx_regex_exec s) pre ->
  0 <= ngx_regex_exec (regex e) s ->
  run (pre ++ e :: post) s w
  = Some (NGX_OK, w,
          map (skipped s) pre
            ++ [Ev_ngx_regex_exec (regex e) s (ngx_regex_exec (regex e) s)]).
Proof.
  intros Hpre Hn. rewrite exec_array_skip by exact Hpre.
  simpl. unfold bind; simpl.
  destruct (Z.eqb_spec (ngx_regex_exec (regex e) s) NGX_REGEX_NO_MATCHED) as [E|_].
  - unfold NGX_REGEX_NO_MATCHED in E. lia.
  - destruct (Z.ltb_spec (ngx_regex_exec (regex e) s) 0); [lia | reflexivity].
Qed.

Lemma exec_array_error pre e post w :
  Forall (no_match ngx_regex_exec s) pre ->
  ngx_regex_exec (regex e) s < 0 ->
  ngx_regex_exec (regex e) s <> NGX_REGEX_NO_MATCHED ->
  run (pre ++ e :: post) s w
  = Some (NGX_ERROR, w,
          map (skipped s) pre
            ++ [Ev_ngx_regex_exec (regex e) s (ngx_regex_exec (regex e) s);
                Ev_ngx_log_error NGX_LOG_ALERT
                  (ngx_vslprintf (ngx_regex_exec_n ++ fmt_exec_failed)
                     [Arg_d (ngx_regex_exec (regex e) s); Arg_V s;
                      Arg_s (name e)])]).
Proof.
  intros Hpre Hn Hne. rewrite exec_array_skip by exact Hpre.
  simpl. unfold bind; simpl.
  destruct (Z.eqb_spec (ngx_regex_exec (regex e) s) NGX_REGEX_NO_MATCHED) as [E|_];
    [contradiction|].
  destruct (Z.ltb_spec (ngx_regex_exec (regex e) s) 0); [reflexivity | lia].
Qed.

(** An execution that fails in the engine is the one the loop stops at. *)
Lemma exec_array_error_event a w re n :
  In (Ev_ngx_regex_exec re s n) (events_of (run a s) w) ->
  n < 0 -> n <> NGX_REGEX_NO_MATCHED ->
  exists pre e post,
    a = pre ++ e :: post /\ regex e = re /\ ngx_regex_exec re s = n
    /\ Forall (no_match ngx_regex_exec s) pre.
Proof.
  intros Hin Hn Hne. induction a as [|e a IH].
  - destruct Hin.
  - destruct (Z.eq_dec (ngx_regex_exec (regex e) s) NGX_REGEX_NO_MATCHED) as [E|E].
    + assert (He : Forall (no_match ngx_regex_exec s) [e])
        by (repeat constructor; exact E).
      unfold events_of in Hin, IH.
      change (e :: a) with ([e] ++ a) in Hin.
      rewrite (exec_array_skip [e] a w He) in Hin.
      destruct (run a s w) as [[[r w'] t]|]; [|destruct Hin].
      simpl in Hin. destruct Hin as [Hhd|Htl].
      * inversion Hhd; subst. congruence.
      * destruct (IH Htl) as (pre & e' & post & -> & Hre & Hex & Hpre).
        exists (e :: pre), e', post. repeat split; auto.
    + exists [], e, a. unfold events_of in Hin.
      destruct (Z.lt_ge_cases (ngx_regex_exec (regex e) s) 0) as [Hlt|Hge].
      * change (e :: a) with ([] ++ e :: a) in Hin.
        rewrite (exec_array_error [] e a w (List.Forall_nil _) Hlt E) in Hin.
        simpl in Hin. destruct Hin as [Hhd|[Hlog|[]]]; [|discriminate].
        inversion Hhd; subst. repeat split; auto.
      * change (e :: a) with ([] ++ e :: a) in Hin.
        rewrite (exec_array_match [] e a w (List.Forall_nil _) Hge) in Hin.
        simpl in Hin. destruct Hin as [Hhd|[]].
        inversion Hhd; subst. lia.
Qed.

End ExecArray.

Lemma vslprintf_plain_prefix p fmt args :
  Forall (fun c => c <> "%"%char) p ->
  ngx_vslprintf (p ++ fmt) args = p ++ ngx_vslprintf fmt args.
Proof.
  induction 1 as [|c p Hc _ IH]; [reflexivity|].
  simpl. destruct (Ascii.eqb_spec c "%"); [contradiction|]. now rewrite IH.
Qed.

Lemma expand_exec_failed exec_n n s p :
  Forall (fun c => c <> "%"%char) exec_n ->
  ngx_vslprintf (exec_n ++ fmt_exec_failed) [Arg_d n; Arg_V s; Arg_s p]
  = exec_n ++ lit " failed: " ++ sprintf_num n ++ lit " on " ++ dq
      ++ ngx_str_value s ++ dq ++ lit " using " ++ dq ++ c_str p ++ dq.
Proof. intros H. rewrite vslprintf_plain_prefix by exact H. reflexivity. Qed.

(** C2: whatever the array and the input, when the execution of a pattern
    returns a negative code other than [NGX_REGEX_NO_MATCHED] and every
    pattern before it in the array reports no match, so that the loop gets
    to it, [ngx_regex_exec_array] returns [NGX_ERROR] at that pattern: the
    patterns before it are executed, in order, no pattern after it is
    executed whatever it would report, and the one message logged, at alert
    level, carries the code, the input and the text of the pattern.  The
    array is [pre ++ e :: post], [e] the failing pattern; with [pre] empty
    this is the array whose first pattern fails. *)
Theorem exec_array_error_first ngx_regex_exec ngx_regex_exec_n pre e post s w :
  Forall (fun c => c <> "%"%char) ngx_regex_exec_n ->
  Forall (no_match ngx_regex_exec s) pre ->
  ngx_regex_exec (regex e) s < 0 ->
  ngx_regex_exec (regex e) s <> NGX_REGEX_NO_MATCHED ->
  pre ++ e :: post <> []
  /\ ngx_regex_exec_array ngx_regex_exec ngx_regex_exec_n (pre ++ e :: post) s w
     = Some (NGX_ERROR, w,
             map (skipped s) pre
             ++ [Ev_ngx_regex_exec (regex e) s (ngx_regex_exec (regex e) s);
                 Ev_ngx_log_error NGX_LOG_ALERT
                   (ngx_regex_exec_n ++ lit " failed: "
                      ++ sprintf_num (ngx_regex_exec (regex e) s)
                      ++ lit " on " ++ dq ++ ngx_str_value s ++ dq
                      ++ lit " using " ++ dq ++ c_str (name e) ++ dq)])
  /\ executed (events_of (ngx_regex_exec_array ngx_regex_exec ngx_regex_exec_n
                            (pre ++ e :: post) s) w)
     = map regex pre ++ [regex e]
  /\ NGX_ERROR <> NGX_OK /\ NGX_ERROR <> NGX_DECLINED.
Proof.
  intros Hplain Hpre Hn Hne.
  assert (Hrun : ngx_regex_exec_array ngx_regex_exec ngx_regex_exec_n
                   (pre ++ e :: post) s w
                 = Some (NGX_ERROR, w,
                         map (skipped s) pre
                         ++ [Ev_ngx_regex_exec (regex e) s
                               (ngx_regex_exec (regex e) s);
                             Ev_ngx_log_error NGX_LOG_ALERT
                               (ngx_regex_exec_n ++ lit " failed: "
                                  ++ sprintf_num (ngx_regex_exec (regex e) s)
                                  ++ lit " on " ++ dq ++ ngx_str_value s ++ dq
                                  ++ lit " using " ++ dq ++ c_str (name e)
                                  ++ dq)])).
  { rewrite exec_array_error by assumption.
    rewrite expand_exec_failed by exact Hplain. reflexivity. }
  split; [destruct pre; discriminate|]. split; [exact Hrun|].
  split; [|split; discriminate].
  unfold events_of. rewrite Hrun. clear.
  induction pre as [|x pre IH]; [reflexivity|].
  cbn [map app executed skipped]. now rewrite IH.
Qed.

Lemma exec_array_error_first_witness :
  ngx_regex_exec_array Fixture.exec Fixture.exec_n
    ([Fixture.elt 0 "^/a"] ++ Fixture.elt 2 "^/(b+)+$" :: [Fixture.elt 1 "^/"])
    Fixture.input Fixture.empty_world
  = Some (NGX_ERROR, Fixture.empty_world,
          [Ev_ngx_regex_exec (Ngx_regex 0) Fixture.input NGX_REGEX_NO_MATCHED;
           Ev_ngx_regex_exec (Ngx_regex 2) Fixture.input (-47);
           Ev_ngx_log_error NGX_LOG_ALERT
             (lit "pcre2_match() failed: -47 on " ++ dq ++ lit "/index.html"
                ++ dq ++ lit " using " ++ dq ++ lit "^/(b+)+$" ++ dq)]).
Proof.
  destruct (exec_array_error_first Fixture.exec Fixture.exec_n
              [Fixture.elt 0 "^/a"] (Fixture.elt 2 "^/(b+)+$")
              [Fixture.elt 1 "^/"] Fixture.input Fixture.empty_world)
    as (_ & Hrun & _).
  - repeat constructor; discriminate.
  - repeat constructor.
  - reflexivity.
  - discriminate.
  - rewrite Hrun. reflexivity.
Defined.

(** C3: [ngx_regex_exec_array] goes past every pattern that reports no
    match; at the first pattern that matches it returns [NGX_OK] and no
    later pattern is executed; when every pattern (there may be none)
    reports no match it returns [NGX_DECLINED], which is neither [NGX_OK]
    nor [NGX_ERROR].  The world is left as it was. *)
Theorem exec_array_first_match ngx_regex_exec ngx_regex_exec_n s w :
  (forall pre e post,
     Forall (no_match ngx_regex_exec s) pre ->
     0 <= ngx_regex_exec (regex e) s ->
     ngx_regex_exec_array ngx_regex_exec ngx_regex_exec_n (pre ++ e :: post) s w
     = Some (NGX_OK, w,
             map (skipped s) pre
             ++ [Ev_ngx_regex_exec (regex e) s (ngx_regex_exec (regex e) s)]))
  /\ (forall a,
        Forall (no_match ngx_regex_exec s) a ->
        ngx_regex_exec_array ngx_regex_exec ngx_regex_exec_n a s w
        = Some (NGX_DECLINED, w, map (skipped s) a))
  /\ ngx_regex_exec_array ngx_regex_exec ngx_regex_exec_n [] s w
     = Some (NGX_DECLINED, w, [])
  /\ NGX_DECLINED <> NGX_OK
  /\ NGX_DECLINED <> NGX_ERROR.
Proof.
  repeat split.
  - intros pre e post Hpre Hn. apply exec_array_match; assumption.
  - intros a Ha. apply exec_array_exhausted; assumption.
  - discriminate.
  - discriminate.
Qed.

Lemma exec_array_first_match_witness :
  ngx_regex_exec_array Fixture.exec Fixture.exec_n
    [Fixture.elt 0 "^/a"; Fixture.elt 1 "^/"; Fixture.elt 2 "^/(b+)+$"]
    Fixture.input Fixture.empty_world
  = Some (NGX_OK, Fixture.empty_world,
          [Ev_ngx_regex_exec (Ngx_regex 0) Fixture.input NGX_REGEX_NO_MATCHED;
           Ev_ngx_regex_exec (Ngx_regex 1) Fixture.input 0])
  /\ ngx_regex_exec_array Fixture.exec Fixture.exec_n
       [Fixture.elt 0 "^/a"; Fixture.elt 0 "^/b"]
       Fixture.input Fixture.empty_world
     = Some (NGX_DECLINED, Fixture.empty_world,
             [Ev_ngx_regex_exec (Ngx_regex 0) Fixture.input NGX_REGEX_NO_MATCHED;
              Ev_ngx_regex_exec (Ngx_regex 0) Fixture.input NGX_REGEX_NO_MATCHED]).
Proof.
  destruct (exec_array_first_match Fixture.exec Fixture.exec_n Fixture.input
              Fixture.empty_world) as (Hmatch & Hdecl & _).
  split.
  - apply (Hmatch [Fixture.elt 0 "^/a"] (Fixture.elt 1 "^/")
             [Fixture.elt 2 "^/(b+)+$"]).
    + repeat constructor.
    + vm_compute. discriminate.
  - apply (Hdecl [Fixture.elt 0 "^/a"; Fixture.elt 0 "^/b"]).
    repeat constructor.
Defined.

(** ** Running the monad *)

Lemma after_nil {A} (r : option (A * world * list event)) : after [] r = r.
Proof. destruct r as [[[a w] t]|]; reflexivity. Qed.

Lemma after_after {A} t1 t2 (r : option (A * world * list event)) :
  after t1 (after t2 r) = after (t1 ++ t2) r.
Proof. destruct r as [[[a w] t]|]; simpl; [rewrite app_assoc|]; reflexivity. Qed.

Lemma bind_ret {A B} (a : A) (k : A -> M B) w : bind (ret a) k w = k a w.
Proof. unfold bind, ret. apply after_nil. Qed.

Lemma bind_gets {A B} (f : world -> A) (k : A -> M B) w :
  bind (gets f) k w = k (f w) w.
Proof. unfold bind, gets. apply after_nil. Qed.

Lemma bind_modify {B} f (k : unit -> M B) w : bind (modify f) k w = k tt (f w).
Proof. unfold bind, modify. apply after_nil. Qed.

Lemma bind_emit {B} e (k : unit -> M B) w :
  bind (emit e) k w = after [e] (k tt w).
Proof. reflexivity. Qed.

Lemma bind_palloc {B} (k : bool -> M B) w :
  bind ngx_palloc k w
  = k (hd true (alloc_oracle w)) (upd_alloc w (tl (alloc_oracle w))).
Proof. unfold bind, ngx_palloc. apply after_nil. Qed.

Lemma bind_bind {A B C} (m : M A) (k1 : A -> M B) (k2 : B -> M C) w :
  bind (bind m k1) k2 w = bind m (fun a => bind (k1 a) k2) w.
Proof.
  unfold bind. destruct (m w) as [[[a w1] t1]|]; [|reflexivity].
  destruct (k1 a w1) as [[[b w2] t2]|]; [|reflexivity]. simpl.
  now rewrite after_after.
Qed.

Lemma bind_ext {A B} (m : M A) (k1 k2 : A -> M B) w :
  (forall a w1, k1 a w1 = k2 a w1) -> bind m k1 w = bind m k2 w.
Proof.
  intros H. unfold bind. destruct (m w) as [[[a w1] t1]|]; [|reflexivity].
  now rewrite H.
Qed.

Lemma bind_run {A B} (m : M A) (k : A -> M B) w a w1 t1 :
  m w = Some (a, w1, t1) -> bind m k w = after t1 (k a w1).
Proof. unfold bind. now intros ->. Qed.

Lemma bind_crash {A B} (m : M A) (k : A -> M B) w :
  m w = None -> bind m k w = None.
Proof. unfold bind. now intros ->. Qed.

Lemma events_after {A} t (r : option (A * world * list event)) e :
  In e (match after t r with Some (_, _, t') => t' | None => [] end) ->
  In e t \/ In e (match r with Some (_, _, t') => t' | None => [] end).
Proof.
  destruct r as [[[a w] t']|]; simpl; [|tauto].
  rewrite in_app_iff. tauto.
Qed.

(** ** Lists and the loop over them *)

Lemma ngx_list_part_induction (P : ngx_list_part_t -> Prop) :
  (forall es, P (Ngx_list_part es None)) ->
  (forall es q, P q -> P (Ngx_list_part es (Some q))) ->
  forall p, P p.
Proof.
  intros Hlast Hnext. fix IH 1. intros [es [q|]].
  - apply Hnext, IH.
  - apply Hlast.
Qed.

Lemma entries_push_room p e :
  part_entries (set_last (fun q => Ngx_list_part (elts q ++ [e]) None) p)
  = part_entries p ++ [e].
Proof.
  induction p as [es|es q IH] using ngx_list_part_induction; simpl.
  - reflexivity.
  - rewrite IH. apply app_assoc.
Qed.

Lemma entries_push_part p e :
  part_entries
    (set_last (fun q => Ngx_list_part (elts q) (Some (Ngx_list_part [e] None))) p)
  = part_entries p ++ [e].
Proof.
  induction p as [es|es q IH] using ngx_list_part_induction; simpl.
  - reflexivity.
  - rewrite IH. apply app_assoc.
Qed.

Lemma part_ok_push_room moved p e :
  part_ok moved p = true ->
  part_ok moved (set_last (fun q => Ngx_list_part (elts q ++ [e]) None) p) = true.
Proof.
  revert moved. induction p as [es|es q IH] using ngx_list_part_induction;
    intros moved; simpl.
  - intros _. destruct moved, es; reflexivity.
  - rewrite !andb_true_iff. intros [H1 H2]. split; auto.
Qed.

Lemma part_ok_push_part moved p e :
  part_ok moved p = true ->
  part_ok moved
    (set_last (fun q => Ngx_list_part (elts q) (Some (Ngx_list_part [e] None))) p)
  = true.
Proof.
  revert moved. induction p as [es|es q IH] using ngx_list_part_induction;
    intros moved; simpl.
  - rewrite !andb_true_iff. intros [H1 _]. auto.
  - rewrite !andb_true_iff. intros [H1 H2]. split; auto.
Qed.

Section Loop.

Variable body : ngx_regex_elt_t -> M unit.

Lemma for_elts_app es1 es2 w :
  for_elts body (es1 ++ es2) w
  = bind (for_elts body es1) (fun _ => for_elts body es2) w.
Proof.
  revert w. induction es1 as [|e es1 IH]; intros w; simpl.
  - now rewrite bind_ret.
  - rewrite bind_bind.
    apply bind_ext. intros _ w1. apply IH.
Qed.

(** On a well-formed list the loop runs the body on every entry, in
    traversal order. *)
Lemma list_part_loop_entries moved p w :
  part_ok moved p = true ->
  list_part_loop body moved p w = for_elts body (part_entries p) w.
Proof.
  revert moved w. induction p as [es|es q IH] using ngx_list_part_induction;
    intros moved w; simpl; rewrite andb_true_iff; intros [Hes Hq].
  - destruct es as [|e es].
    + destruct moved; [discriminate|]. now rewrite bind_ret.
    + transitivity (bind (for_elts body (e :: es)) (fun _ => ret tt) w);
        [reflexivity|].
      unfold bind. destruct (for_elts body (e :: es) w) as [[[[] w1] t1]|];
        [|reflexivity].
      simpl. now rewrite app_nil_r.
  - destruct es as [|e es].
    + destruct moved; [discriminate|]. rewrite bind_ret. simpl. now apply IH.
    + rewrite for_elts_app.
      transitivity (bind (for_elts body (e :: es))
                      (fun _ => list_part_loop body true q) w); [reflexivity|].
      unfold bind. destruct (for_elts body (e :: es) w) as [[[[] w1] t1]|];
        [|reflexivity].
      f_equal. now apply IH.
Qed.

End Loop.

Lemma for_elts_free es w :
  for_elts (fun e => pcre2_code_free (code (regex e))) es w
  = Some (tt, w, map (fun e => Ev_pcre2_code_free (code (regex e))) es).
Proof.
  unfold pcre2_code_free.
  induction es as [|e es IH]; simpl; [reflexivity|].
  rewrite bind_emit, IH. reflexivity.
Qed.

Lemma freed_free_events es :
  freed (map (fun e => Ev_pcre2_code_free (code (regex e))) es)
  = map (fun e => code (regex e)) es.
Proof. induction es as [|e es IH]; simpl; [|rewrite IH]; reflexivity. Qed.

Lemma freed_app t1 t2 : freed (t1 ++ t2) = freed t1 ++ freed t2.
Proof.
  induction t1 as [|e t1 IH]; simpl; [reflexivity|].
  destruct e; simpl; rewrite IH; reflexivity.
Qed.

(** One invocation of the teardown hook. *)
Lemma free_studies_run a l w :
  lists w !! a = Some l ->
  list_ok l = true ->
  ngx_pcre_free_studies (Some a) w
  = Some (tt, w, map (fun e => Ev_pcre2_code_free (code (regex e))) (entries l)).
Proof.
  intros Hl Hok. unfold ngx_pcre_free_studies.
  rewrite (bind_run _ _ w l w []) by (unfold load_list; now rewrite Hl).
  rewrite after_nil, list_part_loop_entries by exact Hok.
  apply for_elts_free.
Qed.

(** ** Appending to the registry *)

Lemma memory_ok_hd n w :
  memory_ok (S n) w = true -> hd true (alloc_oracle w) = true.
Proof.
  unfold memory_ok. destruct (alloc_oracle w) as [|b o]; simpl; [reflexivity|].
  rewrite andb_true_iff. now intros [-> _].
Qed.

Lemma memory_ok_tl n w :
  memory_ok (S n) w = true ->
  memory_ok n (upd_alloc w (tl (alloc_oracle w))) = true.
Proof.
  unfold memory_ok. destruct (alloc_oracle w) as [|b o]; simpl.
  - now rewrite take_nil.
  - rewrite andb_true_iff. now intros [_ ->].
Qed.

Lemma list_push_dangling a e w :
  lists w !! a = None -> ngx_list_push a e w = None.
Proof.
  intros Hl. unfold ngx_list_push. apply bind_crash.
  unfold load_list. now rewrite Hl.
Qed.

Lemma list_push_run a e w l :
  lists w !! a = Some l ->
  exists ok w',
    ngx_list_push a e w = Some (ok, w', [Ev_ngx_list_push a ok])
    /\ ngx_pcre_studies w' = ngx_pcre_studies w
    /\ cleanup w' = cleanup w
    /\ next_code w' = next_code w
    /\ (memory_ok 2 w = true -> ok = true)
    /\ (if ok then
          exists l', lists w' = <[a := l']> (lists w)
                     /\ entries l' = entries l ++ [e]
                     /\ (list_ok l = true -> list_ok l' = true)
        else lists w' = lists w).
Proof.
  intros Hl. unfold ngx_list_push.
  rewrite (bind_run _ _ w l w []) by (unfold load_list; now rewrite Hl).
  rewrite after_nil.
  destruct (nelts (last_part (part l)) =? nalloc l)%nat.
  - rewrite bind_bind, bind_palloc.
    destruct (hd true (alloc_oracle w)) eqn:H1.
    + rewrite bind_bind, bind_palloc. cbn [alloc_oracle upd_alloc].
      destruct (hd true (tl (alloc_oracle w))) eqn:H2.
      * unfold store_list. rewrite !bind_bind, bind_modify, bind_ret, bind_emit.
        eexists true, _. split; [reflexivity|]. simpl.
        refine (conj eq_refl (conj eq_refl (conj eq_refl (conj _ _)))).
        -- reflexivity.
        -- eexists. split; [reflexivity|]. split.
           ++ apply entries_push_part.
           ++ apply part_ok_push_part.
      * rewrite bind_ret, bind_emit.
        eexists false, _. split; [reflexivity|]. simpl.
        refine (conj eq_refl (conj eq_refl (conj eq_refl (conj _ eq_refl)))).
        intros Hm. apply memory_ok_tl, memory_ok_hd in Hm. simpl in Hm.
        congruence.
    + rewrite bind_ret, bind_emit.
      eexists false, _. split; [reflexivity|]. simpl.
      refine (conj eq_refl (conj eq_refl (conj eq_refl (conj _ eq_refl)))).
      intros Hm. apply memory_ok_hd in Hm. congruence.
  - unfold store_list. rewrite !bind_bind, bind_modify, bind_ret, bind_emit.
    eexists true, _. split; [reflexivity|]. simpl.
    refine (conj eq_refl (conj eq_refl (conj eq_refl (conj _ _)))).
    + reflexivity.
    + eexists. split; [reflexivity|]. split.
      * apply entries_push_room.
      * apply part_ok_push_room.
Qed.

(** ** Compilation of an accepted pattern *)

Ltac run_step :=
  repeat (first [ rewrite bind_bind | rewrite bind_emit | rewrite bind_ret
                | rewrite bind_gets | rewrite bind_modify
                | rewrite bind_palloc ];
          cbv beta);
  cbn [after app fst snd].

Ltac metadata_cases :=
  unfold compile_metadata, pcre2_pattern_info, compile_failed;
  repeat (run_step;
          match goal with
          | |- context [if ?b then _ else _] => destruct b eqn:?
          end);
  run_step; unfold ret; cbn [after app fst snd].

(** The metadata step leaves the world alone and only queries the engine
    about the pattern. *)
Lemma compile_metadata_run pcre2 re rc w :
  exists res t,
    compile_metadata pcre2 re rc w = Some (res, w, t)
    /\ Forall (is_query re) t
    /\ rc_regex (snd res) = rc_regex rc
    /\ pattern (snd res) = pattern rc.
Proof.
  metadata_cases;
    (eexists _, _; split; [reflexivity|]; split;
     [repeat constructor; eexists _, _; reflexivity | split; reflexivity]).
Qed.

Lemma compile_accepted_run pcre2 rc w :
  compile_verdict pcre2 (c_str (data (pattern rc))) (to_int (options rc)) = None ->
  let re := next_code w in
  let w1 := upd_alloc (upd_next_code w (S re)) (tl (alloc_oracle w)) in
  let rc1 := set_regex rc (Some (Ngx_regex re)) in
  ngx_regex_compile pcre2 rc w
  = after [Ev_pcre2_compile (c_str (data (pattern rc))) (to_int (options rc))
             (inl re)]
      (if hd true (alloc_oracle w) then
         match ngx_pcre_studies w with
         | Some a =>
             bind (ngx_list_push a (Ngx_regex_elt (Ngx_regex re)
                                      (data (pattern rc))))
               (fun pushed => if negb pushed then compile_nomem rc1
                              else compile_metadata pcre2 re rc1) w1
         | None => compile_metadata pcre2 re rc1 w1
         end
       else compile_nomem (set_regex rc None) w1).
Proof.
  intros Hv re w1 rc1. unfold ngx_regex_compile, pcre2_compile. rewrite Hv.
  run_step. f_equal. cbn [alloc_oracle upd_next_code].
  destruct (hd true (alloc_oracle w)); cbn [negb]; [|reflexivity].
  run_step. cbn [ngx_pcre_studies upd_alloc upd_next_code].
  destruct (ngx_pcre_studies w) as [a|]; [reflexivity|].
  now run_step.
Qed.

Lemma compile_rejected_events pcre2 rc w e :
  compile_verdict pcre2 (c_str (data (pattern rc))) (to_int (options rc)) = Some e ->
  queries (events_of (ngx_regex_compile pcre2 rc) w) = [].
Proof.
  intros Hv. unfold events_of, ngx_regex_compile, pcre2_compile. rewrite Hv.
  destruct e as [errcode erroff]. unfold pcre2_get_error_message. run_step.
  destruct (erroff =? len (pattern rc))%nat; reflexivity.
Qed.

Lemma queries_In re what n t :
  In (Ev_pcre2_pattern_info re what n) t -> In what (queries t).
Proof.
  induction t as [|ev t IH]; simpl; [tauto|].
  intros [->|H]; [left; reflexivity|].
  destruct ev; simpl; auto.
Qed.

(** A failing query ends the metadata step with [NGX_ERROR] and the message
    that names the query. *)
Lemma compile_metadata_failed pcre2 re rc w re' what n :
  In (Ev_pcre2_pattern_info re' what n)
     (events_of (compile_metadata pcre2 re rc) w) ->
  n < 0 ->
  exists rc' t,
    compile_metadata pcre2 re rc w = Some (NGX_ERROR, rc', w, t)
    /\ re' = re
    /\ n = fst (pattern_info pcre2 re what)
    /\ last t = Some (Ev_pcre2_pattern_info re what n)
    /\ err rc' = err (snprintf_err rc (fmt_info_failed what)
                        [Arg_V (pattern rc); Arg_d n])
    /\ rc_regex rc' = rc_regex rc.
Proof.
  unfold events_of. metadata_cases; cbn [In]; intros Hin Hn;
    repeat match goal with
           | H : _ \/ _ |- _ => destruct H
           | H : False |- _ => destruct H
           | H : Ev_pcre2_pattern_info _ _ _ = Ev_pcre2_pattern_info _ _ _ |- _ =>
               inversion H; clear H; subst
           | H : (_ <? 0) = false |- _ => apply Z.ltb_ge in H
           end;
    try lia;
    (eexists _, _; repeat (split; [reflexivity|]); reflexivity).
Qed.

(** Where a failing query leaves a call of [ngx_regex_compile]. *)
Lemma compile_query_failed pcre2 rc w re what n :
  In (Ev_pcre2_pattern_info re what n)
     (events_of (ngx_regex_compile pcre2 rc) w) ->
  n < 0 ->
  exists rc' w' push t,
    ngx_regex_compile pcre2 rc w
    = Some (NGX_ERROR, rc', w',
            Ev_pcre2_compile (c_str (data (pattern rc))) (to_int (options rc))
              (inl re) :: push ++ t)
    /\ re = next_code w
    /\ n = fst (pattern_info pcre2 re what)
    /\ Forall (is_query re) t
    /\ last t = Some (Ev_pcre2_pattern_info re what n)
    /\ err rc' = err (snprintf_err rc (fmt_info_failed what)
                        [Arg_V (pattern rc); Arg_d n])
    /\ rc_regex rc' = Some (Ngx_regex re)
    /\ ngx_pcre_studies w' = ngx_pcre_studies w
    /\ cleanup w' = cleanup w
    /\ match ngx_pcre_studies w with
       | None => push = [] /\ lists w' = lists w
       | Some a =>
           push = [Ev_ngx_list_push a true]
           /\ exists l l',
                lists w !! a = Some l
                /\ lists w' = <[a := l']> (lists w)
                /\ entries l'
                   = entries l
                     ++ [Ngx_regex_elt (Ngx_regex re) (data (pattern rc))]
                /\ (list_ok l = true -> list_ok l' = true)
       end.
Proof.
  intros Hin Hn.
  destruct (compile_verdict pcre2 (c_str (data (pattern rc)))
              (to_int (options rc))) as [e|] eqn:Hv.
  { apply queries_In in Hin.
    rewrite (compile_rejected_events _ _ _ _ Hv) in Hin. destruct Hin. }
  assert (Hmeta : forall w1 rc1,
            In (Ev_pcre2_pattern_info re what n)
               (events_of (compile_metadata pcre2 (next_code w) rc1) w1) ->
            exists rc' t,
              compile_metadata pcre2 (next_code w) rc1 w1
              = Some (NGX_ERROR, rc', w1, t)
              /\ re = next_code w
              /\ n = fst (pattern_info pcre2 re what)
              /\ Forall (is_query re) t
              /\ last t = Some (Ev_pcre2_pattern_info re what n)
              /\ err rc' = err (snprintf_err rc1 (fmt_info_failed what)
                                  [Arg_V (pattern rc1); Arg_d n])
              /\ rc_regex rc' = rc_regex rc1).
  { intros w1 rc1 Hin1.
    destruct (compile_metadata_failed _ _ _ _ _ _ _ Hin1 Hn)
      as (rc' & t & Hrun & -> & Hnv & Hlast & Herr & Hre).
    destruct (compile_metadata_run pcre2 (next_code w) rc1 w1)
      as (res & t' & Hrun' & Hq & _).
    rewrite Hrun in Hrun'. inversion Hrun'; subst res t'.
    exists rc', t. repeat (split; [assumption || reflexivity|]). exact Hre. }
  unfold events_of in Hin. rewrite (compile_accepted_run _ _ _ Hv) in *.
  apply events_after in Hin. destruct Hin as [[Hin|[]]|Hin]; [discriminate|].
  destruct (hd true (alloc_oracle w)); [|destruct Hin].
  destruct (ngx_pcre_studies w) as [a|] eqn:Hs.
  - destruct (lists w !! a) as [l|] eqn:Hl.
    2:{ rewrite bind_crash in Hin by (apply list_push_dangling; exact Hl).
        destruct Hin. }
    set (w1 := upd_alloc _ _) in *.
    destruct (list_push_run a (Ngx_regex_elt (Ngx_regex (next_code w))
                                 (data (pattern rc))) w1 l Hl)
      as (ok & w2 & Hpush & Hst & Hcl & Hnc & _ & Hlists).
    rewrite (bind_run _ _ _ _ _ _ Hpush) in *.
    apply events_after in Hin. destruct Hin as [[Hin|[]]|Hin]; [discriminate|].
    destruct ok; cbn [negb] in *; [|destruct Hin].
    destruct (Hmeta _ _ Hin) as (rc' & t & Hrun & -> & Hnv & Hq & Hlast & Herr & Hre).
    destruct Hlists as (l' & Hl' & Hent & Hok).
    exists rc', w2, [Ev_ngx_list_push a true], t. rewrite Hrun.
    split; [reflexivity|]. split; [reflexivity|]. split; [exact Hnv|].
    split; [exact Hq|]. split; [exact Hlast|]. split; [exact Herr|].
    split; [exact Hre|]. split; [rewrite Hst; exact Hs|].
    split; [rewrite Hcl; reflexivity|]. split; [reflexivity|].
    exists l, l'. rewrite Hl'. auto.
  - destruct (Hmeta _ _ Hin) as (rc' & t & Hrun & -> & Hnv & Hq & Hlast & Herr & Hre).
    eexists rc', _, [], t. rewrite Hrun.
    split; [reflexivity|]. split; [reflexivity|]. split; [exact Hnv|].
    split; [exact Hq|]. split; [exact Hlast|]. split; [exact Herr|].
    split; [exact Hre|]. split; [exact Hs|].
    split; [reflexivity|]. split; reflexivity.
Qed.

(** C5: when one of the metadata queries of a call of [ngx_regex_compile]
    returns a negative code, the call returns [NGX_ERROR] although the
    engine compiled the pattern, and the error buffer receives, cut to its
    capacity, the message
    [pcre2_pattern_info("<pattern>", <query>) failed: <code>]
    that names the query, its code and the pattern. *)
Theorem compile_metadata_query_error pcre2 rc w re what n :
  In (Ev_pcre2_pattern_info re what n)
     (events_of (ngx_regex_compile pcre2 rc) w) ->
  n < 0 ->
  let message :=
    lit "pcre2_pattern_info(" ++ dq ++ ngx_str_value (pattern rc) ++ dq
      ++ lit ", " ++ info_name what ++ lit ") failed: " ++ sprintf_num n in
  compile_verdict pcre2 (c_str (data (pattern rc))) (to_int (options rc)) = None
  /\ exists rc',
       result_of (ngx_regex_compile pcre2 rc) w = Some (NGX_ERROR, rc')
       /\ rc_regex rc' = Some (Ngx_regex re)
       /\ ngx_str_value (err rc') = take (len (err rc)) message
       /\ len (err rc') = length (take (len (err rc)) message)
       /\ ((length message <= len (err rc))%nat ->
           ngx_str_value (err rc') = message).
Proof.
  intros Hin Hn message.
  destruct (compile_verdict pcre2 (c_str (data (pattern rc)))
              (to_int (options rc))) as [e|] eqn:Hv.
  { apply queries_In in Hin.
    rewrite (compile_rejected_events _ _ _ _ Hv) in Hin. destruct Hin. }
  split; [reflexivity|].
  destruct (compile_query_failed _ _ _ _ _ _ Hin Hn)
    as (rc' & w' & push & t & Hrun & _ & _ & _ & _ & Herr & Hre & _).
  exists rc'. unfold result_of. rewrite Hrun.
  split; [reflexivity|]. split; [exact Hre|].
  assert (Hval : ngx_str_value (err rc') = take (len (err rc)) message).
  { transitivity
      (ngx_str_value (err (snprintf_err rc (fmt_info_failed what)
                             [Arg_V (pattern rc); Arg_d n]))).
    - unfold ngx_str_value. now rewrite Herr.
    - now rewrite snprintf_err_value, expand_info_failed. }
  split; [exact Hval|]. split.
  - rewrite Herr, snprintf_err_len, expand_info_failed. reflexivity.
  - intros Hcap. rewrite Hval. now apply take_ge.
Qed.

Lemma compile_metadata_query_error_witness :
  exists rc',
    result_of (ngx_regex_compile
                 (Fixture.engine Fixture.info_broken Fixture.jit_all)
                 (Fixture.request "(?<id>a)(b)" 100)) Fixture.empty_world
    = Some (NGX_ERROR, rc')
    /\ ngx_str_value (err rc')
       = lit "pcre2_pattern_info(" ++ dq ++ lit "(?<id>a)(b)" ++ dq
           ++ lit ", PCRE2_INFO_NAMEENTRYSIZE) failed: -3".
Proof.
  destruct (compile_metadata_query_error
              (Fixture.engine Fixture.info_broken Fixture.jit_all)
              (Fixture.request "(?<id>a)(b)" 100) Fixture.empty_world
              0%nat PCRE2_INFO_NAMEENTRYSIZE (-3))
    as [_ (rc' & Hres & _ & Hval & _)].
  - vm_compute. right. right. right. left. reflexivity.
  - lia.
  - exists rc'. split; [exact Hres|]. rewrite Hval. reflexivity.
Defined.

Lemma compile_metadata_ok pcre2 re rc w :
  let info := pattern_info pcre2 re in
  0 <= fst (info PCRE2_INFO_CAPTURECOUNT) ->
  (snd (info PCRE2_INFO_CAPTURECOUNT) <> 0 ->
   0 <= fst (info PCRE2_INFO_NAMECOUNT)) ->
  (snd (info PCRE2_INFO_CAPTURECOUNT) <> 0 ->
   snd (info PCRE2_INFO_NAMECOUNT) <> 0 ->
   0 <= fst (info PCRE2_INFO_NAMEENTRYSIZE)
   /\ 0 <= fst (info PCRE2_INFO_NAMETABLE)) ->
  exists rc' t,
    compile_metadata pcre2 re rc w = Some (NGX_OK, rc', w, t)
    /\ Forall (is_query re) t
    /\ rc_regex rc' = rc_regex rc
    /\ pattern rc' = pattern rc
    /\ err rc' = err rc
    /\ captures rc' = snd (info PCRE2_INFO_CAPTURECOUNT)
    /\ if snd (info PCRE2_INFO_CAPTURECOUNT) =? 0 then
         queries t = [PCRE2_INFO_CAPTURECOUNT]
         /\ named_captures rc' = named_captures rc
         /\ name_size rc' = name_size rc
         /\ names rc' = names rc
       else
         named_captures rc' = snd (info PCRE2_INFO_NAMECOUNT)
         /\ if snd (info PCRE2_INFO_NAMECOUNT) =? 0 then
              queries t = [PCRE2_INFO_CAPTURECOUNT; PCRE2_INFO_NAMECOUNT]
              /\ name_size rc' = name_size rc
              /\ names rc' = names rc
            else
              queries t = [PCRE2_INFO_CAPTURECOUNT; PCRE2_INFO_NAMECOUNT;
                           PCRE2_INFO_NAMEENTRYSIZE; PCRE2_INFO_NAMETABLE]
              /\ name_size rc' = snd (info PCRE2_INFO_NAMEENTRYSIZE)
              /\ names rc' = snd (info PCRE2_INFO_NAMETABLE).
Proof.
  intros info H1 H2 H3.
  destruct (compile_metadata_run pcre2 re rc w) as (res & t & Hrun & Hq & Hre & Hpat).
  revert Hrun. subst info.
  unfold compile_metadata, pcre2_pattern_info, compile_failed.
  run_step.
  destruct (Z.ltb_spec (fst (pattern_info pcre2 re PCRE2_INFO_CAPTURECOUNT)) 0);
    [lia|].
  cbn [captures set_captures].
  destruct (Z.eqb_spec (snd (pattern_info pcre2 re PCRE2_INFO_CAPTURECOUNT)) 0)
    as [E1|E1].
  { unfold ret. intros Hrun. inversion Hrun; subst res t. clear Hrun.
    eexists _, _. split; [reflexivity|]. split; [exact Hq|].
    repeat (split; [reflexivity|]). reflexivity. }
  specialize (H2 E1). run_step.
  destruct (Z.ltb_spec (fst (pattern_info pcre2 re PCRE2_INFO_NAMECOUNT)) 0);
    [lia|].
  cbn [named_captures set_named_captures].
  destruct (Z.eqb_spec (snd (pattern_info pcre2 re PCRE2_INFO_NAMECOUNT)) 0)
    as [E2|E2].
  { unfold ret. cbn [after app]. intros Hrun. inversion Hrun; subst res t.
    clear Hrun.
    eexists _, _. split; [reflexivity|]. split; [exact Hq|].
    repeat (split; [reflexivity|]). reflexivity. }
  destruct (H3 E1 E2) as [H4 H5]. run_step.
  destruct (Z.ltb_spec (fst (pattern_info pcre2 re PCRE2_INFO_NAMEENTRYSIZE)) 0);
    [lia|].
  run_step.
  destruct (Z.ltb_spec (fst (pattern_info pcre2 re PCRE2_INFO_NAMETABLE)) 0);
    [lia|].
  unfold ret. cbn [after app]. intros Hrun. inversion Hrun; subst res t.
  clear Hrun.
  eexists _, _. split; [reflexivity|]. split; [exact Hq|].
  repeat (split; [reflexivity|]). reflexivity.
Qed.

Lemma registry_ok_at w a :
  registry_ok w = true ->
  ngx_pcre_studies w = Some a ->
  exists l, lists w !! a = Some l /\ list_ok l = true.
Proof.
  unfold registry_ok. intros H Hs. rewrite Hs in H.
  destruct (lists w !! a) as [l|]; [|discriminate]. eauto.
Qed.

(** An accepted pattern, with memory for it, reaches the metadata step: the
    calls before that step are the compilation and, with a registry, the
    append. *)
Lemma compile_reaches_metadata pcre2 rc w :
  compile_verdict pcre2 (c_str (data (pattern rc))) (to_int (options rc)) = None ->
  memory_ok 3 w = true ->
  registry_ok w = true ->
  let re := next_code w in
  exists w1,
    ngx_regex_compile pcre2 rc w
    = after (Ev_pcre2_compile (c_str (data (pattern rc))) (to_int (options rc))
               (inl re)
             :: match ngx_pcre_studies w with
                | Some a => [Ev_ngx_list_push a true]
                | None => []
                end)
        (compile_metadata pcre2 re (set_regex rc (Some (Ngx_regex re))) w1)
    /\ ngx_pcre_studies w1 = ngx_pcre_studies w
    /\ cleanup w1 = cleanup w
    /\ next_code w1 = S (next_code w)
    /\ match ngx_pcre_studies w with
       | Some a =>
           exists l l',
             lists w !! a = Some l
             /\ lists w1 = <[a := l']> (lists w)
             /\ entries l'
                = entries l
                  ++ [Ngx_regex_elt (Ngx_regex re) (data (pattern rc))]
             /\ list_ok l' = true
       | None => lists w1 = lists w
       end.
Proof.
  intros Hv Hm Hr re. rewrite (compile_accepted_run _ _ _ Hv).
  rewrite (memory_ok_hd _ _ Hm).
  pose proof (memory_ok_tl _ _ Hm) as Hm1.
  destruct (ngx_pcre_studies w) as [a|] eqn:Hs.
  - destruct (registry_ok_at _ _ Hr Hs) as (l & Hl & Hok).
    set (w1 := upd_alloc (upd_next_code w _) _).
    destruct (list_push_run a (Ngx_regex_elt (Ngx_regex (next_code w))
                                 (data (pattern rc))) w1 l Hl)
      as (ok & w2 & Hpush & Hst & Hcl & Hnc & Hmem & Hlists).
    rewrite (Hmem Hm1) in *.
    destruct Hlists as (l' & Hl' & Hent & Hok').
    exists w2. rewrite (bind_run _ _ _ _ _ _ Hpush). cbn [negb].
    rewrite after_after. split; [reflexivity|].
    split; [rewrite Hst; exact Hs|]. split; [rewrite Hcl; reflexivity|].
    split; [rewrite Hnc; reflexivity|].
    exists l, l'. rewrite Hl'. auto.
  - eexists. split; [reflexivity|]. split; [exact Hs|].
    split; [reflexivity|]. split; reflexivity.
Qed.

(** C4: for a pattern the engine compiled, once the compiled pattern is
    allocated and recorded, [ngx_regex_compile] queries the capture count
    and returns [NGX_OK] at once when it is zero; otherwise it queries the
    count of named captures and returns [NGX_OK] when that is zero;
    otherwise it queries the size of a name-table entry and then the name
    table, stores both in the request and returns [NGX_OK].  No other query
    is made, and a field whose query is not made keeps its value. *)
Theorem compile_metadata_order pcre2 rc w :
  let re := next_code w in
  let info := pattern_info pcre2 re in
  compile_verdict pcre2 (c_str (data (pattern rc))) (to_int (options rc)) = None ->
  memory_ok 3 w = true ->
  registry_ok w = true ->
  0 <= fst (info PCRE2_INFO_CAPTURECOUNT) ->
  (snd (info PCRE2_INFO_CAPTURECOUNT) <> 0 ->
   0 <= fst (info PCRE2_INFO_NAMECOUNT)) ->
  (snd (info PCRE2_INFO_CAPTURECOUNT) <> 0 ->
   snd (info PCRE2_INFO_NAMECOUNT) <> 0 ->
   0 <= fst (info PCRE2_INFO_NAMEENTRYSIZE)
   /\ 0 <= fst (info PCRE2_INFO_NAMETABLE)) ->
  exists rc' w' t,
    ngx_regex_compile pcre2 rc w = Some (NGX_OK, rc', w', t)
    /\ rc_regex rc' = Some (Ngx_regex re)
    /\ err rc' = err rc
    /\ captures rc' = snd (info PCRE2_INFO_CAPTURECOUNT)
    /\ if snd (info PCRE2_INFO_CAPTURECOUNT) =? 0 then
         queries t = [PCRE2_INFO_CAPTURECOUNT]
         /\ named_captures rc' = named_captures rc
         /\ name_size rc' = name_size rc
         /\ names rc' = names rc
       else
         named_captures rc' = snd (info PCRE2_INFO_NAMECOUNT)
         /\ if snd (info PCRE2_INFO_NAMECOUNT) =? 0 then
              queries t = [PCRE2_INFO_CAPTURECOUNT; PCRE2_INFO_NAMECOUNT]
              /\ name_size rc' = name_size rc
              /\ names rc' = names rc
            else
              queries t = [PCRE2_INFO_CAPTURECOUNT; PCRE2_INFO_NAMECOUNT;
                           PCRE2_INFO_NAMEENTRYSIZE; PCRE2_INFO_NAMETABLE]
              /\ name_size rc' = snd (info PCRE2_INFO_NAMEENTRYSIZE)
              /\ names rc' = snd (info PCRE2_INFO_NAMETABLE).
Proof.
  intros re info Hv Hm Hr H1 H2 H3. subst re info.
  destruct (compile_reaches_metadata _ _ _ Hv Hm Hr) as (w1 & Hrun & _).
  destruct (compile_metadata_ok pcre2 (next_code w)
              (set_regex rc (Some (Ngx_regex (next_code w)))) w1 H1 H2 H3)
    as (rc' & t & Hmeta & _ & Hre & _ & Herr & Hcap & Hrest).
  rewrite Hmeta in Hrun. cbn [after] in Hrun.
  eexists rc', w1, _. split; [exact Hrun|].
  split; [exact Hre|]. split; [exact Herr|]. split; [exact Hcap|].
  assert (Hq : forall t0,
            queries ((Ev_pcre2_compile (c_str (data (pattern rc)))
                        (to_int (options rc)) (inl (next_code w))
                      :: match ngx_pcre_studies w with
                         | Some a => [Ev_ngx_list_push a true]
                         | None => []
                         end) ++ t0) = queries t0).
  { intros t0. destruct (ngx_pcre_studies w); reflexivity. }
  rewrite Hq. exact Hrest.
Qed.

Lemma compile_metadata_order_witness :
  exists rc' w' t,
    ngx_regex_compile (Fixture.engine Fixture.info_named Fixture.jit_all)
      (Fixture.request "(?<id>a)(b)" 100) Fixture.empty_world
    = Some (NGX_OK, rc', w', t)
    /\ queries t = [PCRE2_INFO_CAPTURECOUNT; PCRE2_INFO_NAMECOUNT;
                    PCRE2_INFO_NAMEENTRYSIZE; PCRE2_INFO_NAMETABLE]
    /\ captures rc' = 2 /\ named_captures rc' = 1
    /\ name_size rc' = 8 /\ names rc' = 4096.
Proof.
  destruct (compile_metadata_order
              (Fixture.engine Fixture.info_named Fixture.jit_all)
              (Fixture.request "(?<id>a)(b)" 100) Fixture.empty_world)
    as (rc' & w' & t & Hrun & _ & _ & Hcap & Hrest).
  - reflexivity.
  - reflexivity.
  - reflexivity.
  - simpl. lia.
  - simpl. lia.
  - simpl. lia.
  - simpl in Hrest. destruct Hrest as (Hnamed & Hq & Hsize & Hnames).
    simpl in Hcap.
    exact (ex_intro _ rc' (ex_intro _ w' (ex_intro _ t
             (conj Hrun (conj Hq (conj Hcap (conj Hnamed
                (conj Hsize Hnames)))))))).
Defined.

(** ** The [pcre_jit] directive *)

(** C6: with the directive on, the handler clears the flag and logs a
    warning when the build has no JIT support or when the engine does not
    report the capability ([pcre2_config] fails or gives a value other than
    1); it returns [NGX_CONF_OK] in every case.  With the directive off it
    returns [NGX_CONF_OK] at once: no call to the engine, no message. *)
Theorem pcre_jit_unavailable_is_warning pcre2 have fp w :
  (fp = 0 ->
   ngx_regex_pcre_jit pcre2 have fp w = Some (NGX_CONF_OK, 0, w, []))
  /\ (fp <> 0 -> have = false ->
      ngx_regex_pcre_jit pcre2 have fp w
      = Some (NGX_CONF_OK, 0, w,
              [Ev_ngx_log_error NGX_LOG_WARN
                 (lit "nginx was built without PCRE JIT support")]))
  /\ (fp <> 0 -> have = true ->
      fst (config_jit pcre2) <> 0 \/ snd (config_jit pcre2) <> 1 ->
      ngx_regex_pcre_jit pcre2 have fp w
      = Some (NGX_CONF_OK, 0, w,
              [Ev_pcre2_config_jit (fst (config_jit pcre2));
               Ev_ngx_log_error NGX_LOG_WARN
                 (lit "PCRE library does not support JIT")]))
  /\ (fp <> 0 -> have = true ->
      fst (config_jit pcre2) = 0 -> snd (config_jit pcre2) = 1 ->
      ngx_regex_pcre_jit pcre2 have fp w
      = Some (NGX_CONF_OK, fp, w,
              [Ev_pcre2_config_jit (fst (config_jit pcre2))]))
  /\ exists fp' t,
       ngx_regex_pcre_jit pcre2 have fp w = Some (NGX_CONF_OK, fp', w, t).
Proof.
  unfold ngx_regex_pcre_jit, pcre2_config_jit, ngx_conf_log_error.
  repeat split.
  - intros ->. reflexivity.
  - intros Hfp ->. destruct (Z.eqb_spec fp 0); [contradiction|]. reflexivity.
  - intros Hfp -> Hno. destruct (Z.eqb_spec fp 0); [contradiction|].
    run_step.
    destruct (Z.eqb_spec (fst (config_jit pcre2)) 0);
      destruct (Z.eqb_spec (snd (config_jit pcre2)) 1);
      cbn [negb orb]; try reflexivity.
    destruct Hno; contradiction.
  - intros Hfp -> H0 H1. destruct (Z.eqb_spec fp 0); [contradiction|].
    run_step. rewrite H0, H1. reflexivity.
  - destruct (Z.eqb_spec fp 0); [subst; eexists _, _; reflexivity|].
    destruct have; [|eexists _, _; reflexivity].
    run_step.
    destruct (negb (fst (config_jit pcre2) =? 0)
              || negb (snd (config_jit pcre2) =? 1));
      eexists _, _; reflexivity.
Qed.

Lemma pcre_jit_unavailable_is_warning_witness :
  ngx_regex_pcre_jit (Pcre2_engine Fixture.verdict Fixture.message
                        Fixture.info_named Fixture.jit_all (0, 0))
    true 1 Fixture.empty_world
  = Some (NGX_CONF_OK, 0, Fixture.empty_world,
          [Ev_pcre2_config_jit 0;
           Ev_ngx_log_error NGX_LOG_WARN
             (lit "PCRE library does not support JIT")])
  /\ ngx_regex_pcre_jit (Fixture.engine Fixture.info_named Fixture.jit_all)
       false 1 Fixture.empty_world
     = Some (NGX_CONF_OK, 0, Fixture.empty_world,
             [Ev_ngx_log_error NGX_LOG_WARN
                (lit "nginx was built without PCRE JIT support")]).
Proof.
  split.
  - destruct (pcre_jit_unavailable_is_warning
                (Pcre2_engine Fixture.verdict Fixture.message
                   Fixture.info_named Fixture.jit_all (0, 0))
                true 1 Fixture.empty_world) as (_ & _ & H & _).
    apply H; [discriminate | reflexivity | right; discriminate].
  - destruct (pcre_jit_unavailable_is_warning
                (Fixture.engine Fixture.info_named Fixture.jit_all)
                false 1 Fixture.empty_world) as (_ & H & _).
    apply H; [discriminate | reflexivity].
Defined.

(** ** The JIT pass and the registry pointer *)

Section Loop_world.

Variable body : ngx_regex_elt_t -> M unit.
Hypothesis body_world :
  forall e w r w' t, body e w = Some (r, w', t) -> w' = w.

Lemma for_elts_world es w r w' t :
  for_elts body es w = Some (r, w', t) -> w' = w.
Proof using body_world.
  revert w r w' t. induction es as [|e es IH]; intros w r w' t; simpl.
  - unfold ret. now intros [= _ <- _].
  - unfold bind. destruct (body e w) as [[[u w1] t1]|] eqn:Hb; [|discriminate].
    pose proof (body_world _ _ _ _ _ Hb). subst w1.
    destruct (for_elts body es w) as [[[u' w2] t2]|] eqn:Hf; [|discriminate].
    pose proof (IH _ _ _ _ Hf). subst w2. simpl. now intros [= _ <- _].
Qed.

Lemma list_part_loop_world moved p w r w' t :
  list_part_loop body moved p w = Some (r, w', t) -> w' = w.
Proof using body_world.
  revert moved w r w' t.
  induction p as [es|es q IH] using ngx_list_part_induction;
    intros moved w r w' t; simpl; unfold bind.
  - destruct es as [|e es].
    + destruct moved; [discriminate|]. unfold ret. simpl. now intros [= _ <- _].
    + destruct (for_elts body (e :: es) w) as [[[u w1] t1]|] eqn:Hf;
        [|discriminate].
      pose proof (for_elts_world _ _ _ _ _ Hf). subst w1. unfold ret. simpl.
      now intros [= _ <- _].
  - assert (Hes : forall (m : M unit),
              (forall u w1 t1, m w = Some (u, w1, t1) -> w1 = w) ->
              match m w with
              | Some (a, w1, t1) => after t1 (list_part_loop body true q w1)
              | None => None
              end = Some (r, w', t) -> w' = w).
    { intros m Hm. destruct (m w) as [[[u w1] t1]|] eqn:Hmw; [|discriminate].
      specialize (Hm _ _ _ eq_refl). subst w1.
      destruct (list_part_loop body true q w) as [[[u' w2] t2]|] eqn:Hq;
        [|discriminate].
      pose proof (IH _ _ _ _ _ Hq). subst w2. simpl. now intros [= _ <- _]. }
    destruct es as [|e es].
    + destruct moved; [discriminate|]. apply Hes.
      unfold ret. now intros u w1 t1 [= _ <- _].
    + apply Hes. intros u w1 t1. apply for_elts_world.
Qed.

End Loop_world.

Lemma jit_pass_world pcre2 have jit e w r w' t :
  jit_pass pcre2 have jit e w = Some (r, w', t) -> w' = w.
Proof.
  unfold jit_pass, pcre2_jit_compile, ngx_log_error.
  destruct (have && negb (jit =? 0)).
  - run_step. destruct (negb (jit_verdict pcre2 (code (regex e)) =? 0));
      now intros [= _ <- _].
  - now intros [= _ <- _].
Qed.

Lemma jit_pass_one pcre2 have jit e w :
  jit_pass pcre2 have jit e w
  = Some (tt, w,
          if have && negb (jit =? 0) then jit_attempt pcre2 e else []).
Proof.
  unfold jit_pass, jit_attempt, pcre2_jit_compile, ngx_log_error.
  destruct (have && negb (jit =? 0)); [|reflexivity].
  run_step. rewrite expand_jit_unsupported.
  destruct (jit_verdict pcre2 (code (regex e)) =? 0); reflexivity.
Qed.

Lemma jit_pass_run pcre2 have jit es w :
  for_elts (jit_pass pcre2 have jit) es w
  = Some (tt, w,
          if have && negb (jit =? 0) then flat_map (jit_attempt pcre2) es
          else []).
Proof.
  induction es as [|e es IH]; simpl.
  - destruct (have && negb (jit =? 0)); reflexivity.
  - rewrite (bind_run _ _ _ _ _ _ (jit_pass_one pcre2 have jit e w)), IH.
    destruct (have && negb (jit =? 0)); reflexivity.
Qed.

(** A run of [ngx_regex_module_init] on a well-formed registry. *)
Lemma module_init_run pcre2 have cycle w a l :
  ngx_pcre_studies w = Some a ->
  lists w !! a = Some l ->
  list_ok l = true ->
  ngx_regex_module_init pcre2 have cycle w
  = if hd true (alloc_oracle w) then
      Some (NGX_OK,
            upd_studies
              (upd_cleanup (upd_alloc w (tl (alloc_oracle w)))
                 (Ngx_pool_cleanup (Some Handler_ngx_pcre_free_studies) (Some a)
                  :: cleanup w))
              None,
            if have && negb (to_int (pcre_jit (conf_ctx cycle)) =? 0)
            then flat_map (jit_attempt pcre2) (entries l) else [])
    else Some (NGX_ERROR, upd_alloc w (tl (alloc_oracle w)), []).
Proof.
  intros Hs Hl Hok. unfold ngx_regex_module_init, ngx_pool_cleanup_add, set_cln.
  run_step. destruct (hd true (alloc_oracle w)); [|reflexivity].
  run_step. cbn [negb]. run_step.
  cbn [ngx_pcre_studies upd_cleanup upd_alloc cleanup]. rewrite Hs.
  match goal with
  | |- bind (load_list a) _ ?w1 = _ =>
      rewrite (bind_run _ _ w1 l w1 []) by (unfold load_list; simpl; now rewrite Hl)
  end.
  rewrite after_nil.
  match goal with
  | |- bind (list_part_loop ?b false (part l)) _ ?w1 = _ =>
      rewrite (bind_run _ _ w1 tt w1
                 (if have && negb (to_int (pcre_jit (conf_ctx cycle)) =? 0)
                  then flat_map (jit_attempt pcre2) (entries l) else []))
  end.
  - run_step. unfold ret. simpl.
    destruct have; simpl; rewrite ?app_nil_r; reflexivity.
  - rewrite list_part_loop_entries by exact Hok.
    destruct have; simpl; apply jit_pass_run.
Qed.

(** However it goes, a call that returns [NGX_OK] has cleared the static
    pointer, has registered the hook on the registry it pointed to and has
    touched no list. *)
Lemma module_init_ok pcre2 have cycle w w' t :
  ngx_regex_module_init pcre2 have cycle w = Some (NGX_OK, w', t) ->
  ngx_pcre_studies w' = None
  /\ lists w' = lists w
  /\ cleanup w'
     = Ngx_pool_cleanup (Some Handler_ngx_pcre_free_studies) (ngx_pcre_studies w)
       :: cleanup w
  /\ is_Some (registry_at w (ngx_pcre_studies w)).
Proof.
  unfold ngx_regex_module_init, ngx_pool_cleanup_add, set_cln.
  run_step. destruct (hd true (alloc_oracle w)).
  2:{ run_step. cbn [negb]. unfold ret. discriminate. }
  run_step. cbn [negb]. run_step.
  cbn [ngx_pcre_studies upd_cleanup upd_alloc cleanup].
  destruct (ngx_pcre_studies w) as [a|]; [|discriminate].
  unfold bind at 1, load_list at 1. cbn [lists upd_cleanup upd_alloc].
  destruct (lists w !! a) as [l|] eqn:Hl; [|discriminate].
  rewrite after_nil. unfold bind at 1.
  match goal with
  | |- context [list_part_loop ?b false (part l) ?w1] =>
      destruct (list_part_loop b false (part l) w1) as [[[u w2] t2]|] eqn:Hloop;
        [|discriminate]
  end.
  apply list_part_loop_world in Hloop;
    [|intros ? ? ? ? ?; apply jit_pass_world].
  subst w2. run_step. unfold ret. cbn [after].
  intros [= <- _]. simpl. rewrite Hl. eauto.
Qed.

Lemma jit_compiled_attempts pcre2 es :
  jit_compiled (flat_map (jit_attempt pcre2) es)
  = map (fun e => code (regex e)) es.
Proof.
  induction es as [|e es IH]; simpl; [reflexivity|].
  destruct (jit_verdict pcre2 (code (regex e)) =? 0); simpl; now rewrite IH.
Qed.

Lemma freed_attempts pcre2 es : freed (flat_map (jit_attempt pcre2) es) = [].
Proof.
  induction es as [|e es IH]; simpl; [reflexivity|].
  destruct (jit_verdict pcre2 (code (regex e)) =? 0); simpl; exact IH.
Qed.

Lemma logged_attempts pcre2 es e :
  In e es ->
  jit_verdict pcre2 (code (regex e)) <> 0 ->
  In (Ev_ngx_log_error NGX_LOG_INFO
        (lit "JIT compiler does not support pattern: " ++ dq
           ++ c_str (name e) ++ dq))
     (flat_map (jit_attempt pcre2) es).
Proof.
  intros Hin Hno. apply in_flat_map. exists e. split; [exact Hin|].
  unfold jit_attempt.
  destruct (Z.eqb_spec (jit_verdict pcre2 (code (regex e))) 0); [contradiction|].
  right. left. reflexivity.
Qed.

(** C7: with JIT enabled, [ngx_regex_module_init] runs the JIT compiler on
    every entry of the registry, in traversal order; for each pattern the
    engine refuses it logs, at info level, a message with the text of the
    pattern and goes on with the next entry; it frees nothing and changes
    no list, so every pattern stays as it was compiled; and what it returns
    depends on the allocation of the cleanup record only: [NGX_OK] once
    that record exists, whatever the JIT compiler answers. *)
Theorem jit_pass_attempts_every_entry pcre2 cycle w a l :
  ngx_pcre_studies w = Some a ->
  lists w !! a = Some l ->
  list_ok l = true ->
  to_int (pcre_jit (conf_ctx cycle)) <> 0 ->
  result_of (ngx_regex_module_init pcre2 true cycle) w
  = Some (if hd true (alloc_oracle w) then NGX_OK else NGX_ERROR)
  /\ (hd true (alloc_oracle w) = true ->
      exists w',
        ngx_regex_module_init pcre2 true cycle w
        = Some (NGX_OK, w', flat_map (jit_attempt pcre2) (entries l))
        /\ jit_compiled (flat_map (jit_attempt pcre2) (entries l))
           = map (fun e => code (regex e)) (entries l)
        /\ (forall e,
              In e (entries l) ->
              jit_verdict pcre2 (code (regex e)) <> 0 ->
              In (Ev_ngx_log_error NGX_LOG_INFO
                    (lit "JIT compiler does not support pattern: " ++ dq
                       ++ c_str (name e) ++ dq))
                 (flat_map (jit_attempt pcre2) (entries l)))
        /\ freed (flat_map (jit_attempt pcre2) (entries l)) = []
        /\ lists w' = lists w).
Proof.
  intros Hs Hl Hok Hjit.
  pose proof (module_init_run pcre2 true cycle w a l Hs Hl Hok) as Hrun.
  destruct (Z.eqb_spec (to_int (pcre_jit (conf_ctx cycle))) 0) as [E|_];
    [contradiction|].
  cbn [andb negb] in Hrun. split.
  - unfold result_of. rewrite Hrun.
    destruct (hd true (alloc_oracle w)); reflexivity.
  - intros Hmem. rewrite Hmem in Hrun. eexists. split; [exact Hrun|].
    split; [apply jit_compiled_attempts|].
    split; [intros e; apply logged_attempts|].
    split; [apply freed_attempts | reflexivity].
Qed.

Lemma jit_pass_attempts_every_entry_witness :
  let pcre2 := Fixture.engine Fixture.info_named Fixture.jit_but_second in
  exists w',
    ngx_regex_module_init pcre2 true Fixture.cycle_on (Fixture.configured pcre2)
    = Some (NGX_OK, w',
            [Ev_pcre2_jit_compile 0 0;
             Ev_pcre2_jit_compile 1 (-45);
             Ev_ngx_log_error NGX_LOG_INFO
               (lit "JIT compiler does not support pattern: " ++ dq
                  ++ lit "^/b" ++ dq)]).
Proof.
  intros pcre2.
  destruct (jit_pass_attempts_every_entry pcre2 Fixture.cycle_on
              (Fixture.configured pcre2) 0%nat
              (Ngx_list
                 (Ngx_list_part
                    [Ngx_regex_elt (Ngx_regex 0) (lit "^/a(.*)$" ++ [NUL]);
                     Ngx_regex_elt (Ngx_regex 1) (lit "^/b" ++ [NUL])] None) 8))
    as [_ H].
  - reflexivity.
  - reflexivity.
  - reflexivity.
  - discriminate.
  - destruct (H eq_refl) as (w' & Hrun & _).
    exists w'. rewrite Hrun. reflexivity.
Defined.

(** Without a registry a call of [ngx_regex_compile] returns, appends
    nothing and leaves the pointer NULL. *)
Lemma compile_without_registry pcre2 rc w :
  ngx_pcre_studies w = None ->
  exists res w' t,
    ngx_regex_compile pcre2 rc w = Some (res, w', t)
    /\ ngx_pcre_studies w' = None
    /\ lists w' = lists w
    /\ cleanup w' = cleanup w
    /\ Forall (fun ev => ~ is_push ev) t.
Proof.
  intros Hs.
  assert (Hcompile : forall r,
            ~ is_push (Ev_pcre2_compile (c_str (data (pattern rc)))
                         (to_int (options rc)) r))
    by (intros r (a & ok & H); discriminate).
  destruct (compile_verdict pcre2 (c_str (data (pattern rc)))
              (to_int (options rc))) as [[errcode erroff]|] eqn:Hv.
  - unfold ngx_regex_compile, pcre2_compile, pcre2_get_error_message.
    rewrite Hv. run_step.
    destruct (erroff =? len (pattern rc))%nat; unfold ret; cbn [after app];
      eexists _, _, _; (split; [reflexivity|]);
      repeat (split; [assumption || reflexivity|]);
      repeat constructor; auto; intros (a & ok & H); discriminate.
  - rewrite (compile_accepted_run _ _ _ Hv), Hs.
    destruct (hd true (alloc_oracle w)).
    + match goal with
      | |- context [compile_metadata pcre2 ?re ?rc1 ?w1] =>
          destruct (compile_metadata_run pcre2 re rc1 w1)
            as (res & t & Hrun & Hq & _)
      end.
      rewrite Hrun. cbn [after app].
      eexists _, _, _. split; [reflexivity|].
      repeat (split; [assumption || reflexivity|]).
      constructor; [apply Hcompile|].
      eapply Forall_impl; [exact Hq|].
      intros ev (what & n & ->) (a & ok & H). discriminate.
    + unfold compile_nomem, ret. cbn [after app].
      eexists _, _, _. split; [reflexivity|].
      repeat (split; [assumption || reflexivity|]).
      repeat constructor. apply Hcompile.
Qed.

Lemma compile_each_without_registry pcre2 rcs w :
  ngx_pcre_studies w = None ->
  exists rs w' t,
    compile_each pcre2 rcs w = Some (rs, w', t)
    /\ length rs = length rcs
    /\ ngx_pcre_studies w' = None
    /\ lists w' = lists w
    /\ cleanup w' = cleanup w
    /\ Forall (fun ev => ~ is_push ev) t.
Proof.
  revert w. induction rcs as [|rc rcs IH]; intros w Hs; simpl.
  - eexists _, _, _. split; [reflexivity|]. auto.
  - destruct (compile_without_registry pcre2 rc w Hs)
      as (res & w1 & t1 & Hrun & Hs1 & Hl1 & Hc1 & Hp1).
    destruct (IH w1 Hs1) as (rs & w2 & t2 & Hrun2 & Hlen & Hs2 & Hl2 & Hc2 & Hp2).
    rewrite (bind_run _ _ _ _ _ _ Hrun), (bind_run _ _ _ _ _ _ Hrun2).
    run_step. unfold ret. cbn [after].
    eexists _, _, _. split; [reflexivity|].
    split; [simpl; now rewrite Hlen|]. split; [exact Hs2|].
    split; [now rewrite Hl2|]. split; [now rewrite Hc2|].
    rewrite app_nil_r. apply Forall_app. auto.
Qed.

(** ** Teardown *)

Lemma destroy_pool_single a l w :
  cleanup w = [Ngx_pool_cleanup (Some Handler_ngx_pcre_free_studies) (Some a)] ->
  lists w !! a = Some l ->
  list_ok l = true ->
  ngx_destroy_pool w
  = Some (tt, w, map (fun e => Ev_pcre2_code_free (code (regex e))) (entries l)).
Proof.
  intros Hc Hl Hok. unfold ngx_destroy_pool. rewrite bind_gets, Hc. simpl.
  unfold run_cleanup. simpl.
  rewrite (bind_run _ _ _ _ _ _ (free_studies_run a l w Hl Hok)).
  unfold ret. simpl. now rewrite app_nil_r.
Qed.

(** C9, as the code has it: each invocation of the teardown hook frees the
    compiled pattern of every entry of the registry once, in traversal
    order, and changes nothing; [ngx_regex_module_init] registers the hook
    once, on the registry, so that a teardown that runs the cleanup records
    of the pool once frees every compiled pattern once; in a world the load
    of a configuration reaches, the entries hold distinct compiled
    patterns, so none is freed twice by one invocation.  The hook keeps no
    record of what it freed: invoked a second time on the same registry it
    frees every compiled pattern again. *)
Theorem free_studies_each_entry_once a l w :
  lists w !! a = Some l ->
  list_ok l = true ->
  ngx_pcre_free_studies (Some a) w
  = Some (tt, w, map (fun e => Ev_pcre2_code_free (code (regex e))) (entries l))
  /\ freed (events_of (ngx_pcre_free_studies (Some a)) w) = codes l
  /\ freed (events_of (ngx_pcre_free_studies (Some a) ;;;
                       ngx_pcre_free_studies (Some a)) w)
     = codes l ++ codes l
  /\ (world_inv w ->
      List.NoDup (freed (events_of (ngx_pcre_free_studies (Some a)) w)))
  /\ forall pcre2 have cycle,
       ngx_pcre_studies w = Some a ->
       hd true (alloc_oracle w) = true ->
       exists w' t,
         ngx_regex_module_init pcre2 have cycle w = Some (NGX_OK, w', t)
         /\ freed t = []
         /\ cleanup w'
            = Ngx_pool_cleanup (Some Handler_ngx_pcre_free_studies) (Some a)
              :: cleanup w
         /\ (cleanup w = [] -> freed (events_of ngx_destroy_pool w') = codes l).
Proof.
  intros Hl Hok.
  pose proof (free_studies_run a l w Hl Hok) as Hrun.
  split; [exact Hrun|]. split.
  { unfold events_of. rewrite Hrun. apply freed_free_events. }
  split.
  { unfold events_of. rewrite (bind_run _ _ _ _ _ _ Hrun), Hrun. simpl.
    rewrite freed_app, freed_free_events. reflexivity. }
  split.
  { intros Hinv. unfold events_of. rewrite Hrun, freed_free_events.
    apply (inv_lists w Hinv a l Hl). }
  intros pcre2 have cycle Hs Hmem.
  pose proof (module_init_run pcre2 have cycle w a l Hs Hl Hok) as Hinit.
  rewrite Hmem in Hinit.
  eexists _, _. split; [exact Hinit|]. split.
  { destruct (have && _); [apply freed_attempts | reflexivity]. }
  split; [reflexivity|].
  intros Hc. unfold events_of.
  rewrite (destroy_pool_single a l); [apply freed_free_events| |exact Hl|exact Hok].
  simpl. now rewrite Hc.
Qed.

Lemma free_studies_each_entry_once_witness :
  let pcre2 := Fixture.engine Fixture.info_named Fixture.jit_all in
  freed (events_of (ngx_pcre_free_studies (Some 0%nat))
           (Fixture.configured pcre2))
  = [0%nat; 1%nat]
  /\ exists w' t,
       ngx_regex_module_init pcre2 true Fixture.cycle_on
         (Fixture.configured pcre2) = Some (NGX_OK, w', t)
       /\ freed (events_of ngx_destroy_pool w') = [0%nat; 1%nat].
Proof.
  intros pcre2.
  destruct (free_studies_each_entry_once 0%nat
              (Ngx_list
                 (Ngx_list_part
                    [Ngx_regex_elt (Ngx_regex 0) (lit "^/a(.*)$" ++ [NUL]);
                     Ngx_regex_elt (Ngx_regex 1) (lit "^/b" ++ [NUL])] None) 8)
              (Fixture.configured pcre2))
    as (_ & Hfreed & _ & _ & Hinit).
  - reflexivity.
  - reflexivity.
  - split; [exact Hfreed|].
    destruct (Hinit pcre2 true Fixture.cycle_on eq_refl eq_refl)
      as (w' & t & Hrun & _ & _ & Hdestroy).
    exists w', t. split; [exact Hrun|]. apply Hdestroy. reflexivity.
Defined.

(** C9 as stated fails: two compiled patterns are in the registry, the hook
    is registered once, and a second teardown, or a second invocation of
    the hook on the registry, frees both compiled patterns a second
    time. *)
Lemma free_studies_twice_counterexample :
  let pcre2 := Fixture.engine Fixture.info_named Fixture.jit_all in
  let w := Fixture.initialised pcre2 in
  cleanup w
  = [Ngx_pool_cleanup (Some Handler_ngx_pcre_free_studies) (Some 0%nat)]
  /\ freed (events_of (ngx_pcre_free_studies (Some 0%nat)) w)
     = [0%nat; 1%nat]
  /\ freed (events_of (ngx_pcre_free_studies (Some 0%nat) ;;;
                       ngx_pcre_free_studies (Some 0%nat)) w)
     = [0%nat; 1%nat; 0%nat; 1%nat]
  /\ freed (events_of (ngx_destroy_pool ;;; ngx_destroy_pool) w)
     = [0%nat; 1%nat; 0%nat; 1%nat]
  /\ ~ List.NoDup
         (freed (events_of (ngx_pcre_free_studies (Some 0%nat) ;;;
                            ngx_pcre_free_studies (Some 0%nat)) w)).
Proof.
  intros pcre2 w.
  split; [reflexivity|]. split; [reflexivity|].
  split; [reflexivity|]. split; [reflexivity|].
  change (~ List.NoDup [0%nat; 1%nat; 0%nat; 1%nat]).
  intros H. apply List.NoDup_cons_iff in H as [Hnotin _].
  apply Hnotin. right. left. reflexivity.
Qed.

(** ** The load of a configuration *)

Lemma compile_effect pcre2 rc w res w' t :
  ngx_regex_compile pcre2 rc w = Some (res, w', t) ->
  cleanup w' = cleanup w
  /\ ngx_pcre_studies w' = ngx_pcre_studies w
  /\ (next_code w <= next_code w')%nat
  /\ (lists w' = lists w
      \/ exists a l l',
           ngx_pcre_studies w = Some a
           /\ lists w !! a = Some l
           /\ lists w' = <[a := l']> (lists w)
           /\ entries l'
              = entries l
                ++ [Ngx_regex_elt (Ngx_regex (next_code w)) (data (pattern rc))]
           /\ (list_ok l = true -> list_ok l' = true)
           /\ next_code w' = S (next_code w)).
Proof.
  destruct (compile_verdict pcre2 (c_str (data (pattern rc)))
              (to_int (options rc))) as [[errcode erroff]|] eqn:Hv.
  { unfold ngx_regex_compile, pcre2_compile, pcre2_get_error_message.
    rewrite Hv. run_step.
    destruct (erroff =? len (pattern rc))%nat; unfold ret; cbn [after app];
      intros [= _ <- _]; auto. }
  rewrite (compile_accepted_run _ _ _ Hv).
  set (w1 := upd_alloc (upd_next_code w (S (next_code w))) (tl (alloc_oracle w))).
  destruct (hd true (alloc_oracle w)).
  2:{ unfold compile_nomem, ret. cbn [after app]. intros [= _ <- _].
      simpl. auto. }
  destruct (ngx_pcre_studies w) as [a|] eqn:Hs.
  2:{ destruct (compile_metadata_run pcre2 (next_code w)
                  (set_regex rc (Some (Ngx_regex (next_code w)))) w1)
        as (res1 & t1 & Hrun & _).
      rewrite Hrun. cbn [after app]. intros [= _ <- _]. simpl. auto. }
  destruct (lists w !! a) as [l|] eqn:Hl.
  2:{ rewrite bind_crash by (apply list_push_dangling; exact Hl). discriminate. }
  destruct (list_push_run a (Ngx_regex_elt (Ngx_regex (next_code w))
                               (data (pattern rc))) w1 l Hl)
    as (ok & w2 & Hpush & Hst & Hcl & Hnc & _ & Hlists).
  rewrite (bind_run _ _ _ _ _ _ Hpush).
  assert (Hend : forall (m : M (Z * ngx_regex_compile_t)),
            (exists r1 t1, m w2 = Some (r1, w2, t1)) ->
            after [Ev_pcre2_compile (c_str (data (pattern rc)))
                     (to_int (options rc)) (inl (next_code w))]
              (after [Ev_ngx_list_push a ok] (m w2)) = Some (res, w', t) ->
            w' = w2).
  { intros m (r1 & t1 & ->). cbn [after app]. now intros [= _ <- _]. }
  destruct ok; cbn [negb]; intros Hrun.
  - apply Hend in Hrun.
    2:{ destruct (compile_metadata_run pcre2 (next_code w)
                    (set_regex rc (Some (Ngx_regex (next_code w)))) w2)
          as (r1 & t1 & H & _). eauto. }
    subst w'. rewrite Hst, Hcl, Hnc. simpl.
    split; [reflexivity|]. split; [exact Hs|]. split; [lia|].
    right. destruct Hlists as (l' & Hl' & Hent & Hok).
    exists a, l, l'.
    exact (conj eq_refl (conj Hl (conj Hl' (conj Hent (conj Hok eq_refl))))).
  - apply Hend in Hrun; [|unfold compile_nomem, ret; eauto].
    subst w'. rewrite Hst, Hcl, Hnc, Hlists. simpl.
    split; [reflexivity|]. split; [exact Hs|]. split; [lia|]. left. reflexivity.
Qed.

Lemma create_conf_effect w r w' t :
  ngx_regex_create_conf w = Some (r, w', t) ->
  cleanup w' = cleanup w
  /\ next_code w' = next_code w
  /\ ((lists w' = lists w
       /\ (ngx_pcre_studies w' = ngx_pcre_studies w
           \/ ngx_pcre_studies w' = None))
      \/ exists a,
           lists w !! a = None
           /\ lists w' = <[a := Ngx_list (Ngx_list_part [] None) 8]> (lists w)
           /\ ngx_pcre_studies w' = Some a).
Proof.
  unfold ngx_regex_create_conf, ngx_list_create, store_list. run_step.
  destruct (hd true (alloc_oracle w)); cbn [negb].
  2:{ unfold ret. intros [= _ <- _]. simpl.
      split; [reflexivity|]. split; [reflexivity|]. left. auto. }
  run_step. cbn [alloc_oracle upd_alloc].
  destruct (hd true (tl (alloc_oracle w))).
  2:{ run_step. unfold ret. intros [= _ <- _]. simpl.
      split; [reflexivity|]. split; [reflexivity|]. left. auto. }
  run_step. cbn [alloc_oracle upd_alloc].
  destruct (hd true (tl (tl (alloc_oracle w)))).
  2:{ run_step. unfold ret. intros [= _ <- _]. simpl.
      split; [reflexivity|]. split; [reflexivity|]. left. auto. }
  run_step. unfold ret. intros [= _ <- _]. simpl.
  split; [reflexivity|]. split; [reflexivity|]. right.
  exists (fresh (dom (lists w))). split; [|auto].
  apply not_elem_of_dom, is_fresh.
Qed.

Lemma module_init_effect pcre2 have cycle w r w' t :
  ngx_regex_module_init pcre2 have cycle w = Some (r, w', t) ->
  lists w' = lists w
  /\ next_code w' = next_code w
  /\ ((cleanup w' = cleanup w /\ ngx_pcre_studies w' = ngx_pcre_studies w)
      \/ (ngx_pcre_studies w' = None
          /\ cleanup w'
             = Ngx_pool_cleanup (Some Handler_ngx_pcre_free_studies)
                 (ngx_pcre_studies w) :: cleanup w
          /\ exists a, ngx_pcre_studies w = Some a /\ is_Some (lists w !! a))).
Proof.
  unfold ngx_regex_module_init, ngx_pool_cleanup_add, set_cln.
  run_step. destruct (hd true (alloc_oracle w)).
  2:{ run_step. cbn [negb]. unfold ret. intros [= _ <- _]. simpl. auto. }
  run_step. cbn [negb]. run_step.
  cbn [ngx_pcre_studies upd_cleanup upd_alloc cleanup].
  destruct (ngx_pcre_studies w) as [a|]; [|discriminate].
  unfold bind at 1, load_list at 1. cbn [lists upd_cleanup upd_alloc].
  destruct (lists w !! a) as [l|] eqn:Hl; [|discriminate].
  rewrite after_nil. unfold bind at 1.
  match goal with
  | |- context [list_part_loop ?b false (part l) ?w1] =>
      destruct (list_part_loop b false (part l) w1) as [[[u w2] t2]|] eqn:Hloop;
        [|discriminate]
  end.
  apply list_part_loop_world in Hloop;
    [|intros ? ? ? ? ?; apply jit_pass_world].
  subst w2. run_step. unfold ret. cbn [after].
  intros [= _ <- _]. simpl.
  split; [reflexivity|]. split; [reflexivity|]. right.
  split; [reflexivity|]. split; [reflexivity|]. exists a. rewrite Hl. eauto.
Qed.

Lemma pcre_jit_world pcre2 have fp w :
  exists fp' t, ngx_regex_pcre_jit pcre2 have fp w = Some (NGX_CONF_OK, fp', w, t).
Proof.
  unfold ngx_regex_pcre_jit, pcre2_config_jit, ngx_conf_log_error.
  destruct (fp =? 0); [eexists _, _; reflexivity|].
  destruct have; [|eexists _, _; reflexivity].
  run_step.
  destruct (negb (fst (config_jit pcre2) =? 0)
            || negb (snd (config_jit pcre2) =? 1));
    eexists _, _; reflexivity.
Qed.

(** *** The invariant of the load *)

Lemma world_inv_initial oracle : world_inv (initial_world oracle).
Proof.
  constructor; simpl.
  - reflexivity.
  - intros a l H. rewrite lookup_empty in H. discriminate.
  - intros a1 a2 l1 l2 c _ H. rewrite lookup_empty in H. discriminate.
  - constructor.
  - constructor.
  - discriminate.
Qed.

Lemma world_inv_same w w' :
  lists w' = lists w ->
  cleanup w' = cleanup w ->
  (next_code w <= next_code w')%nat ->
  ngx_pcre_studies w' = ngx_pcre_studies w \/ ngx_pcre_studies w' = None ->
  world_inv w -> world_inv w'.
Proof.
  intros Hl Hc Hn Hs [I1 I2 I3 I4 I5 I6]. constructor.
  - unfold registry_ok in *. destruct Hs as [Hs|Hs]; rewrite Hs;
      [now rewrite Hl | reflexivity].
  - intros a l H. rewrite Hl in H. destruct (I2 a l H) as (Hok & Hlt & Hnd).
    split; [exact Hok|]. split; [|exact Hnd].
    eapply Forall_impl; [exact Hlt|]. intros c Hcn. simpl in *. lia.
  - intros a1 a2 l1 l2 c Hne H1 H2. rewrite Hl in H1, H2. eauto.
  - rewrite Hc. eapply Forall_impl; [exact I4|].
    intros c (Hh & a & Ha & Hsome). split; [exact Hh|].
    exists a. now rewrite Hl.
  - now rewrite Hc.
  - intros a Ha. rewrite Hc.
    destruct Hs as [Hs|Hs]; rewrite Hs in Ha; [auto|discriminate].
Qed.

Lemma world_inv_push w w' a l l' e :
  world_inv w ->
  ngx_pcre_studies w = Some a ->
  lists w !! a = Some l ->
  lists w' = <[a := l']> (lists w) ->
  entries l' = entries l ++ [e] ->
  code (regex e) = next_code w ->
  (list_ok l = true -> list_ok l' = true) ->
  next_code w' = S (next_code w) ->
  cleanup w' = cleanup w ->
  ngx_pcre_studies w' = ngx_pcre_studies w ->
  world_inv w'.
Proof.
  intros [I1 I2 I3 I4 I5 I6] Hs Hl Hl' Hent He Hok Hn Hc Hs'.
  destruct (I2 a l Hl) as (Hokl & Hlt & Hnd).
  assert (Hcodes : codes l' = codes l ++ [next_code w])
    by (unfold codes; rewrite Hent, map_app, <- He; reflexivity).
  assert (Hfresh : forall a0 l0, lists w !! a0 = Some l0 ->
                                 ~ In (next_code w) (codes l0)).
  { intros a0 l0 H0 Hin. destruct (I2 a0 l0 H0) as (_ & Hlt0 & _).
    rewrite List.Forall_forall in Hlt0. apply Hlt0 in Hin. lia. }
  constructor.
  - unfold registry_ok. rewrite Hs', Hs, Hl', lookup_insert_eq. auto.
  - intros a0 l0. rewrite Hl', Hn.
    destruct (decide (a = a0)) as [<-|Hne].
    + rewrite lookup_insert_eq. intros [= <-]. split; [auto|]. rewrite Hcodes.
      split.
      * apply Forall_app. split.
        -- eapply Forall_impl; [exact Hlt|]. intros c Hcn. simpl in *. lia.
        -- repeat constructor.
      * apply List.NoDup_app; [exact Hnd|repeat constructor; intros []|].
        intros c Hin [<-|[]]. exact (Hfresh a l Hl Hin).
    + rewrite lookup_insert_ne by exact Hne. intros H0.
      destruct (I2 a0 l0 H0) as (Hok0 & Hlt0 & Hnd0).
      split; [exact Hok0|]. split; [|exact Hnd0].
      eapply Forall_impl; [exact Hlt0|]. intros c Hcn. simpl in *. lia.
  - intros a1 a2 l1 l2 c Hne. rewrite Hl'.
    destruct (decide (a = a1)) as [<-|Hne1].
    + rewrite lookup_insert_eq, lookup_insert_ne by exact Hne.
      intros [= <-] H2. rewrite Hcodes, in_app_iff.
      intros [Hin|[<-|[]]]; [exact (I3 a a2 l l2 c Hne Hl H2 Hin)|].
      exact (Hfresh a2 l2 H2).
    + rewrite (lookup_insert_ne _ a a1) by exact Hne1.
      destruct (decide (a = a2)) as [<-|Hne2].
      * rewrite lookup_insert_eq. intros H1 [= <-] Hin.
        rewrite Hcodes, in_app_iff.
        intros [Hin2|[<-|[]]].
        -- exact (I3 a1 a l1 l c Hne H1 Hl Hin Hin2).
        -- exact (Hfresh a1 l1 H1 Hin).
      * rewrite lookup_insert_ne by exact Hne2. eauto.
  - rewrite Hc. eapply Forall_impl; [exact I4|].
    intros c (Hh & a0 & Ha & Hsome). split; [exact Hh|].
    exists a0. split; [exact Ha|]. rewrite Hl'.
    apply lookup_insert_is_Some. destruct (decide (a = a0)); auto.
  - now rewrite Hc.
  - intros a0 Ha. rewrite Hc. rewrite Hs' in Ha. auto.
Qed.

Lemma world_inv_compile pcre2 rc w res w' t :
  world_inv w ->
  ngx_regex_compile pcre2 rc w = Some (res, w', t) ->
  world_inv w'.
Proof.
  intros Hinv Hrun.
  destruct (compile_effect _ _ _ _ _ _ Hrun) as (Hc & Hs & Hn & [Hl|Hpush]).
  - apply (world_inv_same w w'); auto.
  - destruct Hpush as (a & l & l' & Hsa & Hl & Hl' & Hent & Hok & Hn').
    apply (world_inv_push w w' a l l' _ Hinv Hsa Hl Hl' Hent); auto.
Qed.

Lemma world_inv_create_conf w r w' t :
  world_inv w ->
  ngx_regex_create_conf w = Some (r, w', t) ->
  world_inv w'.
Proof.
  intros Hinv Hrun.
  destruct (create_conf_effect _ _ _ _ Hrun) as (Hc & Hn & [[Hl Hs]|Hnew]).
  - apply (world_inv_same w w'); auto. lia.
  - destruct Hnew as (a & Hnone & Hl' & Hs').
    destruct Hinv as [I1 I2 I3 I4 I5 I6]. constructor.
    + unfold registry_ok. rewrite Hs', Hl', lookup_insert_eq. reflexivity.
    + intros a0 l0. rewrite Hl', Hn.
      destruct (decide (a = a0)) as [<-|Hne].
      * rewrite lookup_insert_eq. intros [= <-].
        split; [reflexivity|]. split; constructor.
      * rewrite lookup_insert_ne by exact Hne. apply I2.
    + intros a1 a2 l1 l2 c Hne. rewrite Hl'.
      destruct (decide (a = a1)) as [<-|Hne1].
      * rewrite lookup_insert_eq. intros [= <-] _ [].
      * rewrite (lookup_insert_ne _ a a1) by exact Hne1.
        destruct (decide (a = a2)) as [<-|Hne2].
        -- rewrite lookup_insert_eq. intros _ [= <-] _ [].
        -- rewrite lookup_insert_ne by exact Hne2. eauto.
    + rewrite Hc. eapply Forall_impl; [exact I4|].
      intros c (Hh & a0 & Ha & Hsome). split; [exact Hh|].
      exists a0. split; [exact Ha|]. rewrite Hl'.
      apply lookup_insert_is_Some. destruct (decide (a = a0)); auto.
    + now rewrite Hc.
    + intros a0. rewrite Hs', Hc. intros [= <-] Hin.
      apply in_map_iff in Hin as (c & Hdata & Hin).
      rewrite List.Forall_forall in I4.
      destruct (I4 c Hin) as (_ & a1 & Ha1 & Hsome).
      rewrite Hdata in Ha1. injection Ha1 as <-.
      rewrite Hnone in Hsome. destruct Hsome as [x Hx]. discriminate.
Qed.

Lemma world_inv_module_init pcre2 have cycle w r w' t :
  world_inv w ->
  ngx_regex_module_init pcre2 have cycle w = Some (r, w', t) ->
  world_inv w'.
Proof.
  intros Hinv Hrun.
  destruct (module_init_effect _ _ _ _ _ _ _ Hrun)
    as (Hl & Hn & [[Hc Hs]|(Hs & Hc & a & Hsa & Hsome)]).
  - apply (world_inv_same w w'); auto. lia.
  - destruct Hinv as [I1 I2 I3 I4 I5 I6]. constructor.
    + unfold registry_ok. now rewrite Hs.
    + intros a0 l0. rewrite Hl, Hn. apply I2.
    + intros a1 a2 l1 l2 c Hne. rewrite Hl. eauto.
    + rewrite Hc. constructor.
      * split; [reflexivity|]. exists a. simpl. now rewrite Hl.
      * eapply Forall_impl; [exact I4|].
        intros c (Hh & a0 & Ha & Hsome0). split; [exact Hh|].
        exists a0. now rewrite Hl.
    + rewrite Hc. simpl. constructor; [|exact I5].
      rewrite Hsa. apply I6. exact Hsa.
    + intros a0 Ha. rewrite Hs in Ha. discriminate.
Qed.

(** Every world the load of a configuration reaches satisfies the
    invariant. *)
Lemma world_inv_do_calls pcre2 have cs w w' t :
  world_inv w ->
  do_calls pcre2 have cs w = Some (tt, w', t) ->
  world_inv w'.
Proof.
  revert w t. induction cs as [|c cs IH]; intros w t Hinv; simpl.
  - unfold ret. now intros [= <- _].
  - unfold bind at 1.
    destruct (do_call pcre2 have c w) as [[[u w1] t1]|] eqn:Hcall; [|discriminate].
    destruct (do_calls pcre2 have cs w1) as [[[u' w2] t2]|] eqn:Hrest;
      [|discriminate].
    destruct u'. simpl. intros [= <- _].
    apply (IH w1 t2); [|exact Hrest].
    clear IH Hrest. destruct c as [|rc|fp|cycle]; simpl in Hcall;
      unfold bind in Hcall.
    + destruct (ngx_regex_create_conf w) as [[[r w0] t0]|] eqn:H; [|discriminate].
      simpl in Hcall. injection Hcall as _ <- _.
      exact (world_inv_create_conf _ _ _ _ Hinv H).
    + destruct (ngx_regex_compile pcre2 rc w) as [[[r w0] t0]|] eqn:H;
        [|discriminate].
      simpl in Hcall. injection Hcall as _ <- _.
      exact (world_inv_compile _ _ _ _ _ _ Hinv H).
    + destruct (pcre_jit_world pcre2 have fp w) as (fp' & t0 & H).
      rewrite H in Hcall. simpl in Hcall. injection Hcall as _ <- _.
      exact Hinv.
    + destruct (ngx_regex_module_init pcre2 have cycle w) as [[[r w0] t0]|] eqn:H;
        [|discriminate].
      simpl in Hcall. injection Hcall as _ <- _.
      exact (world_inv_module_init _ _ _ _ _ _ _ Hinv H).
Qed.

(** *** Teardown after the load *)

Lemma run_cleanups_run w cs :
  Forall (cleanup_ok w) cs ->
  (forall a l, lists w !! a = Some l -> list_ok l = true) ->
  exists t,
    run_cleanups cs w = Some (tt, w, t)
    /\ freed t = flat_map (record_codes w) cs.
Proof.
  intros Hcs Hok. induction Hcs as [|c cs (Hh & a & Ha & l & Hl) _ (t & Hrun & Hfreed)];
    simpl.
  - exists []. split; reflexivity.
  - unfold run_cleanup. rewrite Hh, Ha.
    rewrite (bind_run _ _ _ _ _ _ (free_studies_run a l w Hl (Hok a l Hl))), Hrun.
    eexists. split; [reflexivity|].
    rewrite freed_app, freed_free_events, Hfreed.
    unfold record_codes, registry_at. rewrite Ha, Hl. reflexivity.
Qed.

Lemma record_codes_apart w cs :
  world_inv w ->
  Forall (cleanup_ok w) cs ->
  List.NoDup (map cln_data cs) ->
  List.NoDup (flat_map (record_codes w) cs).
Proof.
  intros Hinv Hcs. induction Hcs as [|c cs (Hh & a & Ha & l & Hl) Hrest IH];
    simpl; intros Hnd.
  - constructor.
  - apply List.NoDup_cons_iff in Hnd as [Hnotin Hnd].
    unfold record_codes at 1, registry_at. rewrite Ha, Hl.
    apply List.NoDup_app.
    + apply (inv_lists w Hinv a l Hl).
    + apply IH, Hnd.
    + intros x Hx Hin. apply in_flat_map in Hin as (c' & Hc' & Hx').
      rewrite List.Forall_forall in Hrest.
      destruct (Hrest c' Hc') as (_ & a' & Ha' & l' & Hl').
      unfold record_codes, registry_at in Hx'. rewrite Ha', Hl' in Hx'.
      destruct (decide (a = a')) as [<-|Hne].
      * apply Hnotin. rewrite Ha, <- Ha'. apply in_map, Hc'.
      * exact (inv_apart w Hinv a a' l l' x Hne Hl Hl' Hx Hx').
Qed.

(** In a world the load of a configuration reaches, the teardown of the
    pool returns and frees the compiled patterns of the registered
    registries, each of them once. *)
Lemma destroy_pool_frees_each_once w :
  world_inv w ->
  exists t,
    ngx_destroy_pool w = Some (tt, w, t)
    /\ freed t = flat_map (record_codes w) (cleanup w)
    /\ List.NoDup (freed t).
Proof.
  intros Hinv.
  destruct (run_cleanups_run w (cleanup w) (inv_cleanup w Hinv))
    as (t & Hrun & Hfreed).
  { intros a l Hl. apply (inv_lists w Hinv a l Hl). }
  exists t. unfold ngx_destroy_pool. rewrite bind_gets.
  split; [exact Hrun|]. split; [exact Hfreed|].
  rewrite Hfreed.
  apply record_codes_apart; [exact Hinv | apply inv_cleanup, Hinv |].
  apply inv_records, Hinv.
Qed.

Lemma load_then_destroy_pool pcre2 have cs oracle w t :
  do_calls pcre2 have cs (initial_world oracle) = Some (tt, w, t) ->
  registry_ok w = true
  /\ exists t',
       ngx_destroy_pool w = Some (tt, w, t')
       /\ freed t' = flat_map (record_codes w) (cleanup w)
       /\ List.NoDup (freed t').
Proof.
  intros Hrun.
  pose proof (world_inv_do_calls _ _ _ _ _ _ (world_inv_initial oracle) Hrun)
    as Hinv.
  split; [apply inv_registry, Hinv | apply destroy_pool_frees_each_once, Hinv].
Qed.

(** *** A consumed registry *)

(** A registry that the static pointer does not designate is out of reach
    of every later call of the load. *)
Lemma registry_frozen_call pcre2 have c w w' t a l :
  lists w !! a = Some l ->
  ngx_pcre_studies w <> Some a ->
  do_call pcre2 have c w = Some (tt, w', t) ->
  lists w' !! a = Some l /\ ngx_pcre_studies w' <> Some a.
Proof.
  intros Hl Hs. destruct c as [|rc|fp|cycle]; simpl; unfold bind.
  - destruct (ngx_regex_create_conf w) as [[[r w0] t0]|] eqn:H; [|discriminate].
    simpl. intros [= <- _].
    destruct (create_conf_effect _ _ _ _ H) as (_ & _ & [[Hl0 Hs0]|Hnew]).
    + rewrite Hl0. split; [exact Hl|].
      destruct Hs0 as [Hs0|Hs0]; rewrite Hs0; [exact Hs|discriminate].
    + destruct Hnew as (a0 & Hnone & Hl0 & Hs0).
      assert (a0 <> a) by (intros ->; rewrite Hnone in Hl; discriminate).
      rewrite Hl0, Hs0, lookup_insert_ne by assumption.
      split; [exact Hl|congruence].
  - destruct (ngx_regex_compile pcre2 rc w) as [[[r w0] t0]|] eqn:H;
      [|discriminate].
    simpl. intros [= <- _].
    destruct (compile_effect _ _ _ _ _ _ H) as (_ & Hs0 & _ & [Hl0|Hpush]).
    + rewrite Hl0, Hs0. auto.
    + destruct Hpush as (a0 & l0 & l' & Hsa & _ & Hl0 & _).
      assert (a0 <> a) by congruence.
      rewrite Hl0, Hs0, lookup_insert_ne by assumption. auto.
  - destruct (pcre_jit_world pcre2 have fp w) as (fp' & t0 & H).
    rewrite H. simpl. intros [= <- _]. auto.
  - destruct (ngx_regex_module_init pcre2 have cycle w) as [[[r w0] t0]|] eqn:H;
      [|discriminate].
    simpl. intros [= <- _].
    destruct (module_init_effect _ _ _ _ _ _ _ H)
      as (Hl0 & _ & [[_ Hs0]|(Hs0 & _)]); rewrite Hl0, Hs0;
      (split; [exact Hl|auto; discriminate]).
Qed.

Lemma registry_frozen pcre2 have cs w w' t a l :
  lists w !! a = Some l ->
  ngx_pcre_studies w <> Some a ->
  do_calls pcre2 have cs w = Some (tt, w', t) ->
  lists w' !! a = Some l /\ ngx_pcre_studies w' <> Some a.
Proof.
  revert w t. induction cs as [|c cs IH]; intros w t Hl Hs; simpl.
  - unfold ret. intros [= <- _]. auto.
  - unfold bind at 1.
    destruct (do_call pcre2 have c w) as [[[[] w1] t1]|] eqn:Hcall; [|discriminate].
    destruct (do_calls pcre2 have cs w1) as [[[[] w2] t2]|] eqn:Hrest;
      [|discriminate].
    simpl. intros [= <- _].
    destruct (registry_frozen_call _ _ _ _ _ _ _ _ Hl Hs Hcall) as [Hl1 Hs1].
    exact (IH w1 t2 Hl1 Hs1 Hrest).
Qed.

(** C8: when [ngx_regex_module_init] has gone through the registry and
    returned, with JIT or without, the static pointer is NULL; every later
    call of [ngx_regex_compile] returns without the append: the pointer
    stays NULL and no list changes.  The registry the teardown hook was
    given keeps the entries it had for ever: through any later calls of the
    load, those that start a new generation included. *)
Theorem registry_absent_after_init pcre2 have cycle w w' t :
  ngx_regex_module_init pcre2 have cycle w = Some (NGX_OK, w', t) ->
  ngx_pcre_studies w' = None
  /\ registry_at w' (ngx_pcre_studies w) = registry_at w (ngx_pcre_studies w)
  /\ (forall rcs,
       exists rs w'' t',
         compile_each pcre2 rcs w' = Some (rs, w'', t')
         /\ length rs = length rcs
         /\ ngx_pcre_studies w'' = None
         /\ lists w'' = lists w
         /\ registry_at w'' (ngx_pcre_studies w)
            = registry_at w (ngx_pcre_studies w)
         /\ Forall (fun ev => ~ is_push ev) t')
  /\ (forall cs w'' t',
        do_calls pcre2 have cs w' = Some (tt, w'', t') ->
        registry_at w'' (ngx_pcre_studies w)
        = registry_at w (ngx_pcre_studies w)).
Proof.
  intros Hinit.
  destruct (module_init_ok _ _ _ _ _ _ Hinit) as (Hs & Hl & _ & Hsome).
  split; [exact Hs|]. split; [unfold registry_at; now rewrite Hl|]. split.
  - intros rcs.
    destruct (compile_each_without_registry pcre2 rcs w' Hs)
      as (rs & w'' & t' & Hrun & Hlen & Hs'' & Hl'' & _ & Hp).
    exists rs, w'', t'. split; [exact Hrun|]. split; [exact Hlen|].
    split; [exact Hs''|]. split; [now rewrite Hl''|].
    split; [unfold registry_at; now rewrite Hl'', Hl|exact Hp].
  - intros cs w'' t' Hload.
    destruct (ngx_pcre_studies w) as [a|]; [|reflexivity].
    destruct Hsome as [l Hat]. simpl in Hat. simpl. rewrite Hat.
    apply (registry_frozen pcre2 have cs w' w'' t' a l); [| |exact Hload].
    + now rewrite Hl.
    + rewrite Hs. discriminate.
Qed.

Lemma registry_absent_after_init_witness :
  let pcre2 := Fixture.engine Fixture.info_named Fixture.jit_but_second in
  exists w' t,
    ngx_regex_module_init pcre2 true Fixture.cycle_on (Fixture.configured pcre2)
    = Some (NGX_OK, w', t)
    /\ ngx_pcre_studies w' = None
    /\ exists rs w'' t',
         compile_each pcre2 [Fixture.request "^/late$" 100] w'
         = Some (rs, w'', t')
         /\ ngx_pcre_studies w'' = None
         /\ lists w'' = lists (Fixture.configured pcre2).
Proof.
  intros pcre2.
  assert (Hinit : exists w' t,
            ngx_regex_module_init pcre2 true Fixture.cycle_on
              (Fixture.configured pcre2) = Some (NGX_OK, w', t))
    by (eexists _, _; reflexivity).
  destruct Hinit as (w' & t & Hinit).
  destruct (registry_absent_after_init pcre2 true Fixture.cycle_on
              (Fixture.configured pcre2) w' t Hinit) as (Hs & _ & Hlater & _).
  destruct (Hlater [Fixture.request "^/late$" 100])
    as (rs & w'' & t' & Hrun & _ & Hs'' & Hl'' & _).
  exists w', t. split; [exact Hinit|]. split; [exact Hs|].
  exists rs, w'', t'. auto.
Defined.

(** *** A discarded pattern *)

Ltac concrete_run H :=
  let H' := fresh in
  pose proof H as H'; vm_compute in H'; injection H'; intros; subst; clear H'.

Lemma pending_codes_apart w a l c re :
  world_inv w ->
  ngx_pcre_studies w = Some a ->
  lists w !! a = Some l ->
  In c (cleanup w) ->
  In re (codes l) ->
  ~ In re (record_codes w c).
Proof.
  intros Hinv Hs Hl Hc Hre Hin.
  pose proof (inv_cleanup w Hinv) as Hok.
  rewrite List.Forall_forall in Hok.
  destruct (Hok c Hc) as (_ & a' & Ha' & _).
  unfold record_codes, registry_at in Hin. rewrite Ha' in Hin.
  destruct (lists w !! a') as [l'|] eqn:Hl'; [|destruct Hin].
  assert (Hne : a <> a').
  { intros <-. apply (inv_pending w Hinv a Hs).
    apply in_map_iff. exists c. auto. }
  exact (inv_apart w Hinv a a' l l' re Hne Hl Hl' Hre Hin).
Qed.

Lemma destroy_pool_spares_pending w a l re :
  world_inv w ->
  ngx_pcre_studies w = Some a ->
  lists w !! a = Some l ->
  In re (codes l) ->
  exists t, ngx_destroy_pool w = Some (tt, w, t) /\ ~ In re (freed t).
Proof.
  intros Hinv Hs Hl Hre.
  destruct (destroy_pool_frees_each_once w Hinv) as (t & Hd & Hf & _).
  exists t. split; [exact Hd|].
  rewrite Hf. intros Hin. apply in_flat_map in Hin as (c & Hc & Hin).
  exact (pending_codes_apart w a l c re Hinv Hs Hl Hc Hre Hin).
Qed.

(** C10, as the code has it: with an active registry, [ngx_regex_compile]
    appends the entry of the pattern before it makes any metadata query;
    when a query then fails the call returns [NGX_ERROR] and the registry
    holds one more entry, that of the discarded pattern, so that the
    teardown hook run on this registry frees the compiled pattern as it
    frees the others.  The call registers no hook: the teardown of the pool
    frees the compiled pattern of the discarded pattern, once, when
    [ngx_regex_module_init] has then registered the hook (the load goes on
    and the cleanup record is allocated); a teardown that comes right after
    the failed call, or after an [ngx_regex_module_init] that could not
    allocate the cleanup record, does not free it. *)
Theorem compile_failure_keeps_entry pcre2 rc w a l re what n :
  ngx_pcre_studies w = Some a ->
  lists w !! a = Some l ->
  list_ok l = true ->
  In (Ev_pcre2_pattern_info re what n)
     (events_of (ngx_regex_compile pcre2 rc) w) ->
  n < 0 ->
  exists rc' w' l' t,
    ngx_regex_compile pcre2 rc w
    = Some (NGX_ERROR, rc', w',
            Ev_pcre2_compile (c_str (data (pattern rc))) (to_int (options rc))
              (inl re)
            :: Ev_ngx_list_push a true :: t)
    /\ Forall (is_query re) t
    /\ last t = Some (Ev_pcre2_pattern_info re what n)
    /\ ngx_pcre_studies w' = Some a
    /\ lists w' !! a = Some l'
    /\ entries l'
       = entries l ++ [Ngx_regex_elt (Ngx_regex re) (data (pattern rc))]
    /\ cleanup w' = cleanup w
    /\ ngx_pcre_free_studies (Some a) w'
       = Some (tt, w',
               map (fun e => Ev_pcre2_code_free (code (regex e))) (entries l)
               ++ [Ev_pcre2_code_free re])
    /\ (world_inv w ->
        hd true (alloc_oracle w') = true ->
        forall have cycle,
        exists w'' t1 t2,
          ngx_regex_module_init pcre2 have cycle w' = Some (NGX_OK, w'', t1)
          /\ ngx_destroy_pool w'' = Some (tt, w'', t2)
          /\ In re (freed t2)
          /\ List.NoDup (freed t2))
    /\ (world_inv w ->
        exists t0,
          ngx_destroy_pool w' = Some (tt, w', t0) /\ ~ In re (freed t0))
    /\ (world_inv w ->
        hd true (alloc_oracle w') = false ->
        forall have cycle,
        exists w'' t2,
          ngx_regex_module_init pcre2 have cycle w' = Some (NGX_ERROR, w'', [])
          /\ ngx_destroy_pool w'' = Some (tt, w'', t2)
          /\ ~ In re (freed t2)).
Proof.
  intros Hs Hl Hok Hin Hn.
  destruct (compile_query_failed _ _ _ _ _ _ Hin Hn)
    as (rc' & w' & push & t & Hrun & _ & _ & Hq & Hlast & _ & _ & Hs' & _ & Hreg).
  rewrite Hs in Hreg, Hs'.
  destruct Hreg as (-> & l0 & l' & Hl0 & Hl' & Hent & Hok').
  rewrite Hl in Hl0. inversion Hl0; subst l0.
  assert (Hat : lists w' !! a = Some l') by (rewrite Hl'; apply lookup_insert_eq).
  assert (Hre : In re (codes l')).
  { unfold codes. rewrite Hent, map_app. apply in_or_app. right. now left. }
  exists rc', w', l', t.
  split; [exact Hrun|]. split; [exact Hq|]. split; [exact Hlast|].
  split; [exact Hs'|]. split; [exact Hat|]. split; [exact Hent|].
  split; [apply (compile_effect _ _ _ _ _ _ Hrun)|].
  split.
  { rewrite (free_studies_run a l' w' Hat (Hok' Hok)), Hent, map_app.
    reflexivity. }
  split; [|split].
  - intros Hinv Hmem have cycle.
    pose proof (world_inv_compile _ _ _ _ _ _ Hinv Hrun) as Hinv'.
    pose proof (module_init_run pcre2 have cycle w' a l' Hs' Hat (Hok' Hok))
      as Hinit.
    rewrite Hmem in Hinit.
    pose proof (world_inv_module_init _ _ _ _ _ _ _ Hinv' Hinit) as Hinv''.
    destruct (destroy_pool_frees_each_once _ Hinv'')
      as (t2 & Hdestroy & Hfreed & Hnd).
    eexists _, _, t2. split; [exact Hinit|]. split; [exact Hdestroy|].
    split; [|exact Hnd].
    rewrite Hfreed. simpl. apply in_or_app. left.
    unfold record_codes. simpl. now rewrite Hat.
  - intros Hinv.
    pose proof (world_inv_compile _ _ _ _ _ _ Hinv Hrun) as Hinv'.
    exact (destroy_pool_spares_pending w' a l' re Hinv' Hs' Hat Hre).
  - intros Hinv Hmem have cycle.
    pose proof (world_inv_compile _ _ _ _ _ _ Hinv Hrun) as Hinv'.
    pose proof (module_init_run pcre2 have cycle w' a l' Hs' Hat (Hok' Hok))
      as Hinit.
    rewrite Hmem in Hinit.
    pose proof (world_inv_module_init _ _ _ _ _ _ _ Hinv' Hinit) as Hinv''.
    destruct (destroy_pool_spares_pending _ a l' re Hinv'' Hs' Hat Hre)
      as (t2 & Hdestroy & Hnot).
    eexists _, t2. split; [exact Hinit|]. split; [exact Hdestroy|exact Hnot].
Qed.

Lemma compile_failure_keeps_entry_witness :
  let pcre2 := Fixture.engine Fixture.info_broken Fixture.jit_all in
  let rc := Fixture.request "(?<id>a)(b)" 100 in
  exists rc' w' l',
    ngx_regex_compile pcre2 rc Fixture.created
    = Some (NGX_ERROR, rc', w',
            [Ev_pcre2_compile (lit "(?<id>a)(b)") 0 (inl 0%nat);
             Ev_ngx_list_push 0 true;
             Ev_pcre2_pattern_info 0 PCRE2_INFO_CAPTURECOUNT 0;
             Ev_pcre2_pattern_info 0 PCRE2_INFO_NAMECOUNT 0;
             Ev_pcre2_pattern_info 0 PCRE2_INFO_NAMEENTRYSIZE (-3)])
    /\ lists w' !! 0%nat = Some l'
    /\ entries l' = [Ngx_regex_elt (Ngx_regex 0) (data (pattern rc))]
    /\ freed (events_of (ngx_pcre_free_studies (Some 0%nat)) w') = [0%nat].
Proof.
  intros pcre2 rc.
  destruct (compile_failure_keeps_entry pcre2 rc Fixture.created 0%nat
              (Ngx_list (Ngx_list_part [] None) 8) 0%nat
              PCRE2_INFO_NAMEENTRYSIZE (-3))
    as (rc' & w' & l' & t & Hrun & _ & _ & _ & Hat & Hent & _ & Hfree & _).
  - reflexivity.
  - reflexivity.
  - reflexivity.
  - vm_compute. right. right. right. right. left. reflexivity.
  - lia.
  - exists rc', w', l'. split.
    + rewrite Hrun. f_equal. f_equal.
      assert (Ht : events_of (ngx_regex_compile pcre2 rc) Fixture.created
                   = [Ev_pcre2_compile (lit "(?<id>a)(b)") 0 (inl 0%nat);
                      Ev_ngx_list_push 0 true;
                      Ev_pcre2_pattern_info 0 PCRE2_INFO_CAPTURECOUNT 0;
                      Ev_pcre2_pattern_info 0 PCRE2_INFO_NAMECOUNT 0;
                      Ev_pcre2_pattern_info 0 PCRE2_INFO_NAMEENTRYSIZE (-3)])
        by (vm_compute; reflexivity).
      unfold events_of in Ht. rewrite Hrun in Ht. exact Ht.
    + split; [exact Hat|]. split; [exact Hent|].
      unfold events_of. rewrite Hfree. reflexivity.
Defined.

(** C10 as stated fails: the registry is active, the third metadata query
    fails and the call returns [NGX_ERROR] with the entry of the discarded
    pattern in the registry; no cleanup record exists, and the teardown of
    the pool that follows makes no call: the compiled pattern is not
    freed. *)
Lemma compile_failure_not_freed_counterexample :
  let pcre2 := Fixture.engine Fixture.info_broken Fixture.jit_all in
  let rc := Fixture.request "(?<id>a)(b)" 100 in
  exists rc' w' t l',
    ngx_regex_compile pcre2 rc Fixture.created = Some (NGX_ERROR, rc', w', t)
    /\ In (Ev_pcre2_pattern_info 0 PCRE2_INFO_NAMEENTRYSIZE (-3)) t
    /\ ngx_pcre_studies w' = Some 0%nat
    /\ lists w' !! 0%nat = Some l'
    /\ codes l' = [0%nat]
    /\ cleanup w' = []
    /\ ngx_destroy_pool w' = Some (tt, w', [])
    /\ ~ In 0%nat (freed (events_of ngx_destroy_pool w')).
Proof.
  intros pcre2 rc.
  destruct (ngx_regex_compile pcre2 rc Fixture.created)
    as [[[[r rc'] w'] t]|] eqn:Hrun; [|vm_compute in Hrun; discriminate Hrun].
  concrete_run Hrun.
  eexists _, _, _, _. split; [exact Hrun|].
  split; [right; right; right; right; left; reflexivity|].
  split; [reflexivity|]. split; [reflexivity|]. split; [reflexivity|].
  split; [reflexivity|]. split; [reflexivity|]. intros [].
Qed.

(** * Further properties *)

(** ** The outcomes of [ngx_regex_compile] *)

(** How the metadata step ends. *)
Lemma compile_metadata_result pcre2 re rc w res w' t :
  compile_metadata pcre2 re rc w = Some (res, w', t) ->
  w' = w
  /\ pattern (snd res) = pattern rc
  /\ options (snd res) = options rc
  /\ rc_regex (snd res) = rc_regex rc
  /\ ((fst res = NGX_OK /\ err (snd res) = err rc)
      \/ (fst res = NGX_ERROR
          /\ exists what n,
               n < 0
               /\ err (snd res)
                  = err (snprintf_err rc (fmt_info_failed what)
                           [Arg_V (pattern rc); Arg_d n]))).
Proof.
  metadata_cases; intros [= <- <- _]; cbn [fst snd];
    (split; [reflexivity|]); (split; [reflexivity|]);
    (split; [reflexivity|]); (split; [reflexivity|]);
    first [ left; split; reflexivity
          | right; split; [reflexivity|]; eexists _, _;
            split; [apply Z.ltb_lt; eassumption | reflexivity] ].
Qed.

(** The three ways a call goes on once the engine has compiled the
    pattern: no memory for the [ngx_regex_t], no memory for the append, or
    the metadata step. *)
Lemma compile_accepted_outcome pcre2 rc w res w' t :
  compile_verdict pcre2 (c_str (data (pattern rc))) (to_int (options rc)) = None ->
  ngx_regex_compile pcre2 rc w = Some (res, w', t) ->
  let re := next_code w in
  let rc1 := set_regex rc (Some (Ngx_regex re)) in
  let ev := Ev_pcre2_compile (c_str (data (pattern rc))) (to_int (options rc))
              (inl re) in
  ngx_pcre_studies w' = ngx_pcre_studies w
  /\ cleanup w' = cleanup w
  /\ next_code w' = S re
  /\ ((hd true (alloc_oracle w) = false
       /\ res = (NGX_ERROR,
                 snprintf_err (set_regex rc None) fmt_nomem [Arg_V (pattern rc)])
       /\ lists w' = lists w
       /\ t = [ev])
      \/ (hd true (alloc_oracle w) = true
          /\ exists a,
               ngx_pcre_studies w = Some a
               /\ res = (NGX_ERROR,
                         snprintf_err rc1 fmt_nomem [Arg_V (pattern rc)])
               /\ lists w' = lists w
               /\ t = [ev; Ev_ngx_list_push a false])
      \/ (hd true (alloc_oracle w) = true
          /\ exists push tm,
               compile_metadata pcre2 re rc1 w' = Some (res, w', tm)
               /\ t = ev :: push ++ tm
               /\ match ngx_pcre_studies w with
                  | None => push = [] /\ lists w' = lists w
                  | Some a =>
                      push = [Ev_ngx_list_push a true]
                      /\ exists l l',
                           lists w !! a = Some l
                           /\ lists w' = <[a := l']> (lists w)
                           /\ entries l'
                              = entries l
                                ++ [Ngx_regex_elt (Ngx_regex re)
                                      (data (pattern rc))]
                           /\ (list_ok l = true -> list_ok l' = true)
                  end)).
Proof.
  intros Hv. rewrite (compile_accepted_run _ _ _ Hv).
  set (w1 := upd_alloc (upd_next_code w (S (next_code w))) (tl (alloc_oracle w))).
  destruct (hd true (alloc_oracle w)).
  2:{ unfold compile_nomem, ret. cbn [after app]. intros [= <- <- <-].
      split; [reflexivity|]. split; [reflexivity|]. split; [reflexivity|].
      left. auto. }
  destruct (ngx_pcre_studies w) as [a|] eqn:Hs.
  2:{ destruct (compile_metadata_run pcre2 (next_code w)
                  (set_regex rc (Some (Ngx_regex (next_code w)))) w1)
        as (res1 & t1 & Hrun & _).
      rewrite Hrun. cbn [after app]. intros [= <- <- <-].
      split; [exact Hs|]. split; [reflexivity|]. split; [reflexivity|].
      right. right. split; [reflexivity|]. exists [], t1.
      split; [exact Hrun|]. split; [reflexivity|]. split; reflexivity. }
  destruct (lists w !! a) as [l|] eqn:Hl.
  2:{ rewrite bind_crash by (apply list_push_dangling; exact Hl). discriminate. }
  destruct (list_push_run a (Ngx_regex_elt (Ngx_regex (next_code w))
                               (data (pattern rc))) w1 l Hl)
    as (ok & w2 & Hpush & Hst & Hcl & Hnc & _ & Hlists).
  rewrite (bind_run _ _ _ _ _ _ Hpush).
  destruct ok; cbn [negb].
  - destruct (compile_metadata_run pcre2 (next_code w)
                (set_regex rc (Some (Ngx_regex (next_code w)))) w2)
      as (res1 & t1 & Hrun & _).
    rewrite Hrun. cbn [after app]. intros [= <- <- <-].
    split; [rewrite Hst; exact Hs|]. split; [rewrite Hcl; reflexivity|].
    split; [rewrite Hnc; reflexivity|].
    right. right. split; [reflexivity|]. exists [Ev_ngx_list_push a true], t1.
    split; [exact Hrun|]. split; [reflexivity|]. split; [reflexivity|].
    destruct Hlists as (l' & Hl' & Hent & Hok). exists l, l'.
    exact (conj eq_refl (conj Hl' (conj Hent Hok))).
  - unfold compile_nomem, ret. cbn [after app]. intros [= <- <- <-].
    split; [rewrite Hst; exact Hs|]. split; [rewrite Hcl; reflexivity|].
    split; [rewrite Hnc; reflexivity|].
    right. left. split; [reflexivity|]. exists a.
    split; [reflexivity|]. split; [reflexivity|]. split; [exact Hlists|].
    reflexivity.
Qed.

Lemma nomem_value rc :
  ngx_str_value (err (snprintf_err rc fmt_nomem [Arg_V (pattern rc)]))
  = take (len (err rc)) (nomem_message rc).
Proof. now rewrite snprintf_err_value, expand_nomem. Qed.

Lemma compile_rejected_run pcre2 rc w errcode erroff :
  compile_verdict pcre2 (c_str (data (pattern rc))) (to_int (options rc))
    = Some (errcode, erroff) ->
  exists fmt args,
    ngx_regex_compile pcre2 rc w
    = Some (NGX_ERROR, snprintf_err rc fmt args, w,
            [Ev_pcre2_compile (c_str (data (pattern rc))) (to_int (options rc))
               (inr (errcode, erroff));
             Ev_pcre2_get_error_message errcode]).
Proof.
  intros Hv. unfold ngx_regex_compile, pcre2_compile, pcre2_get_error_message.
  rewrite Hv. run_step.
  destruct (erroff =? len (pattern rc))%nat; unfold ret; cbn [after app];
    eexists _, _; reflexivity.
Qed.

Lemma compile_returns pcre2 rc w :
  registry_ok w = true ->
  exists res w' t, ngx_regex_compile pcre2 rc w = Some (res, w', t).
Proof.
  intros Hr.
  destruct (compile_verdict pcre2 (c_str (data (pattern rc)))
              (to_int (options rc))) as [[errcode erroff]|] eqn:Hv.
  { destruct (compile_rejected_run _ _ w _ _ Hv) as (fmt & args & Hrun).
    eauto. }
  rewrite (compile_accepted_run _ _ _ Hv).
  set (w1 := upd_alloc (upd_next_code w (S (next_code w))) (tl (alloc_oracle w))).
  destruct (hd true (alloc_oracle w)).
  2:{ unfold compile_nomem, ret. cbn [after app]. eauto. }
  destruct (ngx_pcre_studies w) as [a|] eqn:Hs.
  2:{ destruct (compile_metadata_run pcre2 (next_code w)
                  (set_regex rc (Some (Ngx_regex (next_code w)))) w1)
        as (res1 & t1 & Hrun & _).
      rewrite Hrun. cbn [after app]. eauto. }
  destruct (registry_ok_at _ _ Hr Hs) as (l & Hl & _).
  destruct (list_push_run a (Ngx_regex_elt (Ngx_regex (next_code w))
                               (data (pattern rc))) w1 l Hl)
    as (ok & w2 & Hpush & _).
  rewrite (bind_run _ _ _ _ _ _ Hpush).
  destruct ok; cbn [negb].
  - destruct (compile_metadata_run pcre2 (next_code w)
                (set_regex rc (Some (Ngx_regex (next_code w)))) w2)
      as (res1 & t1 & Hrun & _).
    rewrite Hrun. cbn [after app]. eauto.
  - unfold compile_nomem, ret. cbn [after app]. eauto.
Qed.

Lemma snprintf_err_bounds rc fmt args :
  (len (err (snprintf_err rc fmt args)) <= len (err rc))%nat
  /\ ((len (err rc) <= length (data (err rc)))%nat ->
      length (data (err (snprintf_err rc fmt args))) = length (data (err rc)))
  /\ drop (len (err (snprintf_err rc fmt args)))
          (data (err (snprintf_err rc fmt args)))
     = drop (len (err (snprintf_err rc fmt args))) (data (err rc)).
Proof.
  unfold snprintf_err, ngx_snprintf. cbn [err set_err len data fst snd].
  set (out := take (len (err rc)) (ngx_vslprintf fmt args)).
  assert (Hout : (length out <= len (err rc))%nat)
    by (unfold out; rewrite length_take; lia).
  split; [exact Hout|]. split.
  - intros Hcap. rewrite length_app, length_drop. lia.
  - now rewrite drop_app_length.
Qed.

(** X1: when the engine has compiled the pattern and the pool has no memory
    for the [ngx_regex_t], [ngx_regex_compile] returns [NGX_ERROR] with
    [rc->regex] NULL and the message
    [regex "<pattern>" compilation failed: no memory], cut to the capacity
    of the buffer; it makes no append and no metadata query, and leaves the
    registry and the cleanup records as they were. *)
Theorem compile_no_memory_for_regex pcre2 rc w :
  compile_verdict pcre2 (c_str (data (pattern rc))) (to_int (options rc)) = None ->
  hd true (alloc_oracle w) = false ->
  exists rc' w',
    ngx_regex_compile pcre2 rc w
    = Some (NGX_ERROR, rc', w',
            [Ev_pcre2_compile (c_str (data (pattern rc))) (to_int (options rc))
               (inl (next_code w))])
    /\ rc_regex rc' = None
    /\ ngx_str_value (err rc') = take (len (err rc)) (nomem_message rc)
    /\ ngx_pcre_studies w' = ngx_pcre_studies w
    /\ lists w' = lists w
    /\ cleanup w' = cleanup w.
Proof.
  intros Hv Hmem. rewrite (compile_accepted_run _ _ _ Hv), Hmem.
  unfold compile_nomem, ret. cbn [after app].
  eexists _, _. split; [reflexivity|]. split; [reflexivity|].
  split; [exact (nomem_value (set_regex rc None))|].
  split; [reflexivity|]. split; reflexivity.
Qed.

Lemma compile_no_memory_for_regex_witness :
  exists rc' w',
    ngx_regex_compile (Fixture.engine Fixture.info_named Fixture.jit_all)
      (Fixture.request "^/a" 100) (initial_world [false])
    = Some (NGX_ERROR, rc', w', [Ev_pcre2_compile (lit "^/a") 0 (inl 0%nat)])
    /\ ngx_str_value (err rc')
       = lit "regex " ++ dq ++ lit "^/a" ++ dq
           ++ lit " compilation failed: no memory".
Proof.
  destruct (compile_no_memory_for_regex
              (Fixture.engine Fixture.info_named Fixture.jit_all)
              (Fixture.request "^/a" 100) (initial_world [false])
              eq_refl eq_refl)
    as (rc' & w' & Hrun & _ & Hval & _).
  exists rc', w'. split; [exact Hrun|]. rewrite Hval. reflexivity.
Defined.

(** X2: when the append to the registry fails for want of memory,
    [ngx_regex_compile] returns [NGX_ERROR] with the no-memory message;
    [rc->regex] already holds the compiled pattern, the registry is as it
    was, and no metadata query is made. *)
Theorem compile_no_memory_for_append pcre2 rc w a :
  In (Ev_ngx_list_push a false) (events_of (ngx_regex_compile pcre2 rc) w) ->
  exists rc' w',
    ngx_regex_compile pcre2 rc w
    = Some (NGX_ERROR, rc', w',
            [Ev_pcre2_compile (c_str (data (pattern rc))) (to_int (options rc))
               (inl (next_code w));
             Ev_ngx_list_push a false])
    /\ ngx_pcre_studies w = Some a
    /\ rc_regex rc' = Some (Ngx_regex (next_code w))
    /\ ngx_str_value (err rc') = take (len (err rc)) (nomem_message rc)
    /\ ngx_pcre_studies w' = ngx_pcre_studies w
    /\ lists w' = lists w
    /\ cleanup w' = cleanup w.
Proof.
  intros Hin. unfold events_of in Hin.
  destruct (ngx_regex_compile pcre2 rc w) as [[[res w'] t]|] eqn:Hrun;
    [|destruct Hin].
  destruct (compile_verdict pcre2 (c_str (data (pattern rc)))
              (to_int (options rc))) as [[errcode erroff]|] eqn:Hv.
  { destruct (compile_rejected_run _ _ w _ _ Hv) as (fmt & args & Hrej).
    rewrite Hrej in Hrun. injection Hrun as _ _ <-.
    destruct Hin as [H|[H|[]]]; discriminate. }
  destruct (compile_accepted_outcome _ _ _ _ _ _ Hv Hrun)
    as (Hs & Hc & _ & [(_ & _ & _ & ->)|[(_ & a0 & Hsa & -> & Hl & ->)
                                        |(_ & push & tm & Hmeta & -> & Hpush)]]).
  - destruct Hin as [H|[]]; discriminate.
  - destruct Hin as [H|[H|[]]]; [discriminate|]. injection H as ->.
    eexists _, w'. split; [reflexivity|]. split; [exact Hsa|].
    split; [reflexivity|].
    split; [exact (nomem_value (set_regex rc (Some (Ngx_regex (next_code w)))))|].
    auto.
  - exfalso. destruct Hin as [H|Hin]; [discriminate|].
    apply in_app_or in Hin as [Hin|Hin].
    + destruct (ngx_pcre_studies w); destruct Hpush as [-> _];
        [destruct Hin as [H|[]]; discriminate | destruct Hin].
    + destruct (compile_metadata_run pcre2 (next_code w)
                  (set_regex rc (Some (Ngx_regex (next_code w)))) w')
        as (res1 & t1 & Hrun1 & Hq & _).
      rewrite Hmeta in Hrun1. injection Hrun1 as _ <-.
      rewrite List.Forall_forall in Hq.
      destruct (Hq _ Hin) as (what & n & H). discriminate.
Qed.

Lemma compile_no_memory_for_append_witness :
  let pcre2 := Fixture.engine Fixture.info_named Fixture.jit_all in
  exists rc' w',
    ngx_regex_compile pcre2 (Fixture.request "^/i" 100) (Fixture.full_part pcre2)
    = Some (NGX_ERROR, rc', w',
            [Ev_pcre2_compile (lit "^/i") 0 (inl 8%nat);
             Ev_ngx_list_push 0 false])
    /\ lists w' = lists (Fixture.full_part pcre2).
Proof.
  intros pcre2.
  destruct (compile_no_memory_for_append pcre2 (Fixture.request "^/i" 100)
              (Fixture.full_part pcre2) 0%nat)
    as (rc' & w' & Hrun & _ & _ & _ & _ & Hl & _).
  - vm_compute. right. left. reflexivity.
  - exists rc', w'. split; [|exact Hl].
    rewrite Hrun. reflexivity.
Defined.

(** X3: a call of [ngx_regex_compile] that returns [NGX_OK] has stored the
    newly compiled pattern in [rc->regex] and left the pattern, the options
    and the error buffer of the request untouched; while a registry is
    being filled it has appended exactly one entry, last, with that pattern
    and the pattern text, and changed no other list; the static pointer and
    the cleanup records are as before. *)
Theorem compile_ok_records pcre2 rc w rc' w' t :
  ngx_regex_compile pcre2 rc w = Some (NGX_OK, rc', w', t) ->
  rc_regex rc' = Some (Ngx_regex (next_code w))
  /\ err rc' = err rc /\ pattern rc' = pattern rc /\ options rc' = options rc
  /\ ngx_pcre_studies w' = ngx_pcre_studies w
  /\ cleanup w' = cleanup w
  /\ compiled t = [next_code w]
  /\ match ngx_pcre_studies w with
     | None => lists w' = lists w
     | Some a =>
         exists l l',
           lists w !! a = Some l
           /\ lists w' = <[a := l']> (lists w)
           /\ entries l'
              = entries l ++ [Ngx_regex_elt (Ngx_regex (next_code w))
                                (data (pattern rc))]
     end.
Proof.
  intros Hrun.
  destruct (compile_verdict pcre2 (c_str (data (pattern rc)))
              (to_int (options rc))) as [[errcode erroff]|] eqn:Hv.
  { destruct (compile_rejected_run _ _ w _ _ Hv) as (fmt & args & Hrej).
    rewrite Hrej in Hrun. discriminate. }
  destruct (compile_accepted_outcome _ _ _ _ _ _ Hv Hrun)
    as (Hs & Hc & _ & [(_ & H & _)|[(_ & a0 & _ & H & _)
                                   |(_ & push & tm & Hmeta & -> & Hpush)]]);
    try discriminate.
  destruct (compile_metadata_result _ _ _ _ _ _ _ Hmeta)
    as (_ & Hpat & Hopt & Hre & [[_ Herr]|[H _]]); [|discriminate].
  cbn [fst snd] in *.
  split; [exact Hre|]. split; [exact Herr|]. split; [exact Hpat|].
  split; [exact Hopt|]. split; [exact Hs|]. split; [exact Hc|].
  assert (Htm : compiled tm = []).
  { destruct (compile_metadata_run pcre2 (next_code w)
                (set_regex rc (Some (Ngx_regex (next_code w)))) w')
      as (res1 & t1 & Hrun1 & Hq & _).
    rewrite Hmeta in Hrun1. injection Hrun1 as _ <-.
    clear - Hq. induction Hq as [|ev t1 (what & n & ->) _ IH];
      [reflexivity | exact IH]. }
  destruct (ngx_pcre_studies w) as [a|].
  - destruct Hpush as (-> & l & l' & Hl & Hl' & He & _).
    split; [cbn [compiled app]; now rewrite Htm|].
    exists l, l'. auto.
  - destruct Hpush as (-> & Hl).
    split; [cbn [compiled app]; now rewrite Htm|]. exact Hl.
Qed.

Lemma compile_ok_records_witness :
  let pcre2 := Fixture.engine Fixture.info_named Fixture.jit_all in
  exists rc' w' t l',
    ngx_regex_compile pcre2 (Fixture.request "^/a" 100) Fixture.created
    = Some (NGX_OK, rc', w', t)
    /\ rc_regex rc' = Some (Ngx_regex 0%nat)
    /\ lists w' !! 0%nat = Some l'
    /\ entries l' = [Ngx_regex_elt (Ngx_regex 0%nat) (lit "^/a" ++ [NUL])].
Proof.
  intros pcre2.
  destruct (ngx_regex_compile pcre2 (Fixture.request "^/a" 100)
              Fixture.created) as [[[[r rc'] w'] t]|] eqn:Hrun;
    [|discriminate Hrun].
  assert (Hr : r = NGX_OK)
    by (pose proof Hrun as H; vm_compute in H; injection H as <- _ _ _;
        reflexivity).
  subst r.
  destruct (compile_ok_records _ _ _ _ _ _ Hrun)
    as (Hre & _ & _ & _ & _ & _ & _ & l & l' & Hl & Hl' & He).
  exists rc', w', t, l'. split; [reflexivity|]. split; [exact Hre|].
  split; [rewrite Hl'; apply lookup_insert_eq|].
  rewrite He. vm_compute in Hl. injection Hl as <-. reflexivity.
Defined.

(** X4: on a world whose static pointer is NULL or designates a registry,
    [ngx_regex_compile] returns, with [NGX_OK] or [NGX_ERROR] and no other
    code; it never changes the pattern or the options of the request;
    [NGX_OK] leaves the error buffer untouched; an error never lengthens
    [rc->err] past the capacity the caller gave and leaves the bytes of the
    buffer after the message as they were. *)
Theorem compile_result_bounds pcre2 rc w :
  registry_ok w = true ->
  exists r rc' w' t,
    ngx_regex_compile pcre2 rc w = Some (r, rc', w', t)
    /\ (r = NGX_OK \/ r = NGX_ERROR)
    /\ (r = NGX_OK -> err rc' = err rc)
    /\ pattern rc' = pattern rc /\ options rc' = options rc
    /\ (len (err rc') <= len (err rc))%nat
    /\ drop (len (err rc')) (data (err rc'))
       = drop (len (err rc')) (data (err rc)).
Proof.
  intros Hr.
  destruct (compile_returns pcre2 rc w Hr) as ([r rc'] & w' & t & Hrun).
  exists r, rc', w', t. split; [exact Hrun|].
  assert (Hfmt : forall rc0 fmt args,
             err rc0 = err rc -> pattern rc0 = pattern rc ->
             options rc0 = options rc ->
             (r, rc') = (NGX_ERROR, snprintf_err rc0 fmt args) ->
             (r = NGX_OK \/ r = NGX_ERROR)
             /\ (r = NGX_OK -> err rc' = err rc)
             /\ pattern rc' = pattern rc /\ options rc' = options rc
             /\ (len (err rc') <= len (err rc))%nat
             /\ drop (len (err rc')) (data (err rc'))
                = drop (len (err rc')) (data (err rc))).
  { intros rc0 fmt args He Hp Ho [= -> ->].
    destruct (snprintf_err_bounds rc0 fmt args) as (Hlen & _ & Hdrop).
    rewrite He in Hlen, Hdrop.
    split; [now right|]. split; [discriminate|].
    split; [exact Hp|]. split; [exact Ho|]. split; [exact Hlen|exact Hdrop]. }
  destruct (compile_verdict pcre2 (c_str (data (pattern rc)))
              (to_int (options rc))) as [[errcode erroff]|] eqn:Hv.
  { destruct (compile_rejected_run _ _ w _ _ Hv) as (fmt & args & Hrej).
    rewrite Hrej in Hrun. injection Hrun as Hr1 Hr2 _ _.
    apply (Hfmt rc fmt args); [reflexivity..|]. now rewrite <- Hr1, <- Hr2. }
  destruct (compile_accepted_outcome _ _ _ _ _ _ Hv Hrun)
    as (_ & _ & _ & [(_ & H & _)|[(_ & a0 & _ & H & _)
                                 |(_ & push & tm & Hmeta & _)]]).
  - now apply (Hfmt (set_regex rc None) fmt_nomem [Arg_V (pattern rc)]).
  - now apply (Hfmt (set_regex rc (Some (Ngx_regex (next_code w))))
                 fmt_nomem [Arg_V (pattern rc)]).
  - destruct (compile_metadata_result _ _ _ _ _ _ _ Hmeta)
      as (_ & Hpat & Hopt & _ & [[Hok Herr]|(Hko & what & n & _ & Herr)]);
      cbn [fst snd] in *.
    + split; [now left|]. split; [intros _; exact Herr|].
      split; [exact Hpat|]. split; [exact Hopt|]. rewrite Herr.
      cbn [set_regex err]. split; [lia|reflexivity].
    + match type of Herr with
      | _ = err (snprintf_err ?rc0 ?fmt ?args) =>
          destruct (snprintf_err_bounds rc0 fmt args) as (Hlen & _ & Hdrop)
      end.
      rewrite <- Herr in Hlen, Hdrop.
      split; [now right|]. split; [rewrite Hko; discriminate|].
      split; [exact Hpat|]. split; [exact Hopt|].
      split; [exact Hlen|exact Hdrop].
Qed.

Lemma compile_result_bounds_witness :
  exists r rc' w' t,
    ngx_regex_compile (Fixture.engine Fixture.info_broken Fixture.jit_all)
      (Fixture.request "(?<x>a)" 20) Fixture.created
    = Some (r, rc', w', t)
    /\ (len (err rc') <= 20)%nat.
Proof.
  destruct (compile_result_bounds
              (Fixture.engine Fixture.info_broken Fixture.jit_all)
              (Fixture.request "(?<x>a)" 20) Fixture.created eq_refl)
    as (r & rc' & w' & t & Hrun & _ & _ & _ & _ & Hlen & _).
  exists r, rc', w', t. split; [exact Hrun|exact Hlen].
Defined.

(** ** The array executor, as a whole *)

Lemma exec_array_cons exec exec_n e a s w :
  ngx_regex_exec_array exec exec_n (e :: a) s w
  = if exec (regex e) s =? NGX_REGEX_NO_MATCHED then
      after [Ev_ngx_regex_exec (regex e) s (exec (regex e) s)]
        (ngx_regex_exec_array exec exec_n a s w)
    else if exec (regex e) s <? 0 then
      Some (NGX_ERROR, w,
            [Ev_ngx_regex_exec (regex e) s (exec (regex e) s);
             Ev_ngx_log_error NGX_LOG_ALERT
               (ngx_vslprintf (exec_n ++ fmt_exec_failed)
                  [Arg_d (exec (regex e) s); Arg_V s; Arg_s (name e)])])
    else Some (NGX_OK, w, [Ev_ngx_regex_exec (regex e) s (exec (regex e) s)]).
Proof.
  cbn [ngx_regex_exec_array]. unfold ngx_log_error. run_step.
  destruct (exec (regex e) s =? NGX_REGEX_NO_MATCHED); [reflexivity|].
  destruct (exec (regex e) s <? 0); run_step; reflexivity.
Qed.

(** X5: [ngx_regex_exec_array] always returns and changes nothing; its
    result is decided by the first pattern of the array whose execution
    does not report [NGX_REGEX_NO_MATCHED]: [NGX_DECLINED] when there is
    none, [NGX_ERROR] when that execution returned a negative code,
    [NGX_OK] otherwise. *)
Theorem exec_array_first_decisive exec exec_n a s w :
  exists t,
    ngx_regex_exec_array exec exec_n a s w
    = Some (match find (decisive exec s) a with
            | None => NGX_DECLINED
            | Some e => if exec (regex e) s <? 0 then NGX_ERROR else NGX_OK
            end, w, t).
Proof.
  induction a as [|e a (t & IH)].
  - exists []. reflexivity.
  - rewrite exec_array_cons. cbn [find]. unfold decisive at 1.
    destruct (exec (regex e) s =? NGX_REGEX_NO_MATCHED); cbn [negb].
    + rewrite IH. eexists. reflexivity.
    + destruct (exec (regex e) s <? 0); eexists; reflexivity.
Qed.

(** X6: the executions [ngx_regex_exec_array] makes are those of the
    elements of the array in order, from the first up to and including the
    first pattern that does not report [NGX_REGEX_NO_MATCHED], each once;
    it logs one message, an alert, when it returns [NGX_ERROR], and nothing
    otherwise. *)
Theorem exec_array_trace exec exec_n a s w :
  exists r t,
    ngx_regex_exec_array exec exec_n a s w = Some (r, w, t)
    /\ executed t = map regex (examined exec s a)
    /\ (exists post, a = examined exec s a ++ post)
    /\ length (logged t) = (if r =? NGX_ERROR then 1%nat else 0%nat)
    /\ Forall (fun m => fst m = NGX_LOG_ALERT) (logged t).
Proof.
  induction a as [|e a (r & t & IH & Hex & (post & Hpost) & Hlen & Hlev)].
  - exists NGX_DECLINED, []. split; [reflexivity|]. split; [reflexivity|].
    split; [now exists []|]. split; [reflexivity|constructor].
  - rewrite exec_array_cons. cbn [examined]. unfold decisive.
    destruct (exec (regex e) s =? NGX_REGEX_NO_MATCHED); cbn [negb].
    + rewrite IH. exists r, (Ev_ngx_regex_exec (regex e) s (exec (regex e) s) :: t).
      split; [reflexivity|]. cbn [executed logged map].
      split; [now rewrite Hex|].
      split; [exists post; cbn [app]; now rewrite <- Hpost|].
      split; [exact Hlen|exact Hlev].
    + destruct (exec (regex e) s <? 0); eexists _, _;
        (split; [reflexivity|]); cbn [executed logged map length];
        (split; [reflexivity|]); (split; [now exists a|]);
        (split; [reflexivity|]); repeat constructor.
Qed.

(** X7: running [ngx_regex_exec_array] on two arrays joined is running it
    on the first and, only when that declines, on the second: a match or an
    error in the first array is the result, and no pattern of the second is
    then executed. *)
Theorem exec_array_app exec exec_n a b s w :
  ngx_regex_exec_array exec exec_n (a ++ b) s w
  = match ngx_regex_exec_array exec exec_n a s w with
    | Some (r, w', t) =>
        if r =? NGX_DECLINED
        then after t (ngx_regex_exec_array exec exec_n b s w')
        else Some (r, w', t)
    | None => None
    end.
Proof.
  induction a as [|e a IH].
  - cbn [app ngx_regex_exec_array]. unfold ret. cbn [Z.eqb NGX_DECLINED].
    now rewrite after_nil.
  - cbn [app]. rewrite !exec_array_cons.
    destruct (exec (regex e) s =? NGX_REGEX_NO_MATCHED).
    + rewrite IH.
      destruct (ngx_regex_exec_array exec exec_n a s w) as [[[r w'] t]|];
        [|reflexivity].
      cbn [after]. destruct (r =? NGX_DECLINED); [|reflexivity].
      now rewrite after_after.
    + destruct (exec (regex e) s <? 0); reflexivity.
Qed.

(** ** The configuration of the module *)

Lemma create_conf_silent w r w' t :
  ngx_regex_create_conf w = Some (r, w', t) -> t = [].
Proof.
  unfold ngx_regex_create_conf, ngx_list_create, store_list. run_step.
  destruct (hd true (alloc_oracle w)); cbn [negb];
    [|unfold ret; now intros [= _ _ <-]].
  run_step. cbn [alloc_oracle upd_alloc].
  destruct (hd true (tl (alloc_oracle w)));
    [|run_step; unfold ret; now intros [= _ _ <-]].
  run_step. cbn [alloc_oracle upd_alloc].
  destruct (hd true (tl (tl (alloc_oracle w))));
    run_step; unfold ret; now intros [= _ _ <-].
Qed.

Ltac new_registry w :=
  unfold ret; intros [= <- <-]; cbn;
  assert (Hfresh : lists w !! fresh (dom (lists w)) = None)
    by apply not_elem_of_dom, is_fresh;
  split; [split; discriminate|]; split; [reflexivity|];
  split;
  [ intros a l Hl; rewrite lookup_insert_ne; [exact Hl|congruence]
  | split; [reflexivity|];
    eexists; split; [reflexivity|]; split; [exact Hfresh|reflexivity] ].

(** X8: [ngx_regex_create_conf] always returns, without a call to the
    engine or a message, and leaves the cleanup records and every existing
    list as they were.  It makes three allocations and returns NULL exactly
    when one of them fails.  On success the flag of the new configuration
    is [NGX_CONF_UNSET] and the static pointer designates a new list, empty,
    with room for 8 entries in its first part, at an address no list had.
    When the list cannot be created the static pointer is NULL; when the
    configuration itself cannot be allocated the pointer is not touched. *)
Theorem create_conf_outcomes w :
  exists r w',
    ngx_regex_create_conf w = Some (r, w', [])
    /\ (r = None <-> memory_ok 3 w = false)
    /\ cleanup w' = cleanup w
    /\ (forall a l, lists w !! a = Some l -> lists w' !! a = Some l)
    /\ match r with
       | Some rcf =>
           pcre_jit rcf = NGX_CONF_UNSET
           /\ exists a,
                ngx_pcre_studies w' = Some a
                /\ lists w !! a = None
                /\ lists w'
                   = <[a := Ngx_list (Ngx_list_part [] None) 8]> (lists w)
       | None =>
           lists w' = lists w
           /\ ngx_pcre_studies w'
              = (if hd true (alloc_oracle w) then None
                 else ngx_pcre_studies w)
       end.
Proof.
  destruct (ngx_regex_create_conf w) as [[[r w'] t]|] eqn:Hrun.
  2:{ exfalso. revert Hrun.
      unfold ngx_regex_create_conf, ngx_list_create, store_list. run_step.
      destruct (hd true (alloc_oracle w)); [|discriminate].
      cbn [negb]. run_step.
      destruct (hd true (alloc_oracle (upd_alloc w (tl (alloc_oracle w)))));
        [|run_step; discriminate].
      run_step.
      match goal with
      | |- context [if ?b then _ else _] => destruct b
      end; run_step; discriminate. }
  rewrite (create_conf_silent _ _ _ _ Hrun) in *. exists r, w'.
  split; [reflexivity|].
  revert Hrun. unfold ngx_regex_create_conf, ngx_list_create, store_list, memory_ok.
  run_step.
  destruct (alloc_oracle w) as [|b1 o1] eqn:Ho1; cbn [hd tl take forallb id andb].
  - run_step. cbn [alloc_oracle upd_alloc hd tl]. run_step.
    cbn [alloc_oracle upd_alloc hd tl]. run_step.
    new_registry w.
  - destruct b1; cbn [negb]; run_step.
    2:{ unfold ret. intros [= <- <-]. cbn. rewrite ?Ho1.
        split; [split; reflexivity|]. auto. }
    cbn [alloc_oracle upd_alloc hd tl].
    destruct o1 as [|b2 o2]; cbn [hd tl take forallb id andb]; run_step.
    + cbn [alloc_oracle upd_alloc hd tl]. run_step.
      new_registry w.
    + destruct b2; run_step.
      2:{ unfold ret. intros [= <- <-]. cbn.
          split; [split; reflexivity|]. auto. }
      cbn [alloc_oracle upd_alloc hd tl].
      destruct o2 as [|b3 o3]; cbn [hd tl take forallb id andb]; run_step.
      * new_registry w.
      * destruct b3; run_step; [new_registry w|].
        unfold ret. intros [= <- <-]. cbn.
        split; [split; reflexivity|]. auto.
Qed.

(** X9: [ngx_regex_init_conf] returns [NGX_CONF_OK]; it sets an unset flag
    to 0 and keeps any other value, so the flag is never
    [NGX_CONF_UNSET] afterwards, and running it again changes nothing. *)
Theorem init_conf_settles rcf :
  fst (ngx_regex_init_conf rcf) = NGX_CONF_OK
  /\ pcre_jit (snd (ngx_regex_init_conf rcf))
     = (if pcre_jit rcf =? NGX_CONF_UNSET then 0 else pcre_jit rcf)
  /\ pcre_jit (snd (ngx_regex_init_conf rcf)) <> NGX_CONF_UNSET
  /\ ngx_regex_init_conf (snd (ngx_regex_init_conf rcf))
     = ngx_regex_init_conf rcf.
Proof.
  unfold ngx_regex_init_conf. cbn [fst snd].
  destruct (Z.eqb_spec (pcre_jit rcf) NGX_CONF_UNSET) as [E|E].
  - split; [reflexivity|]. split; [reflexivity|]. split; [discriminate|].
    reflexivity.
  - split; [reflexivity|]. split; [reflexivity|]. split; [exact E|].
    destruct (Z.eqb_spec (pcre_jit rcf) NGX_CONF_UNSET); [contradiction|].
    reflexivity.
Qed.

(** ** [ngx_regex_module_init] off the path of the JIT pass *)

(** X10: when the build has no JIT support, or when the flag read into the
    [int] is 0, [ngx_regex_module_init] calls the engine for no pattern and
    logs nothing, however many patterns the registry holds; it still
    registers the teardown hook on the registry, clears the static pointer
    and returns [NGX_OK]. *)
Theorem module_init_jit_off pcre2 have cycle w a l :
  ngx_pcre_studies w = Some a ->
  lists w !! a = Some l ->
  list_ok l = true ->
  hd true (alloc_oracle w) = true ->
  have = false \/ to_int (pcre_jit (conf_ctx cycle)) = 0 ->
  exists w',
    ngx_regex_module_init pcre2 have cycle w = Some (NGX_OK, w', [])
    /\ ngx_pcre_studies w' = None
    /\ lists w' = lists w
    /\ cleanup w'
       = Ngx_pool_cleanup (Some Handler_ngx_pcre_free_studies) (Some a)
         :: cleanup w.
Proof.
  intros Hs Hl Hok Hmem Hoff.
  rewrite (module_init_run pcre2 have cycle w a l Hs Hl Hok), Hmem.
  assert (Hjit : have && negb (to_int (pcre_jit (conf_ctx cycle)) =? 0) = false).
  { destruct Hoff as [->| ->]; [reflexivity|]. now rewrite andb_false_r. }
  rewrite Hjit. eexists. split; [reflexivity|]. cbn. auto.
Qed.

Lemma module_init_jit_off_witness :
  let pcre2 := Fixture.engine Fixture.info_named Fixture.jit_all in
  exists w',
    ngx_regex_module_init pcre2 true (Ngx_cycle (Ngx_regex_conf 0))
      (Fixture.configured pcre2) = Some (NGX_OK, w', [])
    /\ ngx_pcre_studies w' = None.
Proof.
  intros pcre2.
  destruct (module_init_jit_off pcre2 true (Ngx_cycle (Ngx_regex_conf 0))
              (Fixture.configured pcre2) 0%nat
              (Ngx_list
                 (Ngx_list_part
                    [Ngx_regex_elt (Ngx_regex 0) (lit "^/a(.*)$" ++ [NUL]);
                     Ngx_regex_elt (Ngx_regex 1) (lit "^/b" ++ [NUL])] None) 8))
    as (w' & Hrun & Hs & _).
  - reflexivity.
  - reflexivity.
  - reflexivity.
  - reflexivity.
  - right. reflexivity.
  - exists w'. split; [exact Hrun|exact Hs].
Defined.

(** X11: when the pool has no memory for the cleanup record,
    [ngx_regex_module_init] returns [NGX_ERROR] before it reads the
    registry: no call to the engine, no message, no hook registered, and
    the static pointer still designates the registry. *)
Theorem module_init_no_memory pcre2 have cycle w :
  hd true (alloc_oracle w) = false ->
  exists w',
    ngx_regex_module_init pcre2 have cycle w = Some (NGX_ERROR, w', [])
    /\ ngx_pcre_studies w' = ngx_pcre_studies w
    /\ lists w' = lists w
    /\ cleanup w' = cleanup w.
Proof.
  intros Hmem. unfold ngx_regex_module_init, ngx_pool_cleanup_add.
  run_step. rewrite Hmem. run_step. cbn [negb]. unfold ret.
  eexists. split; [reflexivity|]. cbn. auto.
Qed.

Lemma module_init_no_memory_witness :
  let pcre2 := Fixture.engine Fixture.info_named Fixture.jit_all in
  exists w',
    ngx_regex_module_init pcre2 true Fixture.cycle_on
      (upd_alloc (Fixture.configured pcre2) [false])
    = Some (NGX_ERROR, w', [])
    /\ ngx_pcre_studies w' = Some 0%nat.
Proof.
  intros pcre2.
  destruct (module_init_no_memory pcre2 true Fixture.cycle_on
              (upd_alloc (Fixture.configured pcre2) [false]) eq_refl)
    as (w' & Hrun & Hs & _).
  exists w'. split; [exact Hrun|]. rewrite Hs. reflexivity.
Defined.

(** X12: [ngx_regex_module_init] reads the registry through the static
    pointer without a test: called while the pointer is NULL (before any
    [ngx_regex_create_conf], or a second time after it has cleared the
    pointer) it never returns [NGX_OK]; it returns [NGX_ERROR] when the
    cleanup record cannot be allocated and otherwise reads through NULL,
    which has no outcome. *)
Theorem module_init_null_registry pcre2 have cycle w :
  ngx_pcre_studies w = None ->
  ngx_regex_module_init pcre2 have cycle w
  = if hd true (alloc_oracle w) then None
    else Some (NGX_ERROR, upd_alloc w (tl (alloc_oracle w)), []).
Proof.
  intros Hs. unfold ngx_regex_module_init, ngx_pool_cleanup_add, set_cln.
  run_step. destruct (hd true (alloc_oracle w)); [|reflexivity].
  run_step. cbn [negb]. run_step.
  cbn [ngx_pcre_studies upd_cleanup upd_alloc]. rewrite Hs. reflexivity.
Qed.

Lemma module_init_null_registry_witness :
  let pcre2 := Fixture.engine Fixture.info_named Fixture.jit_all in
  ngx_regex_module_init pcre2 true Fixture.cycle_on (Fixture.initialised pcre2)
  = None.
Proof.
  intros pcre2.
  rewrite (module_init_null_registry pcre2 true Fixture.cycle_on
             (Fixture.initialised pcre2) eq_refl).
  reflexivity.
Defined.

(** X13: a configuration in which no [pcre_jit] directive set the flag:
    the flag [ngx_regex_create_conf] gave, once through
    [ngx_regex_init_conf], makes [ngx_regex_module_init] compile no pattern
    with the JIT compiler, in a build with JIT support as in one
    without. *)
Theorem default_conf_makes_no_jit_call pcre2 have w0 rcf w1 t1 w a l :
  ngx_regex_create_conf w0 = Some (Some rcf, w1, t1) ->
  ngx_pcre_studies w = Some a ->
  lists w !! a = Some l ->
  list_ok l = true ->
  exists r w',
    ngx_regex_module_init pcre2 have
      (Ngx_cycle (snd (ngx_regex_init_conf rcf))) w = Some (r, w', [])
    /\ (r = NGX_OK <-> hd true (alloc_oracle w) = true).
Proof.
  intros Hconf Hs Hl Hok.
  assert (Hrcf : rcf = Ngx_regex_conf NGX_CONF_UNSET).
  { revert Hconf.
    unfold ngx_regex_create_conf, ngx_list_create, store_list. run_step.
    destruct (hd true (alloc_oracle w0)); cbn [negb];
      [|unfold ret; discriminate].
    run_step.
    destruct (hd true (alloc_oracle (upd_alloc w0 (tl (alloc_oracle w0)))));
      [|run_step; unfold ret; discriminate].
    run_step.
    match goal with
    | |- context [if ?b then _ else _] => destruct b
    end; run_step; unfold ret; [|discriminate].
    now intros [= <- _ _]. }
  subst rcf.
  rewrite (module_init_run pcre2 have _ w a l Hs Hl Hok).
  cbn [ngx_regex_init_conf snd pcre_jit conf_ctx Z.eqb NGX_CONF_UNSET Pos.eqb].
  change (to_int 0 =? 0) with true. rewrite andb_false_r.
  destruct (hd true (alloc_oracle w)); eexists _, _;
    (split; [reflexivity|]); split; try reflexivity; discriminate.
Qed.

Lemma default_conf_makes_no_jit_call_witness :
  let pcre2 := Fixture.engine Fixture.info_named Fixture.jit_all in
  exists w',
    ngx_regex_module_init pcre2 true
      (Ngx_cycle (snd (ngx_regex_init_conf (Ngx_regex_conf NGX_CONF_UNSET))))
      (Fixture.configured pcre2) = Some (NGX_OK, w', []).
Proof.
  intros pcre2.
  destruct (default_conf_makes_no_jit_call pcre2 true Fixture.empty_world
              (Ngx_regex_conf NGX_CONF_UNSET) Fixture.created []
              (Fixture.configured pcre2) 0%nat
              (Ngx_list
                 (Ngx_list_part
                    [Ngx_regex_elt (Ngx_regex 0) (lit "^/a(.*)$" ++ [NUL]);
                     Ngx_regex_elt (Ngx_regex 1) (lit "^/b" ++ [NUL])] None) 8))
    as (r & w' & Hrun & Hr).
  - reflexivity.
  - reflexivity.
  - reflexivity.
  - reflexivity.
  - exists w'. rewrite Hrun. f_equal. f_equal. f_equal.
    apply Hr. reflexivity.
Defined.

(** ** The handler of the directive, run again *)

(** X14: the flag [ngx_regex_pcre_jit] leaves is 0 or the value it found;
    it is left nonzero only in a build with JIT support whose engine
    reports the capability; the handler logs at most one message, a
    warning, and only when it clears a flag that was set; run again on the
    flag it left, it leaves the same flag and logs nothing. *)
Theorem pcre_jit_settles pcre2 have fp w :
  exists fp' t,
    ngx_regex_pcre_jit pcre2 have fp w = Some (NGX_CONF_OK, fp', w, t)
    /\ (fp' = 0 \/ fp' = fp)
    /\ (fp' <> 0 -> have = true /\ config_jit pcre2 = (0, 1))
    /\ (logged t = []
        \/ fp <> 0 /\ fp' = 0 /\ exists msg, logged t = [(NGX_LOG_WARN, msg)])
    /\ exists t2,
         ngx_regex_pcre_jit pcre2 have fp' w = Some (NGX_CONF_OK, fp', w, t2)
         /\ logged t2 = [].
Proof.
  unfold ngx_regex_pcre_jit, pcre2_config_jit, ngx_conf_log_error.
  destruct (Z.eqb_spec fp 0) as [->|Hfp].
  { exists 0, []. split; [reflexivity|]. split; [now left|].
    split; [intros []; reflexivity|]. split; [now left|].
    exists []. split; reflexivity. }
  destruct have.
  2:{ eexists 0, _. split; [reflexivity|]. split; [now left|].
      split; [intros []; reflexivity|].
      split; [right; split; [exact Hfp|]; split; [reflexivity|];
              eexists; reflexivity|].
      exists []. split; reflexivity. }
  run_step. destruct (config_jit pcre2) as [r jit]. cbn [fst snd].
  destruct (Z.eqb_spec r 0) as [->|Hr]; cbn [negb orb].
  - destruct (Z.eqb_spec jit 1) as [->|Hjit]; cbn [negb].
    + eexists fp, _. split; [reflexivity|]. split; [now right|].
      split; [intros _; split; reflexivity|]. split; [now left|].
      destruct (Z.eqb_spec fp 0); [contradiction|].
      eexists. split; reflexivity.
    + eexists 0, _. split; [reflexivity|]. split; [now left|].
      split; [intros []; reflexivity|].
      split; [right; split; [exact Hfp|]; split; [reflexivity|];
              eexists; reflexivity|].
      exists []. split; reflexivity.
  - eexists 0, _. split; [reflexivity|]. split; [now left|].
    split; [intros []; reflexivity|].
    split; [right; split; [exact Hfp|]; split; [reflexivity|];
            eexists; reflexivity|].
    exists []. split; reflexivity.
Qed.

(** ** What the load and the teardown free *)

Lemma compiled_app t1 t2 : compiled (t1 ++ t2) = compiled t1 ++ compiled t2.
Proof.
  induction t1 as [|ev t1 IH]; [reflexivity|].
  destruct ev as [? ? [re|?]| | | | | | | |]; cbn [compiled app];
    now rewrite IH.
Qed.

Lemma queries_quiet re t :
  Forall (is_query re) t -> freed t = [] /\ compiled t = [].
Proof.
  induction 1 as [|ev t (what & n & ->) _ [IH1 IH2]];
    [split; reflexivity | split; assumption].
Qed.

Lemma compiled_attempts pcre2 es :
  compiled (flat_map (jit_attempt pcre2) es) = [].
Proof.
  induction es as [|e es IH]; simpl; [reflexivity|].
  destruct (jit_verdict pcre2 (code (regex e)) =? 0); simpl; exact IH.
Qed.

Lemma load_step_quiet w w' t :
  freed t = [] -> compiled t = [] ->
  lists w' = lists w -> next_code w' = next_code w ->
  load_step_ok w w' t.
Proof.
  intros Hf Hc Hl Hn. split; [exact Hf|]. split; [lia|].
  split; [rewrite Hc; constructor|].
  intros a l re Ha Hin. left. exists l. rewrite <- Hl. auto.
Qed.

Lemma load_step_trans w w1 w2 t1 t2 :
  load_step_ok w w1 t1 -> load_step_ok w1 w2 t2 ->
  load_step_ok w w2 (t1 ++ t2).
Proof.
  intros (Hf1 & Hn1 & Hc1 & Hl1) (Hf2 & Hn2 & Hc2 & Hl2).
  split; [now rewrite freed_app, Hf1, Hf2|]. split; [lia|].
  rewrite compiled_app. split.
  - apply Forall_app. split.
    + eapply Forall_impl; [exact Hc1|]. cbn beta. intros c Hc. lia.
    + eapply Forall_impl; [exact Hc2|]. cbn beta. intros c Hc. lia.
  - intros a l re Ha Hin. rewrite in_app_iff.
    destruct (Hl2 a l re Ha Hin) as [(l1 & Ha1 & Hin1)|Hin2]; [|auto].
    destruct (Hl1 a l1 re Ha1 Hin1) as [Hold|Hin1']; auto.
Qed.

Lemma compile_step pcre2 rc w res w' t :
  ngx_regex_compile pcre2 rc w = Some (res, w', t) ->
  load_step_ok w w' t.
Proof.
  intros Hrun.
  destruct (compile_verdict pcre2 (c_str (data (pattern rc)))
              (to_int (options rc))) as [[errcode erroff]|] eqn:Hv.
  { destruct (compile_rejected_run _ _ w _ _ Hv) as (fmt & args & Hrej).
    rewrite Hrej in Hrun. injection Hrun as _ <- <-.
    now apply load_step_quiet. }
  destruct (compile_accepted_outcome _ _ _ _ _ _ Hv Hrun)
    as (_ & _ & Hn & Hcases).
  assert (Hsame : forall t0, freed t0 = [] -> compiled t0 = [next_code w] ->
                    lists w' = lists w -> load_step_ok w w' t0).
  { intros t0 Hf Hc Hl. split; [exact Hf|]. split; [lia|].
    split; [rewrite Hc; repeat constructor; lia|].
    intros a l re Ha Hin. left. exists l. rewrite <- Hl. auto. }
  destruct Hcases as [(_ & _ & Hl & ->)|[(_ & a0 & _ & _ & Hl & ->)
                                        |(_ & push & tm & Hmeta & -> & Hpush)]].
  - now apply Hsame.
  - now apply Hsame.
  - destruct (compile_metadata_run pcre2 (next_code w)
                (set_regex rc (Some (Ngx_regex (next_code w)))) w')
      as (res1 & t1 & Hrun1 & Hq & _).
    rewrite Hmeta in Hrun1. injection Hrun1 as _ <-.
    destruct (queries_quiet _ _ Hq) as [Hf Hc].
    destruct (ngx_pcre_studies w) as [a|].
    + destruct Hpush as (-> & l & l' & Hl & Hl' & He & _).
      split; [exact Hf|]. split; [lia|].
      split; [cbn [compiled app]; rewrite Hc; repeat constructor; lia|].
      intros a1 l1 re Ha1 Hin. cbn [compiled app]. rewrite Hc.
      rewrite Hl' in Ha1. destruct (decide (a1 = a)) as [->|Hne].
      * rewrite lookup_insert_eq in Ha1. injection Ha1 as <-.
        unfold codes in Hin. rewrite He, map_app, in_app_iff in Hin.
        destruct Hin as [Hin|[<-|[]]]; [left; exists l; auto|].
        right. now left.
      * rewrite lookup_insert_ne in Ha1 by congruence.
        left. exists l1. auto.
    + destruct Hpush as (-> & Hl). apply Hsame; [exact Hf| |exact Hl].
      cbn [compiled app]. now rewrite Hc.
Qed.

Lemma pcre_jit_step pcre2 have fp w r w' t :
  ngx_regex_pcre_jit pcre2 have fp w = Some (r, w', t) ->
  load_step_ok w w' t.
Proof.
  unfold ngx_regex_pcre_jit, pcre2_config_jit, ngx_conf_log_error.
  destruct (fp =? 0);
    [unfold ret; intros [= _ <- <-]; now apply load_step_quiet|].
  destruct have;
    [|run_step; unfold ret; intros [= _ <- <-]; now apply load_step_quiet].
  run_step.
  destruct (negb (fst (config_jit pcre2) =? 0)
            || negb (snd (config_jit pcre2) =? 1));
    run_step; unfold ret; intros [= _ <- <-]; now apply load_step_quiet.
Qed.

Lemma create_conf_step w r w' t :
  ngx_regex_create_conf w = Some (r, w', t) ->
  load_step_ok w w' t.
Proof.
  intros Hrun. pose proof (create_conf_silent _ _ _ _ Hrun) as ->.
  destruct (create_conf_effect _ _ _ _ Hrun)
    as (_ & Hn & [[Hl _]|(a & Hnew & Hl & _)]).
  - now apply load_step_quiet.
  - split; [reflexivity|]. split; [lia|]. split; [constructor|].
    intros a1 l1 re Ha1 Hin. left. rewrite Hl in Ha1.
    destruct (decide (a1 = a)) as [->|Hne].
    + rewrite lookup_insert_eq in Ha1. injection Ha1 as <-. destruct Hin.
    + rewrite lookup_insert_ne in Ha1 by congruence. exists l1. auto.
Qed.

Lemma module_init_null_silent pcre2 have cycle w r w' t :
  ngx_pcre_studies w = None ->
  ngx_regex_module_init pcre2 have cycle w = Some (r, w', t) ->
  t = [].
Proof.
  intros Hs. unfold ngx_regex_module_init, ngx_pool_cleanup_add, set_cln.
  run_step. destruct (hd true (alloc_oracle w)).
  - run_step. cbn [negb]. run_step.
    cbn [ngx_pcre_studies upd_cleanup upd_alloc]. rewrite Hs. discriminate.
  - run_step. cbn [negb]. unfold ret. now intros [= _ _ <-].
Qed.

Lemma module_init_step pcre2 have cycle w r w' t :
  registry_ok w = true ->
  ngx_regex_module_init pcre2 have cycle w = Some (r, w', t) ->
  load_step_ok w w' t.
Proof.
  intros Hr Hrun.
  destruct (module_init_effect _ _ _ _ _ _ _ Hrun) as (Hl & Hn & _).
  apply load_step_quiet; [| |exact Hl|exact Hn].
  - destruct (ngx_pcre_studies w) as [a|] eqn:Hs.
    + destruct (registry_ok_at _ _ Hr Hs) as (l & Ha & Hok).
      rewrite (module_init_run pcre2 have cycle w a l Hs Ha Hok) in Hrun.
      destruct (hd true (alloc_oracle w)); injection Hrun as _ _ <-;
        [|reflexivity].
      destruct (have && negb (to_int (pcre_jit (conf_ctx cycle)) =? 0));
        [apply freed_attempts|reflexivity].
    + now rewrite (module_init_null_silent _ _ _ _ _ _ _ Hs Hrun).
  - destruct (ngx_pcre_studies w) as [a|] eqn:Hs.
    + destruct (registry_ok_at _ _ Hr Hs) as (l & Ha & Hok).
      rewrite (module_init_run pcre2 have cycle w a l Hs Ha Hok) in Hrun.
      destruct (hd true (alloc_oracle w)); injection Hrun as _ _ <-;
        [|reflexivity].
      destruct (have && negb (to_int (pcre_jit (conf_ctx cycle)) =? 0));
        [apply compiled_attempts|reflexivity].
    + now rewrite (module_init_null_silent _ _ _ _ _ _ _ Hs Hrun).
Qed.

Lemma do_calls_step pcre2 have cs w w' t :
  world_inv w ->
  do_calls pcre2 have cs w = Some (tt, w', t) ->
  load_step_ok w w' t.
Proof.
  revert w t. induction cs as [|c cs IH]; intros w t Hinv; simpl.
  - unfold ret. intros [= <- <-]. now apply load_step_quiet.
  - unfold bind at 1.
    destruct (do_call pcre2 have c w) as [[[u w1] t1]|] eqn:Hcall; [|discriminate].
    destruct (do_calls pcre2 have cs w1) as [[[u' w2] t2]|] eqn:Hrest;
      [|discriminate].
    destruct u'. simpl. intros [= <- <-].
    assert (Hinv1 : world_inv w1).
    { apply (world_inv_do_calls pcre2 have [c] w w1 (t1 ++ []) Hinv).
      simpl. unfold bind at 1. rewrite Hcall. destruct u. reflexivity. }
    apply (load_step_trans w w1 w2); [|exact (IH w1 t2 Hinv1 Hrest)].
    clear IH Hrest. destruct c as [|rc|fp|cycle]; simpl in Hcall;
      unfold bind in Hcall.
    + destruct (ngx_regex_create_conf w) as [[[r w0] t0]|] eqn:H; [|discriminate].
      simpl in Hcall. injection Hcall as _ <- <-. rewrite app_nil_r.
      exact (create_conf_step _ _ _ _ H).
    + destruct (ngx_regex_compile pcre2 rc w) as [[[r w0] t0]|] eqn:H;
        [|discriminate].
      simpl in Hcall. injection Hcall as _ <- <-. rewrite app_nil_r.
      exact (compile_step _ _ _ _ _ _ H).
    + destruct (ngx_regex_pcre_jit pcre2 have fp w) as [[[r w0] t0]|] eqn:H;
        [|discriminate].
      simpl in Hcall. injection Hcall as _ <- <-. rewrite app_nil_r.
      exact (pcre_jit_step _ _ _ _ _ _ _ H).
    + destruct (ngx_regex_module_init pcre2 have cycle w) as [[[r w0] t0]|] eqn:H;
        [|discriminate].
      simpl in Hcall. injection Hcall as _ <- <-. rewrite app_nil_r.
      exact (module_init_step _ _ _ _ _ _ _ (inv_registry w Hinv) H).
Qed.

(** X15: a load that starts from a new process and returns (any calls of
    [ngx_regex_create_conf], [ngx_regex_compile], [ngx_regex_pcre_jit] and
    [ngx_regex_module_init], in any order) frees no compiled pattern; the
    teardown that follows returns, frees no compiled pattern twice, and
    frees only compiled patterns that [pcre2_compile] handed out during
    that load. *)
Theorem load_then_teardown pcre2 have cs oracle w t :
  do_calls pcre2 have cs (initial_world oracle) = Some (tt, w, t) ->
  freed t = []
  /\ exists t',
       ngx_destroy_pool w = Some (tt, w, t')
       /\ List.NoDup (freed t')
       /\ forall re, In re (freed t') -> In re (compiled t).
Proof.
  intros Hrun.
  pose proof (world_inv_do_calls _ _ _ _ _ _ (world_inv_initial oracle) Hrun)
    as Hinv.
  destruct (do_calls_step _ _ _ _ _ _ (world_inv_initial oracle) Hrun)
    as (Hfreed & _ & _ & Hlists).
  split; [exact Hfreed|].
  destruct (destroy_pool_frees_each_once w Hinv) as (t' & Hd & Hf & Hnd).
  exists t'. split; [exact Hd|]. split; [exact Hnd|].
  intros re Hin. rewrite Hf in Hin. apply in_flat_map in Hin as (c & _ & Hin).
  unfold record_codes, registry_at in Hin.
  destruct (cln_data c) as [a|]; [|destruct Hin].
  destruct (lists w !! a) as [l|] eqn:Hl; [|destruct Hin].
  destruct (Hlists a l re Hl Hin) as [(l0 & Hl0 & _)|Hc]; [|exact Hc].
  cbn in Hl0. rewrite lookup_empty in Hl0. discriminate.
Qed.

Lemma load_then_teardown_witness :
  let pcre2 := Fixture.engine Fixture.info_named Fixture.jit_all in
  exists w t t',
    do_calls pcre2 true Fixture.load (initial_world []) = Some (tt, w, t)
    /\ freed t = []
    /\ ngx_destroy_pool w = Some (tt, w, t')
    /\ List.NoDup (freed t').
Proof.
  intros pcre2.
  destruct (do_calls pcre2 true Fixture.load (initial_world []))
    as [[[[] w] t]|] eqn:Hrun; [|vm_compute in Hrun; discriminate Hrun].
  destruct (load_then_teardown _ _ _ _ _ _ Hrun)
    as (Hfreed & t' & Hd & Hnd & _).
  exists w, t, t'. auto.
Defined.

(** X16: a pattern [pcre2_compile] has compiled in a call of
    [ngx_regex_compile] that appended nothing to a registry (the static
    pointer was NULL, or the call ran out of memory) is out of reach of
    this file: whatever calls of the load follow, none frees it, and the
    teardown does not free it either. *)
Theorem unrecorded_pattern_never_freed pcre2 have rc w res w1 t1 re cs w2 t2 :
  world_inv w ->
  ngx_regex_compile pcre2 rc w = Some (res, w1, t1) ->
  In re (compiled t1) ->
  (forall a, ~ In (Ev_ngx_list_push a true) t1) ->
  do_calls pcre2 have cs w1 = Some (tt, w2, t2) ->
  ~ In re (freed (t1 ++ t2))
  /\ exists t',
       ngx_destroy_pool w2 = Some (tt, w2, t') /\ ~ In re (freed t').
Proof.
  intros Hinv Hrun Hre Hpush Hcalls.
  pose proof (world_inv_compile _ _ _ _ _ _ Hinv Hrun) as Hinv1.
  pose proof (world_inv_do_calls _ _ _ _ _ _ Hinv1 Hcalls) as Hinv2.
  destruct (compile_step _ _ _ _ _ _ Hrun) as (Hf1 & _ & Hrange & _).
  destruct (do_calls_step _ _ _ _ _ _ Hinv1 Hcalls)
    as (Hf2 & _ & Hrange2 & Hlists2).
  rewrite List.Forall_forall in Hrange, Hrange2.
  pose proof (Hrange _ Hre) as Hre1.
  assert (Hl1 : lists w1 = lists w).
  { destruct (compile_verdict pcre2 (c_str (data (pattern rc)))
                (to_int (options rc))) as [[errcode erroff]|] eqn:Hv.
    { destruct (compile_rejected_run _ _ w _ _ Hv) as (fmt & args & Hrej).
      rewrite Hrej in Hrun. now injection Hrun as _ <- _. }
    destruct (compile_accepted_outcome _ _ _ _ _ _ Hv Hrun)
      as (_ & _ & _ & [(_ & _ & Hl & _)|[(_ & a0 & _ & _ & Hl & _)
                                        |(_ & push & tm & _ & -> & Hp)]]);
      [exact Hl | exact Hl |].
    destruct (ngx_pcre_studies w) as [a|]; [|apply Hp].
    destruct Hp as (-> & _). exfalso. apply (Hpush a). right. now left. }
  assert (Hout : forall a l, lists w2 !! a = Some l -> ~ In re (codes l)).
  { intros a l Hl Hin.
    destruct (Hlists2 a l re Hl Hin) as [(l0 & Hl0 & Hin0)|Hc].
    - rewrite Hl1 in Hl0.
      destruct (inv_lists w Hinv a l0 Hl0) as (_ & Hlt & _).
      rewrite List.Forall_forall in Hlt. pose proof (Hlt _ Hin0). lia.
    - pose proof (Hrange2 _ Hc). lia. }
  split; [rewrite freed_app, Hf1, Hf2; intros []|].
  destruct (destroy_pool_frees_each_once w2 Hinv2) as (t' & Hd & Hf & _).
  exists t'. split; [exact Hd|].
  rewrite Hf. intros Hin. apply in_flat_map in Hin as (c & _ & Hin).
  unfold record_codes, registry_at in Hin.
  destruct (cln_data c) as [a|]; [|destruct Hin].
  destruct (lists w2 !! a) as [l|] eqn:Hl; [|destruct Hin].
  exact (Hout a l Hl Hin).
Qed.

Lemma unrecorded_pattern_never_freed_witness :
  let pcre2 := Fixture.engine Fixture.info_named Fixture.jit_all in
  exists res w1 t1 w2 t2 t',
    ngx_regex_compile pcre2 (Fixture.request "^/z" 100) (initial_world [])
    = Some (res, w1, t1)
    /\ compiled t1 = [0%nat]
    /\ do_calls pcre2 true Fixture.load w1 = Some (tt, w2, t2)
    /\ ngx_destroy_pool w2 = Some (tt, w2, t')
    /\ ~ In 0%nat (freed t').
Proof.
  intros pcre2.
  destruct (ngx_regex_compile pcre2 (Fixture.request "^/z" 100)
              (initial_world [])) as [[[res w1] t1]|] eqn:Hc;
    [|vm_compute in Hc; discriminate Hc].
  concrete_run Hc.
  match type of Hc with
  | _ = Some (_, ?w, _) =>
      destruct (do_calls pcre2 true Fixture.load w)
        as [[[[] w2] t2]|] eqn:Hl; [|vm_compute in Hl; discriminate Hl]
  end.
  match type of Hc with
  | _ = Some (_, _, ?t1) =>
      assert (Hre : In 0%nat (compiled t1)) by (left; reflexivity);
      assert (Hp : forall a, ~ In (Ev_ngx_list_push a true) t1)
        by (intros a Hin;
            repeat (destruct Hin as [Hin|Hin]; [discriminate Hin|]);
            destruct Hin)
  end.
  destruct (unrecorded_pattern_never_freed pcre2 true _ _ _ _ _ 0%nat
              Fixture.load w2 t2 (world_inv_initial []) Hc Hre Hp Hl)
    as (_ & t' & Hd & Hn).
  eexists _, _, _, w2, t2, t'. split; [exact Hc|]. split; [reflexivity|].
  split; [exact Hl|]. split; [exact Hd|exact Hn].
Defined.

(** X17: the teardown hook is registered only by [ngx_regex_module_init]:
    while a registry is still being filled (the static pointer designates
    it), a teardown of the pool frees none of the compiled patterns it
    holds. *)
Theorem pending_registry_not_freed w a l :
  world_inv w ->
  ngx_pcre_studies w = Some a ->
  lists w !! a = Some l ->
  exists t,
    ngx_destroy_pool w = Some (tt, w, t)
    /\ forall re, In re (codes l) -> ~ In re (freed t).
Proof.
  intros Hinv Hs Hl.
  destruct (destroy_pool_frees_each_once w Hinv) as (t & Hd & Hf & _).
  exists t. split; [exact Hd|].
  intros re Hre Hin. rewrite Hf in Hin.
  apply in_flat_map in Hin as (c & Hc & Hin).
  pose proof (inv_cleanup w Hinv) as Hok.
  rewrite List.Forall_forall in Hok.
  destruct (Hok c Hc) as (_ & a' & Ha' & _).
  unfold record_codes, registry_at in Hin. rewrite Ha' in Hin.
  destruct (lists w !! a') as [l'|] eqn:Hl'; [|destruct Hin].
  assert (Hne : a <> a').
  { intros <-. apply (inv_pending w Hinv a Hs).
    apply in_map_iff. exists c. auto. }
  exact (inv_apart w Hinv a a' l l' re Hne Hl Hl' Hre Hin).
Qed.

Lemma pending_registry_not_freed_witness :
  let pcre2 := Fixture.engine Fixture.info_named Fixture.jit_all in
  exists w t l,
    do_calls pcre2 true Fixture.parsing (initial_world []) = Some (tt, w, t)
    /\ lists w !! 0%nat = Some l
    /\ codes l = [0%nat; 1%nat]
    /\ freed (events_of ngx_destroy_pool w) = [].
Proof.
  intros pcre2.
  destruct (do_calls pcre2 true Fixture.parsing (initial_world []))
    as [[[[] w] t]|] eqn:Hrun; [|vm_compute in Hrun; discriminate Hrun].
  pose proof (world_inv_do_calls _ _ _ _ _ _ (world_inv_initial []) Hrun)
    as Hinv.
  concrete_run Hrun.
  match type of Hrun with
  | _ = Some (_, ?w0, _) =>
      destruct (pending_registry_not_freed w0 0%nat
                  (Ngx_list
                     (Ngx_list_part
                        [Fixture.elt 0 "^/a(.*)$"; Fixture.elt 1 "^/b"] None) 8)
                  Hinv eq_refl eq_refl) as (t' & Hd & _)
  end.
  eexists _, _, _. split; [exact Hrun|]. split; [reflexivity|].
  split; [reflexivity|]. reflexivity.
Defined.

(** ** What the engine is given *)

(** X18: [ngx_regex_compile] calls [pcre2_compile] once, before anything
    else, on the bytes of [rc->pattern.data] up to its first NUL
    ([PCRE2_ZERO_TERMINATED]: the length [rc->pattern.len] plays no part)
    and with the options cut to an [int]; whatever follows in the call is
    not a compilation. *)
Theorem compile_one_engine_call pcre2 rc w p q :
  registry_ok w = true ->
  data (pattern rc) = p ++ NUL :: q ->
  Forall (fun c => c <> NUL) p ->
  exists res w' t,
    ngx_regex_compile pcre2 rc w
    = Some (res, w',
            Ev_pcre2_compile p (to_int (options rc))
              match compile_verdict pcre2 p (to_int (options rc)) with
              | None => inl (next_code w)
              | Some e => inr e
              end :: t)
    /\ existsb is_compile t = false.
Proof.
  intros Hr Hdata Hp.
  pose proof (c_str_terminated p q Hp) as Hc. rewrite <- Hdata in Hc.
  rewrite <- Hc.
  destruct (compile_verdict pcre2 (c_str (data (pattern rc)))
              (to_int (options rc))) as [[errcode erroff]|] eqn:Hv.
  { destruct (compile_rejected_run _ _ w _ _ Hv) as (fmt & args & Hrej).
    rewrite Hrej. eexists _, _, _. split; reflexivity. }
  destruct (compile_returns pcre2 rc w Hr) as (res & w' & t & Hrun).
  rewrite Hrun.
  destruct (compile_accepted_outcome _ _ _ _ _ _ Hv Hrun)
    as (_ & _ & _ & [(_ & _ & _ & ->)|[(_ & a0 & _ & _ & _ & ->)
                                      |(_ & push & tm & Hmeta & -> & Hpush)]]).
  - eexists _, _, _. split; reflexivity.
  - eexists _, _, _. split; reflexivity.
  - eexists _, _, _. split; [reflexivity|].
    destruct (compile_metadata_run pcre2 (next_code w)
                (set_regex rc (Some (Ngx_regex (next_code w)))) w')
      as (res1 & t1 & Hrun1 & Hq & _).
    rewrite Hmeta in Hrun1. injection Hrun1 as _ <-.
    assert (Htm : existsb is_compile tm = false).
    { clear - Hq. induction Hq as [|ev tm (what & n & ->) _ IH];
        [reflexivity|exact IH]. }
    destruct (ngx_pcre_studies w); destruct Hpush as [-> _];
      cbn [app existsb is_compile orb]; exact Htm.
Qed.

Lemma compile_one_engine_call_witness :
  exists res w' t,
    ngx_regex_compile (Fixture.engine Fixture.info_named Fixture.jit_all)
      (Ngx_regex_compile (Ngx_str 1 (lit "^/a" ++ NUL :: lit "bc")) 0 None
         0 0 0 0 (Ngx_str 100 (repeat NUL 100)))
      Fixture.created
    = Some (res, w', Ev_pcre2_compile (lit "^/a") 0 (inl 0%nat) :: t).
Proof.
  destruct (compile_one_engine_call
              (Fixture.engine Fixture.info_named Fixture.jit_all)
              (Ngx_regex_compile (Ngx_str 1 (lit "^/a" ++ NUL :: lit "bc")) 0
                 None 0 0 0 0 (Ngx_str 100 (repeat NUL 100)))
              Fixture.created (lit "^/a") (lit "bc") eq_refl eq_refl)
    as (res & w' & t & Hrun & _).
  - repeat constructor; discriminate.
  - exists res, w', t. exact Hrun.
Defined.
